(** * The NXDL template validator of the data converter

    A shallow embedding of
      - [nexusparser/tools/dataconverter/helpers.py] (path model, type and
        value checks, template validation), and
      - [nexusparser/tools/read_nexus.py] (child resolution in NXDL trees,
        requiredness), and
      - the lookup by keystring of
        [nexusparser/tools/dataconverter/readers/json_map/reader.py],
    followed by the properties of these functions.

    Conventions of the embedding.
      - A Python [str] is a [string]; a character is one code point below
        256, so that [\d] is the ten ASCII digits.
      - A Python function that can raise returns a [result]; one that has no
        raise and calls nothing that raises is a plain function.
      - A [dict] whose iteration order the code depends on is an association
        list in insertion order. *)

From Stdlib Require Import Bool Arith ZArith Lia List Ascii String.
Import ListNotations.

Local Open Scope list_scope.
Local Open Scope string_scope.

Set Warnings "-register-all".

(** ** Exceptions and results *)

(** The exceptions the two modules can raise.  The first six are the
    [raise Exception(...)] statements of helpers.py, named after the condition
    their message reports; the others are the built-in exceptions of the
    operations the code uses without a guard. *)
Inductive exn : Type :=
| SchemaNotLoadedError                       (* "The NXDL file hasn't been loaded." *)
| MissingRequiredFieldError (path : string)  (* "The data entry, .., is required and hasn't been supplied by the reader." *)
| TypeMismatchError (path : string)          (* "The value at .. should be of Python type: .." *)
| RangeError (path : string)                 (* "The value at .. should be a positive int." *)
| FormatError (path : string)                (* "The date at .. should be a timezone aware ISO8601 formatted str. .." *)
| EnumMismatchError (path : string) (enums : list string)
                                             (* "The value at .. should be one of the following strings: .." *)
| MalformedPathError                         (* named by the specification; no statement of the code raises it *)
| KeyError (key : string)
| IndexError
| ValueError
| TypeError
| AttributeError
| OSError (file : string)
| RecursionError.

Inductive result (A : Type) : Type :=
| Ok (a : A)
| Raise (e : exn).

Arguments Ok {A} a.
Arguments Raise {A} e.

Definition bind {A B : Type} (m : result A) (f : A -> result B) : result B :=
  match m with
  | Ok a => f a
  | Raise e => Raise e
  end.

Notation "x <- m ;; k" := (bind m (fun x => k))
  (at level 61, m at next level, right associativity).
Notation "m ;;; k" := (bind m (fun _ => k))
  (at level 61, right associativity).

(** ** Strings as Python uses them *)

Module PyStr.

(** [s.split(sep)] for a one-character separator: always at least one
    piece. *)
Fixpoint split (sep : ascii) (s : string) : list string :=
  match s with
  | "" => [""]
  | String c t =>
      if Ascii.eqb c sep then "" :: split sep t
      else match split sep t with
           | h :: r => String c h :: r
           | [] => [String c ""]
           end
  end.

(** The two halves of [s] around its last [sep], or [None] when [sep] does
    not occur: [s[:s.rindex(sep)]] and [s[s.rindex(sep)+1:]]. *)
Fixpoint rpartition (sep : ascii) (s : string) : option (string * string) :=
  match s with
  | "" => None
  | String c t =>
      match rpartition sep t with
      | Some (h, l) => Some (String c h, l)
      | None => if Ascii.eqb c sep then Some ("", t) else None
      end
  end.

(** [s.rsplit(sep, 1)[0]] *)
Definition rsplit1_head (sep : ascii) (s : string) : string :=
  match rpartition sep s with
  | Some (h, _) => h
  | None => s
  end.

(** [s[s.rindex(sep) + 1:]]; [rindex] raises ValueError when [sep] does not
    occur. *)
Definition after_rindex (sep : ascii) (s : string) : result string :=
  match rpartition sep s with
  | Some (_, l) => Ok l
  | None => Raise ValueError
  end.

(** [needle in hay] on two strings: [needle] occurs as a substring. *)
Fixpoint contains (hay needle : string) : bool :=
  String.prefix needle hay
  || match hay with
     | "" => false
     | String _ t => contains t needle
     end.

(** [s.endswith(suffix)] *)
Fixpoint endswith (s suffix : string) : bool :=
  String.eqb s suffix
  || match s with
     | "" => false
     | String _ t => endswith t suffix
     end.

(** [s[n:]] *)
Fixpoint drop (n : nat) (s : string) : string :=
  match n, s with
  | O, _ => s
  | S n', String _ t => drop n' t
  | S _, "" => ""
  end.

(** [s[:n]] *)
Fixpoint take (n : nat) (s : string) : string :=
  match n, s with
  | S n', String c t => String c (take n' t)
  | _, _ => ""
  end.

(** [s[i]], IndexError out of range (non-negative indices only). *)
Definition index (s : string) (i : nat) : result ascii :=
  match String.get i s with
  | Some c => Ok c
  | None => Raise IndexError
  end.

Definition startswith (s pre : string) : bool := String.prefix pre s.

End PyStr.

(** ** Regular expressions

    The fragment of Python's [re] that helpers.py uses, with the matcher's
    backtracking order: alternatives left to right, a greedy star longest
    first, a lazy star shortest first.  A star is only ever applied to a
    character class in the source patterns. *)

Module Re.

Inductive regex : Type :=
| Eps
| Cls (p : ascii -> bool)          (* one character of a class *)
| Seq (a b : regex)
| Alt (a b : regex)                (* a|b *)
| Greedy (p : ascii -> bool)       (* c*  *)
| Lazy (p : ascii -> bool)         (* c*? *)
| Ahead (a : regex)                (* (?=a) *)
| NotAhead (a : regex)             (* (?!a) *)
| Behind (p : ascii -> bool)       (* (?<=c) *)
| Bol                              (* ^ without MULTILINE *)
| Eol.                             (* $ without MULTILINE *)

Definition Chr (c : ascii) : regex := Cls (Ascii.eqb c).

(** [.] without DOTALL: any character but a newline. *)
Definition dot (c : ascii) : bool := negb (Ascii.eqb c "010"%char).

(** [\d] on the characters of the model: the ten digits 0 to 9.  (On a
    [str] Python's [\d] also matches the decimal digits of other scripts;
    all of them lie above code point 255.) *)
Definition digit (c : ascii) : bool :=
  let n := nat_of_ascii c in (Nat.leb 48 n && Nat.leb n 57)%bool.

(** [a?], greedy. *)
Definition Opt (a : regex) : regex := Alt a Eps.

(** [a{n}] *)
Fixpoint Rep (n : nat) (a : regex) : regex :=
  match n with
  | O => Eps
  | S n' => Seq a (Rep n' a)
  end.

Fixpoint Lit (s : string) : regex :=
  match s with
  | "" => Eps
  | String c t => Seq (Chr c) (Lit t)
  end.

(** A cursor is the text before the position, reversed, and the text after
    it. *)
Definition cursor : Type := (string * string)%type.

Definition kont : Type := string -> string -> option cursor.

(** [run r seen rest k]: match [r] at the cursor [(seen, rest)] and hand
    every position where it can end to [k], in backtracking order, until
    [k] accepts one. *)
Fixpoint run (r : regex) (seen rest : string) (k : kont) {struct r}
  : option cursor :=
  match r with
  | Eps => k seen rest
  | Cls p =>
      match rest with
      | String c t => if p c then k (String c seen) t else None
      | "" => None
      end
  | Seq a b => run a seen rest (fun seen' rest' => run b seen' rest' k)
  | Alt a b =>
      match run a seen rest k with
      | Some c => Some c
      | None => run b seen rest k
      end
  | Greedy p =>
      (fix star (seen rest : string) {struct rest} : option cursor :=
         match rest with
         | String c t =>
             if p c then
               match star (String c seen) t with
               | Some r => Some r
               | None => k seen rest
               end
             else k seen rest
         | "" => k seen rest
         end) seen rest
  | Lazy p =>
      (fix star (seen rest : string) {struct rest} : option cursor :=
         match k seen rest with
         | Some r => Some r
         | None =>
             match rest with
             | String c t => if p c then star (String c seen) t else None
             | "" => None
             end
         end) seen rest
  | Ahead a =>
      match run a seen rest (fun s r => Some (s, r)) with
      | Some _ => k seen rest
      | None => None
      end
  | NotAhead a =>
      match run a seen rest (fun s r => Some (s, r)) with
      | Some _ => None
      | None => k seen rest
      end
  | Behind p =>
      match seen with
      | String c _ => if p c then k seen rest else None
      | "" => None
      end
  | Bol =>
      match seen with
      | "" => k seen rest
      | _ => None
      end
  | Eol =>
      (* the end of the string, or just before a newline that ends it *)
      match rest with
      | "" => k seen rest
      | String c "" => if Ascii.eqb c "010"%char then k seen rest else None
      | _ => None
      end
  end.

(** The text matched at the cursor, if the pattern matches there. *)
Definition match_here (r : regex) (seen rest : string) : option string :=
  match run r seen rest (fun s r => Some (s, r)) with
  | Some (_, rest') =>
      Some (PyStr.take (String.length rest - String.length rest') rest)
  | None => None
  end.

Fixpoint search_from (r : regex) (seen rest : string) : option string :=
  match match_here r seen rest with
  | Some m => Some m
  | None =>
      match rest with
      | "" => None
      | String c t => search_from r (String c seen) t
      end
  end.

(** [re.compile(r).search(s)]: the leftmost match, as its text ([group(0)]);
    [None] when there is none. *)
Definition search (r : regex) (s : string) : option string :=
  search_from r "" s.

End Re.

(** ** Path model (helpers.py) *)

Definition sq_open : ascii := "["%char.
Definition sq_close : ascii := "]"%char.
Definition slash : ascii := "/"%char.

(** [r'(.*?)(?=\[)']; the whole match is group 1. *)
Definition regex_nxdl_entry : Re.regex :=
  Re.Seq (Re.Lazy Re.dot) (Re.Ahead (Re.Chr sq_open)).

(** ENTRY[entry] -> ENTRY *)
Definition convert_data_converter_entry_to_nxdl_path_entry (entry : string)
  : string :=
  match Re.search regex_nxdl_entry entry with
  | None => entry
  | Some g1 => g1
  end.

(** /ENTRY[entry]/sample -> /ENTRY/sample *)
Definition convert_data_converter_dict_to_nxdl_path (path : string) : string :=
  fold_left
    (fun nxdl_path entry =>
       nxdl_path ++ String slash
         (convert_data_converter_entry_to_nxdl_path_entry entry))
    (tl (PyStr.split slash path)) "".

(** [r'(?<=\[)(.*?)(?=\])']; the whole match is group 1. *)
Definition regex_entry_name : Re.regex :=
  Re.Seq (Re.Behind (Ascii.eqb sq_open))
    (Re.Seq (Re.Lazy Re.dot) (Re.Ahead (Re.Chr sq_close))).

(** ENTRY[entry] -> entry *)
Definition get_name_from_data_dict_entry (entry : string) : string :=
  match Re.search regex_entry_name entry with
  | None => entry
  | Some g1 => g1
  end.

(** /ENTRY[entry]/sample -> /entry/sample *)
Definition convert_data_dict_path_to_hdf5_path (path : string) : string :=
  fold_left
    (fun hdf5path entry =>
       hdf5path ++ String slash (get_name_from_data_dict_entry entry))
    (tl (PyStr.split slash path)) "".

(** ** NXDL documents (lxml.objectify trees)

    read_nexus.py obtains every element from [objectify.parse(file)], so an
    element knows the file it came from ([.base]).  Only element children are
    modelled here (a document without comments and processing instructions;
    [Lxml] below has the documents with them), and the text of a leaf
    is prose or absent: objectify types a leaf whose whole text is a number
    or a boolean literal by that value, which NXDL definitions do not
    contain. *)

Inductive Elem : Type :=
  Element (localname : string)             (* etree.QName(e).localname *)
          (attrib : list (string * string))
          (text : option string)
          (base : string)                  (* e.base *)
          (children : list Elem).          (* e.getchildren() *)

Definition localname (e : Elem) : string :=
  match e with Element t _ _ _ _ => t end.
Definition attrib (e : Elem) : list (string * string) :=
  match e with Element _ a _ _ _ => a end.
Definition text (e : Elem) : option string :=
  match e with Element _ _ x _ _ => x end.
Definition base (e : Elem) : string :=
  match e with Element _ _ _ b _ => b end.
Definition getchildren (e : Elem) : list Elem :=
  match e with Element _ _ _ _ c => c end.

(** [d.get(key)] on a [dict] with string keys kept as an association list. *)
Fixpoint dict_get {V : Type} (d : list (string * V)) (key : string) : option V :=
  match d with
  | [] => None
  | (k, v) :: d' => if String.eqb k key then Some v else dict_get d' key
  end.

(** [key in d.keys()] *)
Definition dict_has {V : Type} (d : list (string * V)) (key : string) : bool :=
  match dict_get d key with Some _ => true | None => false end.

(** [d[key]] *)
Definition dict_item {V : Type} (d : list (string * V)) (key : string) : result V :=
  match dict_get d key with
  | Some v => Ok v
  | None => Raise (KeyError key)
  end.

(** ['k' in e.attrib.keys() and e.attrib['k'] == v] *)
Definition attrib_is (e : Elem) (k v : string) : bool :=
  dict_has (attrib e) k
  && match dict_get (attrib e) k with
     | Some x => String.eqb x v
     | None => false
     end.

(** The truth value of an element in a condition ([if e:]).  An element with
    children is a tree element, true when it has children
    ([_Element.__bool__]); a leaf is an objectify data element, here a
    [StringElement], true when its text is not empty. *)
Definition elem_bool (e : Elem) : bool :=
  match getchildren e with
  | _ :: _ => true
  | [] =>
      match text e with
      | None => false
      | Some t => negb (String.eqb t "")
      end
  end.

(** The truth value of [e] when [e] may be [None]. *)
Definition truth (e : option Elem) : bool :=
  match e with
  | None => false
  | Some x => elem_bool x
  end.

(** The files under [definitions/]: file name to the root of the parsed
    document. *)
Definition doc_store : Type := list (string * Elem).

(** [objectify.parse(file).getroot()] *)
Definition parse_getroot (fs : doc_store) (file : string) : result Elem :=
  match dict_get fs file with
  | Some root => Ok root
  | None => Raise (OSError file)
  end.

(** ** Child resolution and requiredness (read_nexus.py) *)

(** get the nexus class for a NXDL node *)
Definition get_nx_class (nxdlElem : Elem) : string :=
  match dict_item (attrib nxdlElem) "type" with
  | Ok t => t
  | Raise _ => "NX_CHAR"
  end.

(** The [while] loop of [belongs_to]: the number of leading characters of
    [name] between 'A' and 'Z'. *)
Fixpoint upper_run (name : string) : nat :=
  match name with
  | String c t =>
      if (Nat.leb 65 (nat_of_ascii c) && Nat.leb (nat_of_ascii c) 90)%bool
      then S (upper_run t) else 0
  | "" => 0
  end.

(** checks if an HDF5 node name corresponds to an NXDL element; uppercase
    letters in front can be replaced by an arbitrary name *)
Definition belongs_to (nxdlElem : Elem) (hdfName : string) : result bool :=
  let nameAny :=
    match dict_item (attrib nxdlElem) "nameType" with
    | Ok v => String.eqb v "any"
    | Raise _ => false
    end in
  if (nameAny && negb (String.eqb hdfName "doc")
      && negb (String.eqb hdfName "enumeration"))%bool
  then
    name <- dict_item (attrib nxdlElem) "name" ;;
    let ct := upper_run name in
    if (Nat.eqb ct (String.length name)
        || PyStr.endswith hdfName (PyStr.drop ct name))%bool
    then Ok true else Ok false
  else
    name <- dict_item (attrib nxdlElem) "name" ;;
    if String.eqb name hdfName then Ok true else Ok false.

(** One turn of the loop of [get_own_nxdl_child]: does [child] fit [name]? *)
Definition child_fits (child : Elem) (name : string) : result bool :=
  if (String.eqb (localname child) "group"
      && String.eqb (get_nx_class child) name)%bool then Ok true
  else
    f <- (if String.eqb (localname child) "field"
          then belongs_to child name else Ok false) ;;
    if f then Ok true
    else
      a <- (if String.eqb (localname child) "attribute"
            then belongs_to child name else Ok false) ;;
      if a then Ok true
      else if (String.eqb (localname child) "doc"
               && String.eqb name "doc")%bool then Ok true
      else if (String.eqb (localname child) "enumeration"
               && String.eqb name "enumeration")%bool then Ok true
      else Ok false.

Fixpoint first_fitting (children : list Elem) (name : string)
  : result (option Elem) :=
  match children with
  | [] => Ok None
  | child :: rest =>
      b <- child_fits child name ;;
      if b then Ok (Some child) else first_fitting rest name
  end.

(** checks if an NXDL child node fits to the specific name *)
Definition get_own_nxdl_child (nxdlElem : Elem) (name : string)
  : result (option Elem) :=
  first_fitting (getchildren nxdlElem) name.

Definition base_class_file (bc_name : string) : string :=
  "definitions/base_classes/" ++ bc_name ++ ".nxdl.xml".

(** get the NXDL child node corresponding to a specific name; the first
    component lists the files the call parsed, in order. *)
Definition get_nxdl_child (fs : doc_store) (nxdlElem : Elem) (name : string)
  : list string * result (option Elem) :=
  match get_own_nxdl_child nxdlElem name with
  | Raise e => ([], Raise e)
  | Ok ownChild =>
      if truth ownChild then ([], Ok ownChild)
      else
        (* check in the base class *)
        let bc_name := get_nx_class nxdlElem in
        (* filter primitive types *)
        match PyStr.index bc_name 2 with
        | Raise e => ([], Raise e)
        | Ok c =>
            if Ascii.eqb c "_"%char then ([], Ok None)
            else
              ([base_class_file bc_name],
               bc <- parse_getroot fs (base_class_file bc_name) ;;
               get_own_nxdl_child bc name)
        end
  end.

Definition REQUIRED : string := "<<REQUIRED>>".
Definition OPTIONAL : string := "<<OPTIONAL>>".
Definition RECOMMENDED : string := "<<RECOMMENDED>>".
Definition NOT_IN_SCHEMA : string := "<<NOT IN SCHEMA>>".

(** check for being required: REQUIRED, RECOMMENDED, OPTIONAL, NOT IN
    SCHEMA *)
Definition get_required_string (nxdlElem : option Elem) : string :=
  match nxdlElem with
  | None => NOT_IN_SCHEMA
  | Some e =>
      (* if optionality is defined *)
      if (attrib_is e "optional" "true" || attrib_is e "minOccurs" "0")%bool
      then OPTIONAL
      (* new expression for being recommended *)
      else if attrib_is e "recommended" "true" then RECOMMENDED
      (* default optionality: in BASE CLASSES true, in APPLICATIONS false *)
      else if (PyStr.contains (base e) "base_classes"
               || attrib_is e "required" "false")%bool then OPTIONAL
      else REQUIRED
  end.

(** ** Values of the data dictionary

    What a reader can put in the data dictionary: Python scalars, strings
    and byte strings, numpy scalars, numpy arrays and lists of these.  Of an
    array only the elements in flattened order matter to the checks. *)

Inductive pyclass : Type :=
| py_str | py_bytes | py_bytearray | py_bool | py_int | py_float | py_list
| py_dict
| np_ndarray | np_chararray
| np_bool_
| np_signedinteger | np_unsignedinteger | np_floating
| np_int8 | np_int16 | np_int32 | np_int64
| np_uint8 | np_uint16 | np_uint32 | np_uint64
| np_float16 | np_float32 | np_float64
| np_str_ | np_bytes_.

Scheme Equality for pyclass.

(** numpy's aliases used by the type table *)
Definition np_byte : pyclass := np_int8.
Definition np_ubyte : pyclass := np_uint8.

(** The proper superclasses of a class, among the classes above. *)
Definition superclasses (c : pyclass) : list pyclass :=
  match c with
  | py_bool => [py_int]
  | np_chararray => [np_ndarray]
  | np_int8 | np_int16 | np_int32 | np_int64 => [np_signedinteger]
  | np_uint8 | np_uint16 | np_uint32 | np_uint64 => [np_unsignedinteger]
  | np_float16 | np_float32 => [np_floating]
  | np_float64 => [np_floating; py_float]
  | np_str_ => [py_str]
  | np_bytes_ => [py_bytes]
  | _ => []
  end.

Definition issubclass (c d : pyclass) : bool :=
  pyclass_beq c d || existsb (pyclass_beq d) (superclasses c).

(** A float by its class: all the checks ask of one is its sign. *)
Inductive pyfloat : Type :=
| FNan
| FInf (negative : bool)
| FFinite (negative : bool) (mantissa : N) (exponent : Z).

Inductive width : Type := W8 | W16 | W32 | W64.
Inductive fwidth : Type := F16 | F32 | F64.

Inductive npscalar : Type :=
| NpBool (b : bool)
| NpInt (w : width) (z : Z)
| NpUInt (w : width) (n : N)
| NpFloat (w : fwidth) (f : pyfloat)
| NpStr (s : string)
| NpBytes (s : string).

Inductive value : Type :=
| VStr (s : string)
| VBytes (b : string)
| VByteArray (b : string)
| VBool (b : bool)
| VInt (z : Z)
| VFloat (f : pyfloat)
| VNp (x : npscalar)
| VArray (chararray : bool) (flat : list npscalar)
| VList (items : list value)
| VDict.                                   (* any other object *)

Definition np_type (x : npscalar) : pyclass :=
  match x with
  | NpBool _ => np_bool_
  | NpInt W8 _ => np_int8
  | NpInt W16 _ => np_int16
  | NpInt W32 _ => np_int32
  | NpInt W64 _ => np_int64
  | NpUInt W8 _ => np_uint8
  | NpUInt W16 _ => np_uint16
  | NpUInt W32 _ => np_uint32
  | NpUInt W64 _ => np_uint64
  | NpFloat F16 _ => np_float16
  | NpFloat F32 _ => np_float32
  | NpFloat F64 _ => np_float64
  | NpStr _ => np_str_
  | NpBytes _ => np_bytes_
  end.

(** [type(v)] *)
Definition type_of (v : value) : pyclass :=
  match v with
  | VStr _ => py_str
  | VBytes _ => py_bytes
  | VByteArray _ => py_bytearray
  | VBool _ => py_bool
  | VInt _ => py_int
  | VFloat _ => py_float
  | VNp x => np_type x
  | VArray false _ => np_ndarray
  | VArray true _ => np_chararray
  | VList _ => py_list
  | VDict => py_dict
  end.

(** [isinstance(v, classes)] for a class or a tuple of classes *)
Definition isinstance (v : value) (classes : list pyclass) : bool :=
  existsb (issubclass (type_of v)) classes.

(** ** Type and value checks (helpers.py) *)

Definition NEXUS_TO_PYTHON_DATA_TYPES : list (string * list pyclass) :=
  [ ("ISO8601", [py_str]);
    ("NX_BINARY", [py_bytes; py_bytearray; np_byte; np_ubyte; np_ndarray]);
    ("NX_BOOLEAN", [py_bool; np_ndarray; np_bool_]);
    ("NX_CHAR", [py_str; np_ndarray; np_chararray]);
    ("NX_DATE_TIME", [py_str]);
    ("NX_FLOAT", [py_float; np_ndarray; np_floating]);
    ("NX_INT", [py_int; np_ndarray; np_signedinteger]);
    ("NX_UINT", [np_ndarray; np_unsignedinteger]);
    ("NX_NUMBER", [py_int; py_float; np_ndarray; np_signedinteger;
                   np_unsignedinteger; np_floating]);
    ("NX_POSINT", [py_int; np_ndarray; np_signedinteger]);
                   (* > 0 is checked in is_valid_data_field() *)
    ("NXDL_TYPE_UNAVAILABLE", [py_str])
                   (* Defaults to a string if a type is not provided. *)
  ].

(** Checks whether all objects in list are validated by given callable. *)
Fixpoint check_all_children_for_callable {A : Type}
  (objects : list A) (check : A -> result bool) : result bool :=
  match objects with
  | [] => Ok true
  | obj :: rest =>
      b <- check obj ;;
      if negb b then Ok false
      else check_all_children_for_callable rest check
  end.

(** Checks whether the given value or its children are of an accepted
    type. *)
Definition is_valid_data_type (v : value) (accepted_types : list pyclass)
  : result bool :=
  match v with
  | VList items =>
      check_all_children_for_callable items
        (fun obj => Ok (isinstance obj accepted_types))
  | _ => Ok (isinstance v accepted_types)
  end.

(** [f > 0] *)
Definition float_gt_zero (f : pyfloat) : bool :=
  match f with
  | FInf false => true
  | FFinite false m _ => negb (N.eqb m 0)
  | _ => false
  end.

(** [x > 0] for a numpy scalar: a text or byte scalar does not compare with
    an int. *)
Definition np_gt_zero (x : npscalar) : result bool :=
  match x with
  | NpBool b => Ok b
  | NpInt _ z => Ok (Z.ltb 0 z)
  | NpUInt _ n => Ok (N.ltb 0 n)
  | NpFloat _ f => Ok (float_gt_zero f)
  | NpStr _ | NpBytes _ => Raise TypeError
  end.

(** [lambda x: x.flat[0] > 0 if isinstance(x, np.ndarray) else x > 0] *)
Definition is_greater_than (x : value) : result bool :=
  match x with
  | VArray _ flat =>
      match flat with
      | first :: _ => np_gt_zero first
      | [] => Raise IndexError
      end
  | VInt z => Ok (Z.ltb 0 z)
  | VBool b => Ok b
  | VFloat f => Ok (float_gt_zero f)
  | VNp s => np_gt_zero s
  | VStr _ | VBytes _ | VByteArray _ | VList _ | VDict => Raise TypeError
  end.

(** Checks whether the given value or its children are positive. *)
Definition is_positive_int (v : value) : result bool :=
  match v with
  | VList items => check_all_children_for_callable items is_greater_than
  | _ => is_greater_than v
  end.

Definition seq (rs : list Re.regex) : Re.regex := fold_right Re.Seq Re.Eps rs.

(** The pattern of [is_valid_data_field], compiled without flags (a space is
    put after the star of the fraction to keep this comment well formed):
      ^(\d{4})-(\d{2})-(\d{2})T(\d{2}):(\d{2}):(\d{2}(?:\.\d* )?)
       (((?!-00:00)(\+|-)(\d{2}):(\d{2})|Z){1})$
    Python's [$] matches at the end of the string and also just before a
    newline that ends the string. *)
Definition iso8601 : Re.regex :=
  seq [ Re.Bol;
        Re.Rep 4 (Re.Cls Re.digit); Re.Chr "-";
        Re.Rep 2 (Re.Cls Re.digit); Re.Chr "-";
        Re.Rep 2 (Re.Cls Re.digit); Re.Chr "T";
        Re.Rep 2 (Re.Cls Re.digit); Re.Chr ":";
        Re.Rep 2 (Re.Cls Re.digit); Re.Chr ":";
        Re.Rep 2 (Re.Cls Re.digit);
        Re.Opt (Re.Seq (Re.Chr ".") (Re.Greedy Re.digit));
        Re.Alt
          (seq [ Re.NotAhead (Re.Lit "-00:00");
                 Re.Alt (Re.Chr "+") (Re.Chr "-");
                 Re.Rep 2 (Re.Cls Re.digit); Re.Chr ":";
                 Re.Rep 2 (Re.Cls Re.digit) ])
          (Re.Chr "Z");
        Re.Eol ].

(** [pattern.search(value)]: a [str] (or its subclass [np.str_]) is
    searched, anything else is a TypeError. *)
Definition search_value (r : Re.regex) (v : value) : result (option string) :=
  match v with
  | VStr s | VNp (NpStr s) => Ok (Re.search r s)
  | _ => Raise TypeError
  end.

(** Checks whether a given value is valid according to what is defined in
    the NXDL. *)
Definition is_valid_data_field (v : value) (nxdl_type path : string)
  : result unit :=
  accepted_types <- dict_item NEXUS_TO_PYTHON_DATA_TYPES nxdl_type ;;
  valid <- is_valid_data_type v accepted_types ;;
  if negb valid then Raise (TypeMismatchError path)
  else
    not_positive <-
      (if String.eqb nxdl_type "NX_POSINT"
       then p <- is_positive_int v ;; Ok (negb p)
       else Ok false) ;;
    if not_positive then Raise (RangeError path)
    else
      if (String.eqb nxdl_type "ISO8601"
          || String.eqb nxdl_type "NX_DATE_TIME")%bool
      then
        results <- search_value iso8601 v ;;
        match results with
        | None => Raise (FormatError path)
        | Some _ => Ok tt
        end
      else Ok tt.

(** ** The [nexus] module

    helpers.py imports [nexus] and calls three of its functions.
    [nexus.get_required_string] is the [get_required_string] above; the two
    others are not among the sources and are taken as given, with the
    signatures their callers rely on:
      - [get_node_at_nxdl_path(nxdl_path, elem)] returns the element that
        describes a schema path under a root, or [None];
      - [get_enums(elem)] returns whether the element declares an
        enumeration, and its entries in document order. *)
Record nexus_module : Type := {
  get_node_at_nxdl_path : string -> Elem -> option Elem;
  get_enums : Elem -> bool * list string
}.

(** numpy decides what [array == s] is for a string [s], and whether the
    outcome has a truth value (an array of several elements has none); both
    depend on the numpy version.  [array_eq chararray flat s] is that truth
    value. *)
Definition array_eq_semantics : Type :=
  bool -> list npscalar -> string -> result bool.

Section Validator.

Variable nexus : nexus_module.
Variable array_eq : array_eq_semantics.

(** The truth value of [v == s] for a string [s]. *)
Definition py_eq_str (v : value) (s : string) : result bool :=
  match v with
  | VStr x | VNp (NpStr x) => Ok (String.eqb x s)
  | VArray c flat => array_eq c flat s
  | _ => Ok false
  end.

(** [v in l] for a list of strings: the items are compared in order. *)
Fixpoint py_in (v : value) (l : list string) : result bool :=
  match l with
  | [] => Ok false
  | x :: rest =>
      b <- py_eq_str v x ;;
      if b then Ok true else py_in v rest
  end.

Definition is_list (v : value) : bool :=
  match v with VList _ => true | _ => false end.

(** Checks whether a value has to be specific from the NXDL enumeration and
    returns options. *)
Definition is_value_valid_element_of_enum (v : value) (elem : option Elem)
  : result (bool * list string) :=
  match elem with
  | Some e =>
      let (has_enums, enums) := get_enums nexus e in
      if has_enums then
        invalid <-
          (if is_list v then Ok true
           else
             found <- py_in v (removelast enums) ;;
             if negb found then Ok true else py_eq_str v "") ;;
        if invalid then Ok (false, enums) else Ok (true, [])
      else Ok (true, [])
  | None => Ok (true, [])
  end.

(** The data dictionary: key to value, [None] for a slot that is declared
    but not filled, in insertion order. *)
Definition data_dict : Type := list (string * option value).

(** Checks if there is an accepted variation of path in the dictionary &
    returns the path. *)
Fixpoint path_in_data_dict (nxdl_path : string) (data : data_dict)
  : bool * string :=
  match data with
  | [] => (false, "")
  | (key, _) :: rest =>
      if String.eqb nxdl_path (convert_data_converter_dict_to_nxdl_path key)
      then (true, key)
      else path_in_data_dict nxdl_path rest
  end.

Definition NOT_FOUND : string := "<<NOT_FOUND>>".

Definition is_optional_or_recommended (required_string : string) : bool :=
  String.eqb required_string OPTIONAL
  || String.eqb required_string RECOMMENDED.

(** Finds a parent in the branch that is optional and returns its path or
    <<NOT_FOUND>>.  The function calls itself on the parent path; [depth]
    bounds the nesting of the calls, and running out of it is Python's
    RecursionError. *)
Fixpoint check_for_optional_parent_rec (depth : nat) (path : string)
  (nxdl_root : Elem) : result string :=
  match depth with
  | O => Raise RecursionError
  | S depth' =>
      let parent_path := PyStr.rsplit1_head slash path in
      if String.eqb parent_path "" then Ok NOT_FOUND
      else
        let parent_nxdl_path :=
          convert_data_converter_dict_to_nxdl_path parent_path in
        let elem := get_node_at_nxdl_path nexus parent_nxdl_path nxdl_root in
        if is_optional_or_recommended (get_required_string elem)
        then Ok parent_path
        else check_for_optional_parent_rec depth' parent_path nxdl_root
  end.

(** A call either shortens the path or leaves it as it is, and one that
    leaves it as it is repeats for ever; so a call that returns does so
    within one more level than the path has characters. *)
Definition check_for_optional_parent (path : string) (nxdl_root : Elem)
  : result string :=
  check_for_optional_parent_rec (S (String.length path)) path nxdl_root.

Definition is_not_None {A : Type} (x : option A) : bool :=
  match x with Some _ => true | None => false end.

(** Checks if any children of the given parent are set. *)
Definition check_are_children_set (optional_parent_path : string)
  (data : data_dict) : bool :=
  let optional_parent_path :=
    convert_data_converter_dict_to_nxdl_path optional_parent_path in
  (* Check if any of this optional parents children are given: *)
  existsb
    (fun kv : string * option value =>
       let nxdl_key := convert_data_converter_dict_to_nxdl_path (fst kv) in
       PyStr.contains nxdl_key optional_parent_path
       && is_not_None (snd kv))
    data.

(** [data[key] is None] *)
Definition item_is_None (data : data_dict) (key : string) : result bool :=
  v <- dict_item data key ;; Ok (negb (is_not_None v)).

(** [elem.attrib["type"] if "type" in elem.attrib.keys() else
    "NXDL_TYPE_UNAVAILABLE"]; [None] has no [attrib]. *)
Definition declared_nxdl_type (elem : option Elem) : result string :=
  match elem with
  | Some e =>
      if dict_has (attrib e) "type" then dict_item (attrib e) "type"
      else Ok "NXDL_TYPE_UNAVAILABLE"
  | None => Raise AttributeError
  end.

(** The body of the loop of [validate_data_dict] for one [path] of the
    template; [Ok tt] is the end of the turn, by [continue] or by reaching
    the end of the body. *)
Definition validate_path (data : data_dict) (nxdl_root : Elem)
  (path : string) : result unit :=
  let nxdl_path := convert_data_converter_dict_to_nxdl_path path in
  let (is_path_in_data_dict, renamed_path) :=
    path_in_data_dict nxdl_path data in
  last_entry <- PyStr.after_rindex slash path ;;
  let entry_name := get_name_from_data_dict_entry last_entry in
  first_char <- PyStr.index entry_name 0 ;;
  if Ascii.eqb first_char "@"%char then Ok tt
  else
    let elem := get_node_at_nxdl_path nexus nxdl_path nxdl_root in
    missing <-
      (if String.eqb (get_required_string elem) REQUIRED then
         if negb is_path_in_data_dict then Ok true
         else item_is_None data renamed_path
       else Ok false) ;;
    (if missing then
       (* Check if any parent is optional and none of its children are
          set. *)
       optional_parent <- check_for_optional_parent path nxdl_root ;;
       if (String.eqb optional_parent NOT_FOUND
           || check_are_children_set optional_parent data)%bool
       then Raise (MissingRequiredFieldError
                     (if String.eqb renamed_path "" then path
                      else renamed_path))
       else Ok tt
     else Ok tt) ;;;
    nxdl_type <- declared_nxdl_type elem ;;
    if is_path_in_data_dict then
      v <- dict_item data renamed_path ;;
      match v with
      | Some val =>
          is_valid_data_field val nxdl_type renamed_path ;;;
          r <- is_value_valid_element_of_enum val elem ;;
          let (is_valid_enum, enums) := r in
          if negb is_valid_enum
          then Raise (EnumMismatchError renamed_path enums)
          else Ok tt
      | None => Ok tt
      end
    else Ok tt.

Fixpoint validate_paths (template : list string) (data : data_dict)
  (nxdl_root : Elem) : result bool :=
  match template with
  | [] => Ok true
  | path :: rest =>
      validate_path data nxdl_root path ;;;
      validate_paths rest data nxdl_root
  end.

(** Checks whether all the required paths from the template are returned
    in data dict.  Of the template only its keys, in order, are used. *)
Definition validate_data_dict (template : list string) (data : data_dict)
  (nxdl_root : option Elem) : result bool :=
  match nxdl_root with
  | None => Raise SchemaNotLoadedError
  | Some root => validate_paths template data root
  end.

End Validator.

(** ** Requiredness as the specification words it

    Rules, evaluated in order, first match wins. *)

Module Requiredness.

Inductive origin : Type := ApplicationDefinition | BaseClass.

(** The definitions of base classes are the documents under
    [definitions/base_classes/]. *)
Definition origin_of (e : Elem) : origin :=
  if PyStr.contains (base e) "base_classes"
  then BaseClass else ApplicationDefinition.

Definition from_base_class (e : Elem) : bool :=
  match origin_of e with BaseClass => true | ApplicationDefinition => false end.

(** The flag [k] is present and its text is [v]. *)
Definition flag (e : Elem) (k v : string) : bool :=
  match dict_get (attrib e) k with
  | Some x => String.eqb x v
  | None => false
  end.

Definition rule : Type := ((option Elem -> bool) * string)%type.

Definition on_node (p : Elem -> bool) (node : option Elem) : bool :=
  match node with Some e => p e | None => false end.

Definition rules : list rule :=
  [ (fun node => match node with None => true | Some _ => false end,
     NOT_IN_SCHEMA);
    (on_node (fun e => flag e "optional" "true" || flag e "minOccurs" "0"),
     OPTIONAL);
    (on_node (fun e => flag e "recommended" "true"), RECOMMENDED);
    (on_node (fun e => from_base_class e || flag e "required" "false"),
     OPTIONAL) ].

Fixpoint first_match (rs : list rule) (node : option Elem) (otherwise : string)
  : string :=
  match rs with
  | [] => otherwise
  | (applies, verdict) :: rest =>
      if applies node then verdict else first_match rest node otherwise
  end.

Definition classify (node : option Elem) : string :=
  first_match rules node REQUIRED.

(** None of [optional], [minOccurs], [recommended], [required] is given. *)
Definition no_optionality_attribute (attrs : list (string * string)) : Prop :=
  dict_get attrs "optional" = None /\ dict_get attrs "minOccurs" = None /\
  dict_get attrs "recommended" = None /\ dict_get attrs "required" = None.

End Requiredness.

(** ** Concrete documents and values used as instances *)

(** [<field name="title"/>] in the document [doc]. *)
Definition title_field (doc : string) : Elem :=
  Element "field" [("name", "title")] None doc [].

(** The type tags whose accepted classes include [np.ndarray]. *)
Definition accepts_ndarray (nxdl_type : string) : bool :=
  match dict_get NEXUS_TO_PYTHON_DATA_TYPES nxdl_type with
  | Some accepted => existsb (pyclass_beq np_ndarray) accepted
  | None => false
  end.

Definition newline : string := String "010"%char "".

(** A call of a function that has no [raise] statement and applies to its
    string argument only operations defined on every string ([split], a
    slice, [re.search], [+]): the call returns. *)
Definition call {A B : Type} (f : A -> B) (x : A) : result B := Ok (f x).

(** The malformed paths the specification names: the empty path and a path
    with a trailing slash. *)
Definition malformed (path : string) : Prop :=
  path = "" \/ exists p, path = p ++ "/".

(** The output of a path conversion that rewrites each segment with [f]:
    every segment after the first, each preceded by a slash. *)
Definition join_converted (f : string -> string) (path : string) : string :=
  fold_right String.append ""
    (map (fun entry => String slash (f entry)) (tl (PyStr.split slash path))).

(** Modelled from the spec: [nexus.get_enums], which is not among the
    sources.  An enumeration is an [enumeration] child; its entries are the
    [value] attributes of the [item] children, in document order. *)
Definition enumeration_items (e : Elem) : bool * list string :=
  match find (fun c => String.eqb (localname c) "enumeration") (getchildren e) with
  | Some enumeration =>
      (true,
       flat_map
         (fun item =>
            if String.eqb (localname item) "item"
            then match dict_get (attrib item) "value" with
                 | Some v => [v]
                 | None => []
                 end
            else [])
         (getchildren enumeration))
  | None => (false, [])
  end.

(** A [nexus] module whose schema is given by a finite table from schema
    paths to elements. *)
Definition table_nexus (table : list (string * Elem)) : nexus_module :=
  {| get_node_at_nxdl_path := fun nxdl_path _ => dict_get table nxdl_path;
     get_enums := enumeration_items |}.

(** One reading of [array == s]: the comparison is elementwise, and the
    outcome has a truth value only when the array has at most one element. *)
Definition elementwise_eq : array_eq_semantics :=
  fun _ flat s =>
    match flat with
    | [] => Ok false
    | [x] => Ok (match x with NpStr t => String.eqb t s | _ => false end)
    | _ => Raise ValueError
    end.


(** [<field name="mode"> <enumeration> <item value="a"/> <item value="b"/>
    <item value="c"/> </enumeration> </field>] *)
Definition mode_field : Elem :=
  let doc := "definitions/applications/NXtest.nxdl.xml" in
  Element "field" [("name", "mode")] None doc
    [ Element "enumeration" [] None doc
        [ Element "item" [("value", "a")] None doc [];
          Element "item" [("value", "b")] None doc [];
          Element "item" [("value", "c")] None doc [] ] ].

Definition test_application : string :=
  "definitions/applications/NXtest.nxdl.xml".

(** [<group type="NXentry"> <field name="title"/> </group>] of an
    application definition. *)
Definition application_entry : Elem :=
  Element "group" [("type", "NXentry")] None test_application
    [title_field test_application].

(** The base class NXentry, reduced to its documented [title] field. *)
Definition base_class_NXentry : Elem :=
  let doc := base_class_file "NXentry" in
  Element "definition"
    [("name", "NXentry"); ("type", "group"); ("extends", "NXobject")] None doc
    [ Element "field" [("name", "title")] None doc
        [ Element "doc" [] (Some "Extended title for entry") doc [] ] ].

Definition base_title : Elem :=
  let doc := base_class_file "NXentry" in
  Element "field" [("name", "title")] None doc
    [ Element "doc" [] (Some "Extended title for entry") doc [] ].

Definition definitions : doc_store :=
  [(base_class_file "NXentry", base_class_NXentry)].

(** [<field name="data" type="NX_FLOAT"> <attribute name="units"/>
    </field>] *)
Definition units_attribute : Elem :=
  Element "attribute" [("name", "units")] None test_application [].

Definition data_field : Elem :=
  Element "field" [("name", "data"); ("type", "NX_FLOAT")] None
    test_application [units_attribute].

(** ** The optional-ancestor rule as the specification words it *)

(** Every [p] such that the path is [p], a slash and a rest; shortest
    first. *)
Fixpoint parents (path : string) : list string :=
  match path with
  | "" => []
  | String c t =>
      ((if Ascii.eqb c slash then [""] else []) ++ map (String c) (parents t))%list
  end.

(** The ancestors of a path, nearest first: one trailing segment is stripped
    at a time, down to the last path that still has a parent. *)
Definition ancestors (path : string) : list string :=
  rev (filter (fun p => negb (String.eqb p "")) (parents path)).

Section OptionalAncestor.

Variable nexus : nexus_module.
Variable nxdl_root : Elem.
Variable data : data_dict.

(** The requiredness of the schema node of a template path. *)
Definition requiredness (path : string) : string :=
  get_required_string
    (get_node_at_nxdl_path nexus
       (convert_data_converter_dict_to_nxdl_path path) nxdl_root).

(** The nearest ancestor classified OPTIONAL or RECOMMENDED. *)
Definition nearest_optional_ancestor (path : string) : option string :=
  find (fun a => is_optional_or_recommended (requiredness a))
    (ancestors path).



(** The entry of the data matching [path]: the first whose key is the same
    path in schema notation. *)
Definition matching_entry (path : string) : option (string * option value) :=
  find
    (fun kv : string * option value =>
       String.eqb (convert_data_converter_dict_to_nxdl_path path)
         (convert_data_converter_dict_to_nxdl_path (fst kv)))
    data.

(** The entry matching [path] is missing, or its value is [None]. *)
Definition missing_or_None (path : string) : bool :=
  match matching_entry path with
  | None | Some (_, None) => true
  | Some (_, Some _) => false
  end.

(** The path the error names: the key of the matching entry when there is
    one. *)
Definition reported_path (path : string) : string :=
  match matching_entry path with
  | Some (key, _) => if String.eqb key "" then path else key
  | None => path
  end.

End OptionalAncestor.

(** The first character of the name of the last segment of a path. *)
Definition entry_name_initial (path : string) : result ascii :=
  last_entry <- PyStr.after_rindex slash path ;;
  PyStr.index (get_name_from_data_dict_entry last_entry) 0.

(** An application definition with a required [version] attribute on a
    required field, and inside the instrument an optional beam with a
    required [distance], next to a beam stop. *)
Definition required_node (tag name : string) : Elem :=
  Element tag [("name", name)] None test_application [].

Definition optional_node (tag name : string) : Elem :=
  Element tag [("name", name); ("optional", "true")] None test_application [].

Definition test_schema : list (string * Elem) :=
  [ ("/ENTRY", required_node "group" "entry");
    ("/ENTRY/definition", required_node "field" "definition");
    ("/ENTRY/definition/@version", required_node "attribute" "version");
    ("/ENTRY/INSTRUMENT", required_node "group" "instrument");
    ("/ENTRY/INSTRUMENT/BEAM", optional_node "group" "beam");
    ("/ENTRY/INSTRUMENT/BEAM/distance", required_node "field" "distance");
    ("/ENTRY/INSTRUMENT/BEAM_STOP", optional_node "group" "beam_stop");
    ("/ENTRY/INSTRUMENT/BEAM_STOP/size", optional_node "field" "size") ].

Definition beam_path : string := "/ENTRY[entry]/INSTRUMENT[instrument]/BEAM[beam]".
Definition distance_path : string :=
  "/ENTRY[entry]/INSTRUMENT[instrument]/BEAM[beam]/distance".
Definition size_path : string :=
  "/ENTRY[entry]/INSTRUMENT[instrument]/BEAM_STOP[beam_stop]/size".
Definition a_float : value := VFloat (FFinite false 3 (-1)).

Definition test_nexus : nexus_module := table_nexus test_schema.

Definition test_root : Elem :=
  Element "definition" [("name", "NXtest"); ("type", "group")] None
    test_application [].


(** ** What a pattern matches

    The meaning of a pattern apart from the order in which the matcher tries
    the alternatives: [matches r seen rest seen' rest'] says that [r] can
    take the cursor [(seen, rest)] to the cursor [(seen', rest')]. *)

Module ReSpec.

(** Every character of [s] is in the class [p]. *)
Fixpoint all_in (p : ascii -> bool) (s : string) : bool :=
  match s with
  | "" => true
  | String c t => p c && all_in p t
  end.

(** The text before the cursor once [m] has been read. *)
Fixpoint shift (m seen : string) : string :=
  match m with
  | "" => seen
  | String c t => shift t (String c seen)
  end.

Fixpoint matches (r : Re.regex) (seen rest seen' rest' : string) : Prop :=
  match r with
  | Re.Eps => seen' = seen /\ rest' = rest
  | Re.Cls p =>
      exists c, p c = true /\ rest = String c rest' /\ seen' = String c seen
  | Re.Seq a b =>
      exists seen1 rest1,
        matches a seen rest seen1 rest1 /\ matches b seen1 rest1 seen' rest'
  | Re.Alt a b =>
      matches a seen rest seen' rest' \/ matches b seen rest seen' rest'
  | Re.Greedy p | Re.Lazy p =>
      exists m,
        all_in p m = true /\ rest = m ++ rest' /\ seen' = shift m seen
  | Re.Ahead a =>
      (exists seen1 rest1, matches a seen rest seen1 rest1) /\
      seen' = seen /\ rest' = rest
  | Re.NotAhead a =>
      ~ (exists seen1 rest1, matches a seen rest seen1 rest1) /\
      seen' = seen /\ rest' = rest
  | Re.Behind p =>
      (exists c t, seen = String c t /\ p c = true) /\
      seen' = seen /\ rest' = rest
  | Re.Bol => seen = "" /\ seen' = seen /\ rest' = rest
  | Re.Eol => (rest = "" \/ rest = newline) /\ seen' = seen /\ rest' = rest
  end.

(** [r] matches somewhere in [s]. *)
Definition found (r : Re.regex) (s : string) : Prop :=
  exists before rest seen' rest',
    s = before ++ rest /\ matches r (shift before "") rest seen' rest'.

End ReSpec.

(** ** Timestamps as the specification words them:
    YYYY-MM-DDTHH:MM:SS[.fraction](Z|+HH:MM|-HH:MM), where -00:00 is not a
    zone. *)

Module Timestamp.

(** The parts of the pattern [iso8601] after the seconds: the zone, and the
    optional fraction followed by the zone and the end. *)
Definition zone_pattern : Re.regex :=
  Re.Alt
    (seq [ Re.NotAhead (Re.Lit "-00:00");
           Re.Alt (Re.Chr "+") (Re.Chr "-");
           Re.Rep 2 (Re.Cls Re.digit); Re.Chr ":";
           Re.Rep 2 (Re.Cls Re.digit) ])
    (Re.Chr "Z").

Definition tail_pattern : Re.regex :=
  seq [ Re.Opt (Re.Seq (Re.Chr ".") (Re.Greedy Re.digit));
        zone_pattern;
        Re.Eol ].

(** [n] digits *)
Definition digits (n : nat) (s : string) : Prop :=
  String.length s = n /\ ReSpec.all_in Re.digit s = true.

Definition fraction (f : string) : Prop :=
  f = "" \/ exists ds, f = "." ++ ds /\ ReSpec.all_in Re.digit ds = true.

Definition zone (z : string) : Prop :=
  z = "Z" \/
  exists sign hh mm,
    z = sign ++ hh ++ ":" ++ mm /\ (sign = "+" \/ sign = "-") /\
    digits 2 hh /\ digits 2 mm /\ z <> "-00:00".

Definition well_formed (s : string) : Prop :=
  exists YYYY MM DD hh mm ss f z,
    s = YYYY ++ "-" ++ MM ++ "-" ++ DD ++ "T" ++ hh ++ ":" ++ mm ++ ":" ++ ss
          ++ f ++ z /\
    digits 4 YYYY /\ digits 2 MM /\ digits 2 DD /\
    digits 2 hh /\ digits 2 mm /\ digits 2 ss /\
    fraction f /\ zone z.

End Timestamp.

(** The last character of a string. *)
Fixpoint last_char (s : string) : option ascii :=
  match s with
  | "" => None
  | String c "" => Some c
  | String _ t => last_char t
  end.

(** ** Paths by their segments *)

(** The path made of the given segments: a slash before each. *)
Definition join_segments (segments : list string) : string :=
  fold_right (fun segment path => String slash (segment ++ path)) "" segments.

(** The characters a class or field token is written with: any but a newline
    and an opening bracket. *)
Definition token_char (c : ascii) : bool :=
  Re.dot c && negb (Ascii.eqb sq_open c).

(** The characters a suggested name is written with: any but a newline and a
    closing bracket. *)
Definition name_char (c : ascii) : bool :=
  Re.dot c && negb (Ascii.eqb sq_close c).

Definition not_slash (c : ascii) : bool := negb (Ascii.eqb c slash).
Definition not_open (c : ascii) : bool := negb (Ascii.eqb sq_open c).

(** [(.*?)(?=c)]: the two bracket patterns of the path model end in it. *)
Definition until (stop : ascii) : Re.regex :=
  Re.Seq (Re.Lazy Re.dot) (Re.Ahead (Re.Chr stop)).

(** [CLASS[name]] *)
Definition bracketed (class name : string) : string :=
  class ++ String sq_open (name ++ String sq_close "").

(** ** Timestamps the pattern accepts *)

(** A well-formed timestamp, alone or followed by one newline. *)
Definition timestamp_text (s : string) : Prop :=
  Timestamp.well_formed s \/
  exists s0, s = s0 ++ newline /\ Timestamp.well_formed s0.

(** ** Names of NeXus classes and XML tags (helpers.py) *)

(** [c.upper()] for a character of ASCII: the letters a to z are moved to A
    to Z.  Above ASCII Python's [upper] can leave the characters of the
    model (the upper case of one letter can be two letters); the properties
    of [upper] are stated for ASCII text. *)
Definition upper_char (c : ascii) : ascii :=
  let n := nat_of_ascii c in
  if (Nat.leb 97 n && Nat.leb n 122)%bool then ascii_of_nat (n - 32) else c.

(** [s.upper()] *)
Fixpoint upper (s : string) : string :=
  match s with
  | "" => ""
  | String c t => String (upper_char c) (upper t)
  end.

Definition is_ascii (c : ascii) : bool := Nat.ltb (nat_of_ascii c) 128.

(** Helper function to convert a Nexus class from <NxClass> to <CLASS>. *)
Definition convert_nexus_to_caps (nexus_name : string) : string :=
  upper (PyStr.drop 2 nexus_name).

(** Helper function to suggest a name for a group from its Nexus class. *)
Definition convert_nexus_to_suggested_name (nexus_name : string) : string :=
  PyStr.drop 2 nexus_name.

Definition curly_close : ascii := "}"%char.

(** Helper function to remove the namespace from an XML tag:
    [tag.split("}")[-1]]. *)
Definition remove_namespace_from_tag (tag : string) : string :=
  last (PyStr.split curly_close tag) "".

(** An element of [xml.etree.ElementTree]: its tag, with the namespace in
    curly brackets in front, its attributes, its text and its children,
    which are what iterating over the element yields. *)
Inductive ETElement : Type :=
  ETNode (tag : string) (attrib : list (string * string))
         (text : option string) (children : list ETElement).

Definition et_tag (e : ETElement) : string :=
  match e with ETNode t _ _ _ => t end.
Definition et_children (e : ETElement) : list ETElement :=
  match e with ETNode _ _ _ c => c end.

(** Helper function to get the actual first group element from the NXDL. *)
Definition get_first_group (root : ETElement) : ETElement :=
  match
    find (fun child =>
            String.eqb (remove_namespace_from_tag (et_tag child)) "group")
      (et_children root)
  with
  | Some child => child
  | None => root
  end.

(** The characters of a name that can stand on either side of the brackets
    of a segment: any but a newline, a slash and the two brackets. *)
Definition plain_char (c : ascii) : bool :=
  Re.dot c && negb (Ascii.eqb sq_open c) && negb (Ascii.eqb sq_close c)
  && negb (Ascii.eqb c slash).

(** ** The data of the json_map reader (readers/json_map/reader.py) *)

(** What the reader's own functions raise: the KeyError of
    [data[current_key]], the exception for xarray datasets, and the
    IndexError of [keystring[0]]. *)
Inductive reader_exn : Type :=
| DataKeyError (key : string)
| DatasetNotSupported      (* "Xarray datasets are not supported. You can only use xarray dataarrays." *)
| StringIndexError.

Section JsonMapData.

(** The objects that are neither a [dict] nor an xarray [DataArray] or
    [Dataset]: numbers, strings, lists, arrays. *)
Variable obj : Type.

(** The data object: nested dicts with string keys. *)
Inductive pydata : Type :=
| PyDict (items : list (string * pydata))
| DataArray (values : obj)          (* a DataArray, with its [.values] *)
| Dataset
| PyObject (x : obj).

(** [keystring.split("/")[0]] *)
Definition current_key_of (keystring : string) : string :=
  hd "" (PyStr.split slash keystring).

(** [s[i + 1:]] for the first index [i] of [sep] in [s], when there is
    one. *)
Fixpoint after_first (sep : ascii) (s : string) : option string :=
  match s with
  | "" => None
  | String c t => if Ascii.eqb c sep then Some t else after_first sep t
  end.

(** [keystring[keystring.find("/") + 1:]]: [find] gives -1 when there is no
    slash, and the slice is then the whole string. *)
Definition below_current_key (keystring : string) : string :=
  match after_first slash keystring with
  | Some rest => rest
  | None => keystring
  end.

(** What [get_val_nested_keystring_from_dict] makes of [data[current_key]]
    once it is found: it calls itself on a dict, with the keystring for that
    dict, and returns the values of a DataArray, or the object itself. *)
Fixpoint value_of_item (item : pydata) (keystring : string) {struct item}
  : obj + reader_exn :=
  match item with
  | PyDict data =>
      (fix lookup (l : list (string * pydata)) : obj + reader_exn :=
         match l with
         | [] => inr (DataKeyError (current_key_of keystring))
         | (k, child) :: l' =>
             if String.eqb k (current_key_of keystring)
             then value_of_item child (below_current_key keystring)
             else lookup l'
         end) data
  | DataArray values => inl values
  | Dataset => inr DatasetNotSupported
  | PyObject x => inl x
  end.

(** Fetches data from the actual data dict using path strings without a
    leading '/': 'path/to/data/in/dict'.  The keystring is a string here, as
    in every call of the reader; a keystring that is a list or a dict is
    returned as it is. *)
Definition get_val_nested_keystring_from_dict (keystring : string)
  (data : list (string * pydata)) : obj + reader_exn :=
  value_of_item (PyDict data) keystring.

(** A value of the mapping: a string, or any other object. *)
Inductive mapping_value : Type :=
| MapStr (s : string)
| MapObject (x : obj).

(** Checks whether a given value in the mapping is a mapping path or just
    data. *)
Definition is_path (keystring : mapping_value) : bool + reader_exn :=
  match keystring with
  | MapStr s =>
      match String.get 0 s with
      | Some c => inl (Ascii.eqb c slash)
      | None => inr StringIndexError
      end
  | MapObject _ => inl false
  end.

(** [data[k1][k2]...[kn]] where every step but the last is in a dict. *)
Fixpoint item_at (keys : list string) (item : pydata) : option pydata :=
  match keys with
  | [] => Some item
  | k :: ks =>
      match item with
      | PyDict data =>
          match dict_get data k with
          | Some child => item_at ks child
          | None => None
          end
      | _ => None
      end
  end.

End JsonMapData.

Arguments PyDict {obj} items.
Arguments DataArray {obj} values.
Arguments Dataset {obj}.
Arguments PyObject {obj} x.
Arguments value_of_item {obj} item keystring.
Arguments get_val_nested_keystring_from_dict {obj} keystring data.
Arguments MapStr {obj} s.
Arguments MapObject {obj} x.
Arguments is_path {obj} keystring.
Arguments item_at {obj} keys item.

Definition not_close (c : ascii) : bool := negb (Ascii.eqb sq_close c).

(** ** NXDL documents with their comments (lxml)

    [getchildren()] returns every child node of an element, in document
    order: the child elements and also the comments and processing
    instructions between them (entity references are resolved by the parser
    and do not appear).  [etree.QName] of a comment or of a processing
    instruction raises ValueError, its tag being no string.  An element with
    any child node is a tree element, true in a condition; a leaf is an
    objectify data element, true when its text (prose, as above) is not
    empty.  The functions
    of read_nexus.py that walk over children are embedded here over such
    documents; on a document without comments and processing instructions
    they are the functions above. *)

Module Lxml.

Inductive Element : Type :=
  element (localname : string)           (* etree.QName(e).localname *)
          (attrib : list (string * string))
          (text : option string)
          (base : string)                (* e.base *)
          (children : list Child)        (* e.getchildren() *)
with Child : Type :=
| ElementChild (e : Element)
| CommentChild (text : string)
| PIChild (target text : string).

Definition localname (e : Element) : string :=
  match e with element t _ _ _ _ => t end.
Definition attrib (e : Element) : list (string * string) :=
  match e with element _ a _ _ _ => a end.
Definition text (e : Element) : option string :=
  match e with element _ _ x _ _ => x end.
Definition getchildren (e : Element) : list Child :=
  match e with element _ _ _ _ c => c end.

(** [etree.QName(child).localname] *)
Definition QName_localname (child : Child) : result string :=
  match child with
  | ElementChild e => Ok (localname e)
  | CommentChild _ | PIChild _ _ => Raise ValueError
  end.

(** get the nexus class for a NXDL node *)
Definition get_nx_class (nxdlElem : Element) : string :=
  match dict_item (attrib nxdlElem) "type" with
  | Ok t => t
  | Raise _ => "NX_CHAR"
  end.

(** checks if an HDF5 node name corresponds to an NXDL element; uppercase
    letters in front can be replaced by an arbitrary name *)
Definition belongs_to (nxdlElem : Element) (hdfName : string) : result bool :=
  let nameAny :=
    match dict_item (attrib nxdlElem) "nameType" with
    | Ok v => String.eqb v "any"
    | Raise _ => false
    end in
  if (nameAny && negb (String.eqb hdfName "doc")
      && negb (String.eqb hdfName "enumeration"))%bool
  then
    name <- dict_item (attrib nxdlElem) "name" ;;
    let ct := upper_run name in
    if (Nat.eqb ct (String.length name)
        || PyStr.endswith hdfName (PyStr.drop ct name))%bool
    then Ok true else Ok false
  else
    name <- dict_item (attrib nxdlElem) "name" ;;
    if String.eqb name hdfName then Ok true else Ok false.

(** One turn of the loop of [get_own_nxdl_child]: does [child] fit [name]?
    The first test of the turn takes [etree.QName(child)]. *)
Definition child_fits (child : Child) (name : string) : result bool :=
  tag <- QName_localname child ;;
  match child with
  | ElementChild e =>
      if (String.eqb tag "group" && String.eqb (get_nx_class e) name)%bool
      then Ok true
      else
        f <- (if String.eqb tag "field" then belongs_to e name else Ok false) ;;
        if f then Ok true
        else
          a <- (if String.eqb tag "attribute"
                then belongs_to e name else Ok false) ;;
          if a then Ok true
          else if (String.eqb tag "doc" && String.eqb name "doc")%bool
          then Ok true
          else if (String.eqb tag "enumeration"
                   && String.eqb name "enumeration")%bool then Ok true
          else Ok false
  | CommentChild _ | PIChild _ _ => Raise ValueError
  end.

Fixpoint first_fitting (children : list Child) (name : string)
  : result (option Element) :=
  match children with
  | [] => Ok None
  | child :: rest =>
      b <- child_fits child name ;;
      if b then
        match child with
        | ElementChild e => Ok (Some e)
        | CommentChild _ | PIChild _ _ => Raise ValueError
        end
      else first_fitting rest name
  end.

(** checks if an NXDL child node fits to the specific name *)
Definition get_own_nxdl_child (nxdlElem : Element) (name : string)
  : result (option Element) :=
  first_fitting (getchildren nxdlElem) name.

(** The truth value of an element in a condition ([if e:]). *)
Definition elem_bool (e : Element) : bool :=
  match getchildren e with
  | _ :: _ => true
  | [] =>
      match text e with
      | None => false
      | Some t => negb (String.eqb t "")
      end
  end.

Definition truth (e : option Element) : bool :=
  match e with
  | None => false
  | Some x => elem_bool x
  end.

(** The files under [definitions/]: file name to the root of the parsed
    document. *)
Definition doc_store : Type := list (string * Element).

(** [objectify.parse(file).getroot()] *)
Definition parse_getroot (fs : doc_store) (file : string) : result Element :=
  match dict_get fs file with
  | Some root => Ok root
  | None => Raise (OSError file)
  end.

(** get the NXDL child node corresponding to a specific name; the first
    component lists the files the call parsed, in order. *)
Definition get_nxdl_child (fs : doc_store) (nxdlElem : Element) (name : string)
  : list string * result (option Element) :=
  match get_own_nxdl_child nxdlElem name with
  | Raise e => ([], Raise e)
  | Ok ownChild =>
      if truth ownChild then ([], Ok ownChild)
      else
        (* check in the base class *)
        let bc_name := get_nx_class nxdlElem in
        (* filter primitive types *)
        match PyStr.index bc_name 2 with
        | Raise e => ([], Raise e)
        | Ok c =>
            if Ascii.eqb c "_"%char then ([], Ok None)
            else
              ([base_class_file bc_name],
               bc <- parse_getroot fs (base_class_file bc_name) ;;
               get_own_nxdl_child bc name)
        end
  end.

(** The child is a comment or a processing instruction. *)
Definition no_element (child : Child) : bool :=
  match child with
  | ElementChild _ => false
  | CommentChild _ | PIChild _ _ => true
  end.

End Lxml.

(** A document without comments and processing instructions, as an lxml
    document. *)
Fixpoint lxml_of (e : Elem) : Lxml.Element :=
  match e with
  | Element l a t b cs =>
      Lxml.element l a t b (map (fun c => Lxml.ElementChild (lxml_of c)) cs)
  end.

(** * Properties *)

(** ** Requiredness *)

Lemma attrib_is_flag (e : Elem) (k v : string) :
  attrib_is e k v = Requiredness.flag e k v.
Proof.
  unfold attrib_is, Requiredness.flag, dict_has.
  destruct (dict_get (attrib e) k); reflexivity.
Qed.

Lemma attrib_is_absent (e : Elem) (k v : string) :
  dict_get (attrib e) k = None -> attrib_is e k v = false.
Proof.
  intro H. rewrite attrib_is_flag. unfold Requiredness.flag. now rewrite H.
Qed.

Lemma get_required_string_refines (node : option Elem) :
  get_required_string node = Requiredness.classify node.
Proof.
  destruct node as [e|]; [|reflexivity].
  unfold get_required_string, Requiredness.classify, Requiredness.rules.
  cbn [Requiredness.first_match Requiredness.on_node].
  rewrite !attrib_is_flag.
  unfold Requiredness.from_base_class, Requiredness.origin_of.
  destruct (Requiredness.flag e "optional" "true" || Requiredness.flag e "minOccurs" "0")%bool;
    [reflexivity|].
  destruct (Requiredness.flag e "recommended" "true"); [reflexivity|].
  destruct (PyStr.contains (base e) "base_classes"); reflexivity.
Qed.

Lemma get_required_string_four_values (node : option Elem) :
  In (get_required_string node) [REQUIRED; OPTIONAL; RECOMMENDED; NOT_IN_SCHEMA].
Proof.
  destruct node as [e|]; cbn [get_required_string].
  - destruct (attrib_is e "optional" "true" || attrib_is e "minOccurs" "0")%bool;
      [right; left; reflexivity|].
    destruct (attrib_is e "recommended" "true"); [right; right; left; reflexivity|].
    destruct (PyStr.contains (base e) "base_classes" || attrib_is e "required" "false")%bool.
    + right; left; reflexivity.
    + left; reflexivity.
  - do 3 right. left. reflexivity.
Qed.

Lemma required_strings_distinct :
  NoDup [REQUIRED; OPTIONAL; RECOMMENDED; NOT_IN_SCHEMA].
Proof.
  repeat constructor; cbn; intuition discriminate.
Qed.

(** C2.  [get_required_string] is the classification the specification
    describes: it returns, for every node and for [None], exactly one of the
    four strings, by the rules taken in order with the first match winning
    (no node: NOT IN SCHEMA; optional="true" or minOccurs="0": OPTIONAL;
    recommended="true": RECOMMENDED; a node of a base-class document or
    required="false": OPTIONAL; otherwise REQUIRED).  A field without any
    optionality attribute is OPTIONAL when it comes from a base class and
    REQUIRED when the same field comes from an application definition. *)
Theorem get_required_string_classify :
  (forall node, get_required_string node = Requiredness.classify node) /\
  (forall node,
      In (get_required_string node)
         [REQUIRED; OPTIONAL; RECOMMENDED; NOT_IN_SCHEMA]) /\
  NoDup [REQUIRED; OPTIONAL; RECOMMENDED; NOT_IN_SCHEMA] /\
  get_required_string None = NOT_IN_SCHEMA /\
  (forall tag attrs txt kids base_doc app_doc,
      Requiredness.no_optionality_attribute attrs ->
      PyStr.contains base_doc "base_classes" = true ->
      PyStr.contains app_doc "base_classes" = false ->
      get_required_string (Some (Element tag attrs txt base_doc kids)) = OPTIONAL /\
      get_required_string (Some (Element tag attrs txt app_doc kids)) = REQUIRED).
Proof.
  split; [exact get_required_string_refines|].
  split; [exact get_required_string_four_values|].
  split; [exact required_strings_distinct|].
  split; [reflexivity|].
  intros tag attrs txt kids base_doc app_doc (Ho & Hm & Hr & Hq) Hb Ha.
  unfold get_required_string.
  rewrite !attrib_is_absent by assumption.
  cbn [base orb]. rewrite Hb, Ha. split; reflexivity.
Qed.

Lemma get_required_string_classify_witness :
  Requiredness.no_optionality_attribute [("name", "title")] /\
  PyStr.contains "definitions/base_classes/NXentry.nxdl.xml" "base_classes"
  = true /\
  PyStr.contains "definitions/applications/NXmx.nxdl.xml" "base_classes"
  = false /\
  get_required_string
    (Some (title_field "definitions/base_classes/NXentry.nxdl.xml")) = OPTIONAL /\
  get_required_string
    (Some (title_field "definitions/applications/NXmx.nxdl.xml")) = REQUIRED.
Proof.
  assert (H1 : Requiredness.no_optionality_attribute [("name", "title")])
    by (repeat split; reflexivity).
  assert (H2 : PyStr.contains "definitions/base_classes/NXentry.nxdl.xml"
                 "base_classes" = true) by (vm_compute; reflexivity).
  assert (H3 : PyStr.contains "definitions/applications/NXmx.nxdl.xml"
                 "base_classes" = false) by (vm_compute; reflexivity).
  repeat (split; [assumption|]).
  exact (proj2 (proj2 (proj2 (proj2 get_required_string_classify)))
           "field" [("name", "title")] None []
           "definitions/base_classes/NXentry.nxdl.xml"
           "definitions/applications/NXmx.nxdl.xml" H1 H2 H3).
Defined.

(** ** Type and value checks *)

Lemma pyclass_beq_refl (c : pyclass) : pyclass_beq c c = true.
Proof. destruct c; reflexivity. Qed.

Lemma pyclass_beq_eq (c d : pyclass) : pyclass_beq c d = true <-> c = d.
Proof.
  split.
  - apply internal_pyclass_dec_bl.
  - intros ->. apply pyclass_beq_refl.
Qed.

Lemma check_all_isinstance_returns (items : list value) (accepted : list pyclass) :
  check_all_children_for_callable items
    (fun obj => Ok (isinstance obj accepted))
  = Ok (forallb (fun obj => isinstance obj accepted) items).
Proof.
  induction items as [|x items IH]; [reflexivity|].
  cbn. destruct (isinstance x accepted); cbn; [exact IH|reflexivity].
Qed.

(** The type check itself has no exception path. *)
Lemma is_valid_data_type_returns (v : value) (accepted : list pyclass) :
  exists valid, is_valid_data_type v accepted = Ok valid.
Proof.
  destruct v; cbn; eauto.
  rewrite check_all_isinstance_returns. eauto.
Qed.

Lemma isinstance_ndarray (chararray : bool) (flat : list npscalar)
  (accepted : list pyclass) :
  In np_ndarray accepted ->
  isinstance (VArray chararray flat) accepted = true.
Proof.
  intro H. unfold isinstance. apply existsb_exists.
  exists np_ndarray. split; [exact H|]. destruct chararray; reflexivity.
Qed.

Lemma dict_get_types_cases (t : string) (accepted : list pyclass) :
  dict_get NEXUS_TO_PYTHON_DATA_TYPES t = Some accepted ->
  In (t, accepted) NEXUS_TO_PYTHON_DATA_TYPES.
Proof.
  generalize NEXUS_TO_PYTHON_DATA_TYPES as d.
  induction d as [|[k v] d IH]; cbn; [discriminate|].
  destruct (String.eqb k t) eqn:E.
  - intros [= <-]. apply String.eqb_eq in E. subst. now left.
  - intro H. right. now apply IH.
Qed.

(** Under NX_POSINT an array that is not empty is judged by the comparison
    of its first element with zero. *)
Lemma posint_array_checked (chararray : bool) (first : npscalar)
  (rest : list npscalar) (path : string) :
  is_valid_data_field (VArray chararray (first :: rest)) "NX_POSINT" path
  = (p <- np_gt_zero first ;; if p then Ok tt else Raise (RangeError path)).
Proof.
  destruct chararray; unfold is_valid_data_field, dict_item;
    cbn [dict_get NEXUS_TO_PYTHON_DATA_TYPES String.eqb Ascii.eqb Bool.eqb bind
         is_valid_data_type isinstance type_of existsb issubclass pyclass_beq
         superclasses orb negb is_positive_int is_greater_than];
    destruct (np_gt_zero first) as [[]|e]; reflexivity.
Qed.

(** C5.  Under NX_POSINT an array is judged by its first element in
    flattened order alone: the positivity check of an array is the
    comparison of that element with zero, whatever follows; the scalar 0
    fails with the range error, the scalar 1 passes, and an array whose first
    flattened element is 5 passes whatever the later elements are.  The
    first element is inspected: an array whose first element is an integer,
    an unsigned integer, a bool or a float passes when that element is
    greater than zero and fails with the range error when it is not, whatever
    follows; so the arrays [-3.0], [0] of unsigned bytes and [-1, 5] fail. *)
Theorem posint_array_first_element_only :
  (forall chararray first rest,
      is_positive_int (VArray chararray (first :: rest)) = np_gt_zero first) /\
  (forall chararray first rest rest' path,
      is_valid_data_field (VArray chararray (first :: rest)) "NX_POSINT" path
      = is_valid_data_field (VArray chararray (first :: rest')) "NX_POSINT" path) /\
  (forall path,
      is_valid_data_field (VInt 0) "NX_POSINT" path = Raise (RangeError path)) /\
  (forall path, is_valid_data_field (VInt 1) "NX_POSINT" path = Ok tt) /\
  (forall chararray w rest path,
      is_valid_data_field (VArray chararray (NpInt w 5 :: rest)) "NX_POSINT" path
      = Ok tt) /\
  (forall chararray first rest path,
      is_valid_data_field (VArray chararray (first :: rest)) "NX_POSINT" path
      = match first with
        | NpBool b => if b then Ok tt else Raise (RangeError path)
        | NpInt _ z => if Z.ltb 0 z then Ok tt else Raise (RangeError path)
        | NpUInt _ n => if N.ltb 0 n then Ok tt else Raise (RangeError path)
        | NpFloat _ FNan => Raise (RangeError path)
        | NpFloat _ (FInf negative) =>
            if negative then Raise (RangeError path) else Ok tt
        | NpFloat _ (FFinite negative mantissa _) =>
            if (negb negative && negb (N.eqb mantissa 0))%bool
            then Ok tt else Raise (RangeError path)
        | NpStr _ | NpBytes _ => Raise TypeError
        end) /\
  (forall path,
      is_valid_data_field (VArray false [NpFloat F64 (FFinite true 3 0)])
        "NX_POSINT" path = Raise (RangeError path) /\
      is_valid_data_field (VArray false [NpUInt W8 0]) "NX_POSINT" path
      = Raise (RangeError path) /\
      is_valid_data_field (VArray false [NpInt W64 (-1); NpInt W64 5])
        "NX_POSINT" path = Raise (RangeError path) /\
      is_valid_data_field (VArray false [NpInt W64 0]) "NX_POSINT" path
      = Raise (RangeError path)).
Proof.
  split; [reflexivity|].
  split; [intros [] first rest rest' path; reflexivity|].
  split; [reflexivity|].
  split; [reflexivity|].
  split; [intros [] w rest path; reflexivity|].
  split.
  - intros chararray first rest path.
    rewrite posint_array_checked.
    destruct first as [b|w z|w n|w f|t|t]; cbn [np_gt_zero bind];
      try reflexivity.
    destruct f as [|[]|[] m e]; reflexivity.
  - intro path. repeat split.
Qed.

(** A list is checked element by element: a list of integers is positive
    exactly when every one of them is. *)
Lemma posint_list_every_element (zs : list Z) :
  is_positive_int (VList (map VInt zs)) = Ok (forallb (Z.ltb 0) zs).
Proof.
  cbn [is_positive_int].
  induction zs as [|z zs IH]; [reflexivity|].
  cbn [map check_all_children_for_callable is_greater_than bind forallb].
  destruct (Z.ltb 0 z); cbn [negb andb]; [exact IH|reflexivity].
Qed.

(** C4 (the code departs from the specification).  The array of the two elements 5
    and -1 is accepted under NX_POSINT although its second element is not
    greater than zero; a list of the same two numbers is refused. *)
Theorem posint_array_later_element_unchecked :
  forall path,
    is_valid_data_field (VArray false [NpInt W64 5; NpInt W64 (-1)])
      "NX_POSINT" path = Ok tt /\
    np_gt_zero (NpInt W64 (-1)) = Ok false /\
    is_valid_data_field (VList [VInt 5; VInt (-1)]) "NX_POSINT" path
    = Raise (RangeError path).
Proof.
  intro path. repeat split.
Qed.

Lemma accepts_ndarray_iff (t : string) :
  accepts_ndarray t = true <->
  In t ["NX_BINARY"; "NX_BOOLEAN"; "NX_CHAR"; "NX_FLOAT"; "NX_INT"; "NX_UINT";
        "NX_NUMBER"; "NX_POSINT"].
Proof.
  split.
  - unfold accepts_ndarray.
    destruct (dict_get NEXUS_TO_PYTHON_DATA_TYPES t) as [accepted|] eqn:E;
      [|discriminate].
    apply dict_get_types_cases in E. cbn in E.
    repeat (destruct E as [E|E]; [injection E as <- <-; cbn; intuition (auto; discriminate)|]).
    contradiction.
  - cbn. intros H.
    repeat (destruct H as [<-|H]; [reflexivity|]). contradiction.
Qed.

(** C10.  The type tags whose accepted classes include [np.ndarray] are
    NX_BINARY, NX_BOOLEAN, NX_CHAR, NX_FLOAT, NX_INT, NX_UINT, NX_NUMBER and
    NX_POSINT, and under each of them the type check accepts every value that
    is an ndarray (not a list), whatever its elements are; in particular an
    ndarray of strings is a valid NX_FLOAT field. *)
Theorem ndarray_passes_type_check :
  (forall t,
      accepts_ndarray t = true <->
      In t ["NX_BINARY"; "NX_BOOLEAN"; "NX_CHAR"; "NX_FLOAT"; "NX_INT";
            "NX_UINT"; "NX_NUMBER"; "NX_POSINT"]) /\
  (forall t accepted chararray flat,
      dict_get NEXUS_TO_PYTHON_DATA_TYPES t = Some accepted ->
      accepts_ndarray t = true ->
      is_valid_data_type (VArray chararray flat) accepted = Ok true) /\
  (forall chararray strs path,
      is_valid_data_field (VArray chararray (map NpStr strs)) "NX_FLOAT" path
      = Ok tt).
Proof.
  split; [exact accepts_ndarray_iff|]. split.
  - intros t accepted chararray flat E H. unfold accepts_ndarray in H.
    rewrite E in H. cbn [is_valid_data_type]. f_equal.
    apply isinstance_ndarray. apply existsb_exists in H.
    destruct H as (c & Hin & Hc). apply pyclass_beq_eq in Hc. now subst.
  - intros [] strs path; reflexivity.
Qed.

Lemma ndarray_passes_type_check_witness :
  dict_get NEXUS_TO_PYTHON_DATA_TYPES "NX_FLOAT"
  = Some [py_float; np_ndarray; np_floating] /\
  accepts_ndarray "NX_FLOAT" = true /\
  is_valid_data_type (VArray false [NpStr "a"; NpStr "b"])
    [py_float; np_ndarray; np_floating] = Ok true.
Proof.
  assert (H1 : dict_get NEXUS_TO_PYTHON_DATA_TYPES "NX_FLOAT"
               = Some [py_float; np_ndarray; np_floating]) by reflexivity.
  assert (H2 : accepts_ndarray "NX_FLOAT" = true) by reflexivity.
  repeat (split; [assumption|]).
  exact (proj1 (proj2 ndarray_passes_type_check) "NX_FLOAT"
           [py_float; np_ndarray; np_floating] false [NpStr "a"; NpStr "b"]
           H1 H2).
Defined.

Lemma is_valid_data_field_unknown_type (t : string) (v : value) (path : string) :
  dict_get NEXUS_TO_PYTHON_DATA_TYPES t = None ->
  is_valid_data_field v t path = Raise (KeyError t).
Proof.
  intro H. unfold is_valid_data_field, dict_item. now rewrite H.
Qed.

Lemma is_valid_data_field_type_mismatch (t : string) (accepted : list pyclass)
  (v : value) (path : string) :
  dict_get NEXUS_TO_PYTHON_DATA_TYPES t = Some accepted ->
  is_valid_data_type v accepted = Ok false ->
  is_valid_data_field v t path = Raise (TypeMismatchError path).
Proof.
  intros E H. unfold is_valid_data_field, dict_item. rewrite E. cbn [bind].
  rewrite H. reflexivity.
Qed.

Lemma np_gt_zero_raises (x : npscalar) (e : exn) :
  np_gt_zero x = Raise e -> e = TypeError.
Proof. destruct x; cbn; congruence. Qed.

Lemma is_greater_than_raises (v : value) (e : exn) :
  is_greater_than v = Raise e -> e = TypeError \/ e = IndexError.
Proof.
  destruct v as [| | | | | |x|c [|first rest]| |]; cbn; try congruence;
    try (intros [= <-]; auto).
  - intro H. left. now apply np_gt_zero_raises with x.
  - intro H. left. now apply np_gt_zero_raises with first.
Qed.

Lemma check_all_raises {A : Type} (check : A -> result bool) (P : exn -> Prop) :
  (forall x e, check x = Raise e -> P e) ->
  forall items e,
    check_all_children_for_callable items check = Raise e -> P e.
Proof.
  intros Hc items e. induction items as [|x items IH]; cbn; [discriminate|].
  destruct (check x) as [[]|e'] eqn:E; cbn.
  - exact IH.
  - discriminate.
  - intros [= <-]. now apply Hc with x.
Qed.

Lemma is_positive_int_raises (v : value) (e : exn) :
  is_positive_int v = Raise e -> e = TypeError \/ e = IndexError.
Proof.
  destruct v; try apply is_greater_than_raises.
  cbn. apply (check_all_raises is_greater_than
                (fun e => e = TypeError \/ e = IndexError)).
  apply is_greater_than_raises.
Qed.

Lemma search_value_raises (r : Re.regex) (v : value) (e : exn) :
  search_value r v = Raise e -> e = TypeError.
Proof.
  destruct v as [| | | | | |[]| | |]; cbn; congruence.
Qed.

(** What [is_valid_data_field] can raise once the type is in the table. *)
Lemma is_valid_data_field_raises (t : string) (accepted : list pyclass)
  (v : value) (path : string) (e : exn) :
  dict_get NEXUS_TO_PYTHON_DATA_TYPES t = Some accepted ->
  is_valid_data_field v t path = Raise e ->
  (e = TypeMismatchError path /\ is_valid_data_type v accepted = Ok false) \/
  (is_valid_data_type v accepted = Ok true /\
   (e = RangeError path \/ e = FormatError path \/ e = TypeError \/
    e = IndexError)).
Proof.
  intros E. unfold is_valid_data_field, dict_item. rewrite E. cbn [bind].
  destruct (is_valid_data_type_returns v accepted) as [[] Hv]; rewrite Hv;
    cbn [bind negb]; [|intros [= <-]; now left].
  intro X. right. split; [reflexivity|].
  destruct (String.eqb t "NX_POSINT").
  - destruct (is_positive_int v) as [[]|e'] eqn:P; cbn [bind negb] in X.
    + destruct (String.eqb t "ISO8601" || String.eqb t "NX_DATE_TIME")%bool;
        [|discriminate X].
      destruct (search_value iso8601 v) as [[]|e'] eqn:S; cbn [bind negb] in X;
        try discriminate X; injection X as <-; auto.
      apply search_value_raises in S. auto.
    + injection X as <-. auto.
    + injection X as <-. apply is_positive_int_raises in P. tauto.
  - cbn [bind negb] in X.
    destruct (String.eqb t "ISO8601" || String.eqb t "NX_DATE_TIME")%bool;
      [|discriminate X].
    destruct (search_value iso8601 v) as [[]|e'] eqn:S; cbn [bind negb] in X;
      try discriminate X; injection X as <-; auto.
    apply search_value_raises in S. auto.
Qed.

Lemma is_valid_data_field_type_ok (t : string) (accepted : list pyclass)
  (v : value) (path path' : string) :
  dict_get NEXUS_TO_PYTHON_DATA_TYPES t = Some accepted ->
  is_valid_data_type v accepted = Ok true ->
  is_valid_data_field v t path <> Raise (TypeMismatchError path').
Proof.
  intros E H X.
  destruct (is_valid_data_field_raises t accepted v path _ E X) as [[_ H']|[_ H']].
  - congruence.
  - destruct H' as [H'|[H'|[H'|H']]]; discriminate H'.
Qed.

(** C8, as the code has it.  Under each of the eleven type tags of the table
    the type check itself never raises, a value it refuses fails with the
    type mismatch error, and a value it accepts never does.  A string is
    checked as string-like when the schema node declares no type: the tag is
    then NXDL_TYPE_UNAVAILABLE, which accepts every string.  A declared type
    outside the table is not defaulted: the lookup of its accepted classes
    raises KeyError for every value. *)
Theorem type_check_of_declared_type :
  (forall t accepted v path,
      dict_get NEXUS_TO_PYTHON_DATA_TYPES t = Some accepted ->
      exists valid,
        is_valid_data_type v accepted = Ok valid /\
        (valid = false ->
         is_valid_data_field v t path = Raise (TypeMismatchError path)) /\
        (valid = true ->
         forall path',
           is_valid_data_field v t path <> Raise (TypeMismatchError path'))) /\
  (forall e,
      dict_has (attrib e) "type" = false ->
      declared_nxdl_type (Some e) = Ok "NXDL_TYPE_UNAVAILABLE") /\
  (forall s path,
      is_valid_data_field (VStr s) "NXDL_TYPE_UNAVAILABLE" path = Ok tt) /\
  (forall t v path,
      dict_get NEXUS_TO_PYTHON_DATA_TYPES t = None ->
      is_valid_data_field v t path = Raise (KeyError t)).
Proof.
  split; [|split; [|split]].
  - intros t accepted v path E.
    destruct (is_valid_data_type_returns v accepted) as [valid Hv].
    exists valid. split; [exact Hv|]. split; intros ->.
    + now apply is_valid_data_field_type_mismatch with accepted.
    + intro path'. now apply is_valid_data_field_type_ok with accepted.
  - intros e H. unfold declared_nxdl_type. now rewrite H.
  - reflexivity.
  - intros t v path. apply is_valid_data_field_unknown_type.
Qed.

Lemma type_check_of_declared_type_witness :
  dict_get NEXUS_TO_PYTHON_DATA_TYPES "NX_CHAR"
  = Some [py_str; np_ndarray; np_chararray] /\
  dict_has (attrib (title_field test_application)) "type" = false /\
  dict_get NEXUS_TO_PYTHON_DATA_TYPES "NX_COMPLEX" = None /\
  (exists valid,
      is_valid_data_type (VInt 3) [py_str; np_ndarray; np_chararray] = Ok valid /\
      (valid = false ->
       is_valid_data_field (VInt 3) "NX_CHAR" "/ENTRY[entry]/title"
       = Raise (TypeMismatchError "/ENTRY[entry]/title")) /\
      (valid = true ->
       forall path',
         is_valid_data_field (VInt 3) "NX_CHAR" "/ENTRY[entry]/title"
         <> Raise (TypeMismatchError path'))) /\
  declared_nxdl_type (Some (title_field test_application))
  = Ok "NXDL_TYPE_UNAVAILABLE" /\
  is_valid_data_field (VStr "x") "NX_COMPLEX" "/ENTRY[entry]/title"
  = Raise (KeyError "NX_COMPLEX").
Proof.
  assert (H1 : dict_get NEXUS_TO_PYTHON_DATA_TYPES "NX_CHAR"
               = Some [py_str; np_ndarray; np_chararray]) by reflexivity.
  assert (H2 : dict_has (attrib (title_field test_application)) "type" = false)
    by reflexivity.
  assert (H3 : dict_get NEXUS_TO_PYTHON_DATA_TYPES "NX_COMPLEX" = None)
    by reflexivity.
  repeat (split; [assumption|]).
  split; [|split].
  - exact (proj1 type_check_of_declared_type "NX_CHAR"
             [py_str; np_ndarray; np_chararray] (VInt 3)
             "/ENTRY[entry]/title" H1).
  - exact (proj1 (proj2 type_check_of_declared_type)
             (title_field test_application) H2).
  - exact (proj2 (proj2 (proj2 type_check_of_declared_type))
             "NX_COMPLEX" (VStr "x") "/ENTRY[entry]/title" H3).
Defined.

(** C8, the sentence of the specification fails: NX_COMPLEX is a declared type outside
    the table, and a string checked under it neither passes nor fails with
    the type mismatch error; the check raises KeyError. *)
Lemma unknown_declared_type_raises_KeyError :
  dict_get NEXUS_TO_PYTHON_DATA_TYPES "NX_COMPLEX" = None /\
  is_valid_data_field (VStr "x") "NX_COMPLEX" "/ENTRY[entry]/value"
  = Raise (KeyError "NX_COMPLEX") /\
  is_valid_data_field (VStr "x") "NX_COMPLEX" "/ENTRY[entry]/value" <> Ok tt /\
  (forall path,
      is_valid_data_field (VStr "x") "NX_COMPLEX" "/ENTRY[entry]/value"
      <> Raise (TypeMismatchError path)).
Proof.
  repeat split; try discriminate.
Qed.

(** ** Path model *)

Lemma append_empty_r (s : string) : s ++ "" = s.
Proof. induction s as [|c s IH]; cbn; [reflexivity|now rewrite IH]. Qed.

Lemma append_assoc (a b c : string) : (a ++ b) ++ c = a ++ (b ++ c).
Proof. induction a as [|x a IH]; cbn; [reflexivity|now rewrite IH]. Qed.

Lemma split_not_nil (sep : ascii) (s : string) : PyStr.split sep s <> [].
Proof.
  destruct s as [|c s]; cbn; [discriminate|].
  destruct (Ascii.eqb c sep); [discriminate|].
  destruct (PyStr.split sep s); discriminate.
Qed.

Lemma split_trailing_sep (sep : ascii) (p : string) :
  PyStr.split sep (p ++ String sep "") = (PyStr.split sep p ++ [""])%list.
Proof.
  induction p as [|c p IH]; cbn.
  - now rewrite Ascii.eqb_refl.
  - rewrite IH. destruct (Ascii.eqb c sep); [reflexivity|].
    pose proof (split_not_nil sep p) as N.
    destruct (PyStr.split sep p); [contradiction|reflexivity].
Qed.

Lemma fold_left_segments (f : string -> string) (entries : list string)
  (acc : string) :
  fold_left (fun out entry => out ++ String slash (f entry)) entries acc
  = acc ++ fold_right String.append ""
             (map (fun entry => String slash (f entry)) entries).
Proof.
  revert acc. induction entries as [|x entries IH]; intro acc; cbn [fold_left map fold_right].
  - now rewrite append_empty_r.
  - rewrite IH. now rewrite append_assoc.
Qed.

Lemma nxdl_path_joined (path : string) :
  convert_data_converter_dict_to_nxdl_path path
  = join_converted convert_data_converter_entry_to_nxdl_path_entry path.
Proof.
  unfold convert_data_converter_dict_to_nxdl_path, join_converted.
  now rewrite fold_left_segments.
Qed.

Lemma hdf5_path_joined (path : string) :
  convert_data_dict_path_to_hdf5_path path
  = join_converted get_name_from_data_dict_entry path.
Proof.
  unfold convert_data_dict_path_to_hdf5_path, join_converted.
  now rewrite fold_left_segments.
Qed.

Lemma join_converted_trailing_slash (f : string -> string) (p : string) :
  f "" = "" ->
  join_converted f (p ++ "/") = join_converted f p ++ "/".
Proof.
  intro Hf. unfold join_converted.
  change (p ++ "/") with (p ++ String slash "").
  rewrite split_trailing_sep.
  pose proof (split_not_nil slash p) as N.
  destruct (PyStr.split slash p) as [|first entries]; [contradiction|].
  cbn [tl app]. clear N first.
  induction entries as [|x entries IH]; cbn [app map fold_right].
  - now rewrite Hf.
  - rewrite IH. now rewrite append_assoc.
Qed.

(** C9, as the code has it.  Both path conversions return on every path:
    the result is, for each segment after the first, a slash and the
    converted segment.  The empty path is converted to the empty path, and a
    trailing slash is kept: the conversion of [p/] is the conversion of [p]
    followed by a slash.  No path makes them raise. *)
Theorem path_conversions_return :
  (forall path,
      call convert_data_converter_dict_to_nxdl_path path
      = Ok (join_converted convert_data_converter_entry_to_nxdl_path_entry path)) /\
  (forall path,
      call convert_data_dict_path_to_hdf5_path path
      = Ok (join_converted get_name_from_data_dict_entry path)) /\
  convert_data_converter_dict_to_nxdl_path "" = "" /\
  convert_data_dict_path_to_hdf5_path "" = "" /\
  (forall p,
      convert_data_converter_dict_to_nxdl_path (p ++ "/")
      = convert_data_converter_dict_to_nxdl_path p ++ "/") /\
  (forall p,
      convert_data_dict_path_to_hdf5_path (p ++ "/")
      = convert_data_dict_path_to_hdf5_path p ++ "/").
Proof.
  repeat split.
  - intro path. unfold call. now rewrite nxdl_path_joined.
  - intro path. unfold call. now rewrite hdf5_path_joined.
  - intro p. rewrite !nxdl_path_joined.
    now apply join_converted_trailing_slash.
  - intro p. rewrite !hdf5_path_joined.
    now apply join_converted_trailing_slash.
Qed.

(** C9, the sentence of the specification fails: the empty path and a path with a
    trailing slash are malformed in the specification's sense, and both
    conversions return a path for them instead of failing. *)
Lemma malformed_paths_are_converted :
  malformed "" /\ malformed "/ENTRY[entry]/" /\
  call convert_data_converter_dict_to_nxdl_path "" = Ok "" /\
  call convert_data_dict_path_to_hdf5_path "" = Ok "" /\
  call convert_data_converter_dict_to_nxdl_path "/ENTRY[entry]/" = Ok "/ENTRY/" /\
  call convert_data_dict_path_to_hdf5_path "/ENTRY[entry]/" = Ok "/entry/" /\
  call convert_data_converter_dict_to_nxdl_path ""
  <> Raise MalformedPathError /\
  call convert_data_dict_path_to_hdf5_path "/ENTRY[entry]/"
  <> Raise MalformedPathError.
Proof.
  repeat split; try discriminate.
  - now left.
  - right. now exists "/ENTRY[entry]".
Qed.

(** ** Enumerations *)

Section Enumerations.

Variable nexus : nexus_module.
Variable array_eq : array_eq_semantics.






End Enumerations.



(** ** Child resolution *)

(** An own child that counts as true is returned, and no file is parsed. *)
Lemma get_nxdl_child_own (fs : doc_store) (nxdlElem child : Elem)
  (name : string) :
  get_own_nxdl_child nxdlElem name = Ok (Some child) ->
  elem_bool child = true ->
  get_nxdl_child fs nxdlElem name = ([], Ok (Some child)).
Proof.
  intros H T. unfold get_nxdl_child. rewrite H. cbn [truth]. now rewrite T.
Qed.

(** Without a fitting own child the class decides: a primitive type gives
    [None], any other class has its base class parsed and searched. *)
Lemma get_nxdl_child_no_own (fs : doc_store) (nxdlElem : Elem)
  (name : string) (c : ascii) :
  get_own_nxdl_child nxdlElem name = Ok None ->
  PyStr.index (get_nx_class nxdlElem) 2 = Ok c ->
  get_nxdl_child fs nxdlElem name
  = if Ascii.eqb c "_"%char then ([], Ok None)
    else ([base_class_file (get_nx_class nxdlElem)],
          bc <- parse_getroot fs (base_class_file (get_nx_class nxdlElem)) ;;
          get_own_nxdl_child bc name).
Proof.
  intros H I. unfold get_nxdl_child. rewrite H. cbn [truth]. now rewrite I.
Qed.

(** An own child that counts as false is treated as no child at all. *)
Lemma get_nxdl_child_own_false (fs : doc_store) (nxdlElem child : Elem)
  (name : string) (c : ascii) :
  get_own_nxdl_child nxdlElem name = Ok (Some child) ->
  elem_bool child = false ->
  PyStr.index (get_nx_class nxdlElem) 2 = Ok c ->
  get_nxdl_child fs nxdlElem name
  = if Ascii.eqb c "_"%char then ([], Ok None)
    else ([base_class_file (get_nx_class nxdlElem)],
          bc <- parse_getroot fs (base_class_file (get_nx_class nxdlElem)) ;;
          get_own_nxdl_child bc name).
Proof.
  intros H T I. unfold get_nxdl_child. rewrite H. cbn [truth].
  now rewrite T, I.
Qed.

(** C3 (the code departs from the specification).  The group of class NXentry has an
    own child fitting the name title, the leaf [<field name="title"/>].
    The leaf has neither children nor text and so counts as false in
    [if ownChild:]; [get_nxdl_child] then parses the base class NXentry and
    returns the title field of the base class, which is OPTIONAL where the
    own child is REQUIRED; without that file the call raises.  Under a
    field of a primitive type the own [units] attribute is not returned
    either: the result is [None]. *)
Theorem own_leaf_child_not_returned :
  get_own_nxdl_child application_entry "title"
  = Ok (Some (title_field test_application)) /\
  elem_bool (title_field test_application) = false /\
  get_nxdl_child definitions application_entry "title"
  = ([base_class_file "NXentry"], Ok (Some base_title)) /\
  get_required_string (Some (title_field test_application)) = REQUIRED /\
  get_required_string (Some base_title) = OPTIONAL /\
  get_nxdl_child [] application_entry "title"
  = ([base_class_file "NXentry"], Raise (OSError (base_class_file "NXentry"))) /\
  get_own_nxdl_child data_field "units" = Ok (Some units_attribute) /\
  get_nxdl_child definitions data_field "units" = ([], Ok None).
Proof.
  repeat split; vm_compute; reflexivity.
Qed.

(** ** The optional-ancestor rule *)

Lemma startswith_slash (path : string) :
  PyStr.startswith path "/" = true -> exists t, path = String slash t.
Proof.
  unfold PyStr.startswith.
  destruct path as [|c t]; cbn [String.prefix]; [discriminate|].
  destruct (ascii_dec "/" c) as [<-|]; [|discriminate]. eauto.
Qed.

Lemma rpartition_None_parents (p : string) :
  PyStr.rpartition slash p = None -> parents p = [].
Proof.
  induction p as [|c t IH]; cbn; [reflexivity|].
  destruct (PyStr.rpartition slash t) as [[h l]|]; [discriminate|].
  destruct (Ascii.eqb c slash); [discriminate|].
  intros _. now rewrite IH.
Qed.

Lemma rpartition_parents (p h l : string) :
  PyStr.rpartition slash p = Some (h, l) ->
  parents p = (parents h ++ [h])%list.
Proof.
  revert h l. induction p as [|c t IH]; intros h l; cbn; [discriminate|].
  destruct (PyStr.rpartition slash t) as [[h' l']|] eqn:E.
  - intros [= <- <-]. rewrite (IH h' l' eq_refl). cbn [parents].
    rewrite map_app. cbn [map]. now rewrite app_assoc.
  - destruct (Ascii.eqb c slash); [|discriminate].
    intros [= <- <-]. now rewrite (rpartition_None_parents t E).
Qed.

Lemma rpartition_shorter (p h l : string) :
  PyStr.rpartition slash p = Some (h, l) ->
  String.length h < String.length p.
Proof.
  revert h l. induction p as [|c t IH]; intros h l; cbn; [discriminate|].
  destruct (PyStr.rpartition slash t) as [[h' l']|] eqn:E.
  - intros [= <- <-]. cbn. specialize (IH h' l' eq_refl). lia.
  - destruct (Ascii.eqb c slash); [|discriminate].
    intros [= <- <-]. cbn. lia.
Qed.

(** A path that starts with a slash has a head before its last slash; the
    head is empty or starts with a slash itself. *)
Lemma rpartition_anchored (t : string) :
  exists h l,
    PyStr.rpartition slash (String slash t) = Some (h, l) /\
    (h = "" \/ exists t', h = String slash t').
Proof.
  cbn [PyStr.rpartition]. destruct (PyStr.rpartition slash t) as [[h' l']|].
  - exists (String slash h'), l'. split; [reflexivity|]. right. eauto.
  - rewrite Ascii.eqb_refl. exists "", t. split; [reflexivity|]. now left.
Qed.

Lemma ancestors_step (p h l : string) :
  PyStr.rpartition slash p = Some (h, l) ->
  ancestors p
  = ((if String.eqb h "" then [] else [h]) ++ ancestors h)%list.
Proof.
  intro E. unfold ancestors. rewrite (rpartition_parents p h l E).
  rewrite filter_app, rev_app_distr. cbn [filter].
  destruct (String.eqb h ""); reflexivity.
Qed.

Lemma In_parents_anchored (t a : string) :
  In a (parents (String slash t)) -> a = "" \/ exists t', a = String slash t'.
Proof.
  cbn [parents]. rewrite Ascii.eqb_refl. cbn [app In].
  intros [<-|H]; [now left|]. right.
  apply in_map_iff in H. destruct H as (x & <- & _). eauto.
Qed.

Lemma In_ancestors_anchored (t a : string) :
  In a (ancestors (String slash t)) -> exists t', a = String slash t'.
Proof.
  unfold ancestors. rewrite <- in_rev, filter_In. intros [H N].
  destruct (In_parents_anchored t a H) as [->|H']; [cbn in N; discriminate N|exact H'].
Qed.

Section OptionalParent.

Variable nexus : nexus_module.
Variable array_eq : array_eq_semantics.
Variable nxdl_root : Elem.

(** The recursion of [check_for_optional_parent] finds the nearest
    ancestor that is optional or recommended. *)
Lemma check_for_optional_parent_rec_nearest (depth : nat) :
  forall path,
    (path = "" \/ exists t, path = String slash t) ->
    String.length path < depth ->
    check_for_optional_parent_rec nexus depth path nxdl_root
    = Ok match nearest_optional_ancestor nexus nxdl_root path with
         | Some a => a
         | None => NOT_FOUND
         end.
Proof.
  induction depth as [|depth IH]; intros path A L; [lia|].
  cbn [check_for_optional_parent_rec].
  destruct A as [->|[t ->]]; [reflexivity|].
  destruct (rpartition_anchored t) as (h & l & E & Ah).
  unfold PyStr.rsplit1_head. rewrite E.
  unfold nearest_optional_ancestor. rewrite (ancestors_step _ h l E).
  destruct (String.eqb h "") eqn:Hh.
  - apply String.eqb_eq in Hh. subst h. reflexivity.
  - cbn [app find]. fold (requiredness nexus nxdl_root h).
    destruct (is_optional_or_recommended (requiredness nexus nxdl_root h));
      [reflexivity|].
    apply IH; [exact Ah|].
    pose proof (rpartition_shorter _ h l E). lia.
Qed.

Lemma check_for_optional_parent_nearest (path : string) :
  PyStr.startswith path "/" = true ->
  check_for_optional_parent nexus path nxdl_root
  = Ok match nearest_optional_ancestor nexus nxdl_root path with
       | Some a => a
       | None => NOT_FOUND
       end.
Proof.
  intro H. apply startswith_slash in H. unfold check_for_optional_parent.
  apply check_for_optional_parent_rec_nearest; [now right|lia].
Qed.

(** A deeper nesting bound does not change a result. *)
Lemma check_for_optional_parent_rec_more (depth : nat) :
  forall path r,
    check_for_optional_parent_rec nexus depth path nxdl_root = Ok r ->
    check_for_optional_parent_rec nexus (S depth) path nxdl_root = Ok r.
Proof.
  induction depth as [|depth IH]; intros path r; [discriminate|].
  intro H. cbn [check_for_optional_parent_rec] in *.
  destruct (String.eqb (PyStr.rsplit1_head slash path) ""); [exact H|].
  destruct (is_optional_or_recommended _); [exact H|].
  now apply IH.
Qed.

Lemma nearest_is_not_NOT_FOUND (path a : string) :
  PyStr.startswith path "/" = true ->
  nearest_optional_ancestor nexus nxdl_root path = Some a ->
  String.eqb a NOT_FOUND = false.
Proof.
  intros H N. apply startswith_slash in H. destruct H as [t ->].
  apply find_some in N. destruct N as [N _].
  apply In_ancestors_anchored in N. destruct N as [t' ->]. reflexivity.
Qed.

End OptionalParent.


Lemma contains_prefix (k a : string) :
  String.prefix a k = true -> PyStr.contains k a = true.
Proof.
  intro H. destruct k; cbn [PyStr.contains]; rewrite H; reflexivity.
Qed.



Lemma declared_nxdl_type_of_element (e : Elem) :
  exists t, declared_nxdl_type (Some e) = Ok t.
Proof.
  unfold declared_nxdl_type, dict_has, dict_item.
  destruct (dict_get (attrib e) "type"); eauto.
Qed.

Lemma required_is_an_element (elem : option Elem) :
  get_required_string elem = REQUIRED -> exists e, elem = Some e.
Proof.
  destruct elem as [e|]; [eauto|discriminate].
Qed.

Section MissingRequired.

Variable nexus : nexus_module.
Variable array_eq : array_eq_semantics.
Variable data : data_dict.
Variable nxdl_root : Elem.

(** [path_in_data_dict] returns the key of the matching entry, and the
    dictionary holds the value of that entry under the key. *)
Lemma path_in_data_dict_matching (path : string) :
  match matching_entry data path with
  | Some (key, v) =>
      path_in_data_dict (convert_data_converter_dict_to_nxdl_path path) data
      = (true, key) /\
      dict_get data key = Some v
  | None =>
      path_in_data_dict (convert_data_converter_dict_to_nxdl_path path) data
      = (false, "")
  end.
Proof.
  unfold matching_entry.
  induction data as [|[k v] rest IH]; [reflexivity|].
  cbn [find path_in_data_dict fst].
  destruct (String.eqb (convert_data_converter_dict_to_nxdl_path path)
              (convert_data_converter_dict_to_nxdl_path k)) eqn:E.
  - split; [reflexivity|]. cbn [dict_get]. now rewrite String.eqb_refl.
  - destruct (find _ rest) as [[k' v']|] eqn:F; [|exact IH].
    destruct IH as [IH1 IH2]. split; [exact IH1|].
    cbn [dict_get]. destruct (String.eqb k k') eqn:K; [|exact IH2].
    apply String.eqb_eq in K. subst k'.
    apply find_some in F. destruct F as [_ F]. cbn [fst] in F. congruence.
Qed.

(** What the loop body does for a required path without a value. *)
Lemma validate_path_missing_required (path : string) (c : ascii) :
  PyStr.startswith path "/" = true ->
  entry_name_initial path = Ok c ->
  Ascii.eqb c "@" = false ->
  requiredness nexus nxdl_root path = REQUIRED ->
  missing_or_None data path = true ->
  validate_path nexus array_eq data nxdl_root path
  = match nearest_optional_ancestor nexus nxdl_root path with
    | None => Raise (MissingRequiredFieldError (reported_path data path))
    | Some a =>
        if check_are_children_set a data
        then Raise (MissingRequiredFieldError (reported_path data path))
        else Ok tt
    end.
Proof.
  intros A I C R M.
  unfold validate_path, entry_name_initial, requiredness, missing_or_None,
    reported_path in *.
  pose proof (path_in_data_dict_matching path) as P.
  destruct (PyStr.after_rindex slash path) as [last_entry|];
    [|discriminate I].
  cbn [bind] in *.
  destruct (required_is_an_element _ R) as [e Ee].
  destruct (declared_nxdl_type_of_element e) as [t T].
  destruct (matching_entry data path) as [[key [v|]]|];
    [discriminate M|destruct P as [P G]|];
    rewrite P, I; cbn [bind]; rewrite C, R, String.eqb_refl, Ee, T;
    rewrite (check_for_optional_parent_nearest nexus nxdl_root path A);
    cbn [negb]; unfold item_is_None, dict_item; try rewrite G;
    cbn [bind is_not_None negb];
    (destruct (nearest_optional_ancestor nexus nxdl_root path) as [a|] eqn:N;
     [rewrite (nearest_is_not_NOT_FOUND nexus nxdl_root path a A N);
      cbn [orb]; destruct (check_are_children_set a data); reflexivity
     |rewrite String.eqb_refl; reflexivity]).
Qed.

End MissingRequired.

Section Loop.

Variable nexus : nexus_module.
Variable array_eq : array_eq_semantics.
Variable data : data_dict.
Variable nxdl_root : Elem.

(** The loop goes on after every path that passes. *)
Lemma validate_paths_after_passing (before rest : list string) :
  Forall (fun p => validate_path nexus array_eq data nxdl_root p = Ok tt)
    before ->
  validate_paths nexus array_eq (before ++ rest) data nxdl_root
  = validate_paths nexus array_eq rest data nxdl_root.
Proof.
  induction 1 as [|p before Hp _ IH]; [reflexivity|].
  cbn [app validate_paths]. rewrite Hp. exact IH.
Qed.

(** The first path that fails ends the loop with its error. *)
Lemma validate_paths_first_failure (before rest : list string)
  (path : string) (e : exn) :
  Forall (fun p => validate_path nexus array_eq data nxdl_root p = Ok tt)
    before ->
  validate_path nexus array_eq data nxdl_root path = Raise e ->
  validate_paths nexus array_eq (before ++ path :: rest) data nxdl_root
  = Raise e.
Proof.
  intros Hb Hp. rewrite (validate_paths_after_passing before _ Hb).
  cbn [validate_paths]. now rewrite Hp.
Qed.

(** A path whose last segment is named with a leading [@] is passed over
    before its schema node is looked at. *)
Lemma attribute_path_skipped (path : string) :
  entry_name_initial path = Ok "@"%char ->
  validate_path nexus array_eq data nxdl_root path = Ok tt.
Proof.
  unfold entry_name_initial, validate_path. intro I.
  destruct (path_in_data_dict _ data) as [found renamed].
  destruct (PyStr.after_rindex slash path) as [last_entry|];
    [|discriminate I].
  cbn [bind] in *. rewrite I. reflexivity.
Qed.

End Loop.




(** ** The matcher against the meaning of patterns *)

Lemma option_not_None_or {A : Type} (x y : option A) :
  match x with Some c => Some c | None => y end <> None
  <-> x <> None \/ y <> None.
Proof.
  destruct x as [a|].
  - split; [intros _; left; discriminate|intros _; discriminate].
  - split; [intro H; right; exact H|].
    intros [H|H]; [exfalso; apply H; reflexivity|exact H].
Qed.

Lemma run_star_matches (p : ascii -> bool) (k : Re.kont) (rest : string) :
  forall seen,
    (Re.run (Re.Greedy p) seen rest k <> None
     <-> exists m rest',
           ReSpec.all_in p m = true /\ rest = m ++ rest' /\
           k (ReSpec.shift m seen) rest' <> None) /\
    (Re.run (Re.Lazy p) seen rest k <> None
     <-> exists m rest',
           ReSpec.all_in p m = true /\ rest = m ++ rest' /\
           k (ReSpec.shift m seen) rest' <> None).
Proof.
  induction rest as [|c t IH]; intro seen.
  - cbn [Re.run]. split.
    + split.
      * intro H. exists "", "". auto.
      * intros (m & rest' & _ & E & H). destruct m; [|discriminate E].
        cbn in E. subst rest'. exact H.
    + destruct (k seen "") eqn:K.
      * split; [|discriminate]. intros _. exists "", "".
        repeat split. cbn. congruence.
      * split; [congruence|].
        intros (m & rest' & _ & E & H). destruct m; [|discriminate E].
        cbn in E. subst rest'. cbn in H. congruence.
  - destruct (IH (String c seen)) as [G L]. cbn [Re.run] in *. split.
    + destruct (p c) eqn:P.
      * rewrite option_not_None_or, G. split.
        -- intros [(m & rest' & A & E & H)|H].
           ++ exists (String c m), rest'. cbn. rewrite P, A, E. auto.
           ++ exists "", (String c t). auto.
        -- intros (m & rest' & A & E & H). destruct m as [|d m].
           ++ right. cbn in E. subst rest'. exact H.
           ++ left. cbn in A, E. injection E as <- ->.
              apply andb_true_iff in A. destruct A as [_ A].
              exists m, rest'. auto.
      * split.
        -- intro H. exists "", (String c t). auto.
        -- intros (m & rest' & A & E & H). destruct m as [|d m].
           ++ cbn in E. subst rest'. exact H.
           ++ cbn in A, E. injection E as <- ->. rewrite P in A. discriminate A.
    + rewrite option_not_None_or. destruct (p c) eqn:P.
      * rewrite L. split.
        -- intros [H|(m & rest' & A & E & H)].
           ++ exists "", (String c t). auto.
           ++ exists (String c m), rest'. cbn. rewrite P, A, E. auto.
        -- intros (m & rest' & A & E & H). destruct m as [|d m].
           ++ left. cbn in E. subst rest'. exact H.
           ++ right. cbn in A, E. injection E as <- ->.
              apply andb_true_iff in A. destruct A as [_ A].
              exists m, rest'. auto.
      * split.
        -- intros [H|H]; [|congruence]. exists "", (String c t). auto.
        -- intros (m & rest' & A & E & H). destruct m as [|d m].
           ++ left. cbn in E. subst rest'. exact H.
           ++ cbn in A, E. injection E as <- ->. rewrite P in A. discriminate A.
Qed.

(** The matcher succeeds exactly when the pattern can reach a cursor that the
    continuation accepts. *)
Theorem run_matches (r : Re.regex) :
  forall seen rest (k : Re.kont),
    Re.run r seen rest k <> None
    <-> exists seen' rest',
          ReSpec.matches r seen rest seen' rest' /\ k seen' rest' <> None.
Proof.
  induction r as [|p|a IHa b IHb|a IHa b IHb|p|p|a IHa|a IHa|p| |];
    intros seen rest k; cbn [Re.run ReSpec.matches].
  - split.
    + intro H. exists seen, rest. auto.
    + intros (s' & r' & (-> & ->) & H). exact H.
  - destruct rest as [|c t].
    + split; [congruence|]. intros (s' & r' & (c & _ & E & _) & _). discriminate E.
    + destruct (p c) eqn:P.
      * split.
        -- intro H. exists (String c seen), t. split; [|exact H]. exists c. auto.
        -- intros (s' & r' & (d & _ & E & ->) & H). injection E as <- <-. exact H.
      * split; [congruence|].
        intros (s' & r' & (d & Pd & E & _) & _). injection E as <- <-. congruence.
  - rewrite IHa. split.
    + intros (s1 & r1 & Ma & H). apply IHb in H.
      destruct H as (s' & r' & Mb & H). exists s', r'. split; [|exact H].
      exists s1, r1. auto.
    + intros (s' & r' & (s1 & r1 & Ma & Mb) & H). exists s1, r1.
      split; [exact Ma|]. apply IHb. exists s', r'. auto.
  - rewrite option_not_None_or, IHa, IHb. split.
    + intros [(s' & r' & M & H)|(s' & r' & M & H)]; exists s', r'; auto.
    + intros (s' & r' & [M|M] & H); [left|right]; exists s', r'; auto.
  - rewrite (proj1 (run_star_matches p k rest seen)). split.
    + intros (m & rest' & A & E & H). exists (ReSpec.shift m seen), rest'.
      split; [|exact H]. exists m. auto.
    + intros (s' & r' & (m & A & E & ->) & H). exists m, r'. auto.
  - rewrite (proj2 (run_star_matches p k rest seen)). split.
    + intros (m & rest' & A & E & H). exists (ReSpec.shift m seen), rest'.
      split; [|exact H]. exists m. auto.
    + intros (s' & r' & (m & A & E & ->) & H). exists m, r'. auto.
  - destruct (Re.run a seen rest (fun s r => Some (s, r))) as [c|] eqn:R.
    + assert (X : Re.run a seen rest (fun s r => Some (s, r)) <> None)
        by congruence.
      apply IHa in X. destruct X as (s1 & r1 & M & _). split.
      * intro H. exists seen, rest. split; [|exact H]. split; eauto.
      * intros (s' & r' & (_ & -> & ->) & H). exact H.
    + split; [congruence|].
      intros (s' & r' & ((s1 & r1 & M) & _) & _).
      assert (X : Re.run a seen rest (fun s r => Some (s, r)) <> None).
      { apply IHa. exists s1, r1. split; [exact M|discriminate]. }
      congruence.
  - destruct (Re.run a seen rest (fun s r => Some (s, r))) as [c|] eqn:R.
    + split; [congruence|].
      intros (s' & r' & (N & _) & _). exfalso. apply N.
      assert (X : Re.run a seen rest (fun s r => Some (s, r)) <> None)
        by congruence.
      apply IHa in X. destruct X as (s1 & r1 & M & _). eauto.
    + split.
      * intro H. exists seen, rest. split; [|exact H]. split; [|auto].
        intros (s1 & r1 & M).
        assert (X : Re.run a seen rest (fun s r => Some (s, r)) <> None).
        { apply IHa. exists s1, r1. split; [exact M|discriminate]. }
        congruence.
      * intros (s' & r' & (_ & -> & ->) & H). exact H.
  - destruct seen as [|c t].
    + split; [congruence|].
      intros (s' & r' & ((c & t & E & _) & _) & _). discriminate E.
    + destruct (p c) eqn:P.
      * split.
        -- intro H. exists (String c t), rest. split; [|exact H].
           split; [|auto]. exists c, t. auto.
        -- intros (s' & r' & (_ & -> & ->) & H). exact H.
      * split; [congruence|].
        intros (s' & r' & ((d & u & E & Pd) & _) & _).
        injection E as <- <-. congruence.
  - destruct seen as [|c t].
    + split.
      * intro H. exists "", rest. auto.
      * intros (s' & r' & (_ & -> & ->) & H). exact H.
    + split; [congruence|]. intros (s' & r' & (E & _) & _). discriminate E.
  - destruct rest as [|c [|d t]].
    + split.
      * intro H. exists seen, "". auto.
      * intros (s' & r' & (_ & -> & ->) & H). exact H.
    + destruct (Ascii.eqb c "010") eqn:C.
      * apply Ascii.eqb_eq in C. subst c. split.
        -- intro H. exists seen, newline. split; [|exact H]. split; auto.
        -- intros (s' & r' & (_ & -> & ->) & H). exact H.
      * apply Ascii.eqb_neq in C. split; [congruence|].
        intros (s' & r' & ([E|E] & _) & _); [discriminate E|].
        injection E as ->. congruence.
    + split; [congruence|].
      intros (s' & r' & ([E|E] & _) & _); discriminate E.
Qed.

Lemma shift_length (m seen : string) :
  String.length (ReSpec.shift m seen) = String.length m + String.length seen.
Proof.
  revert seen. induction m as [|c m IH]; intro seen; cbn; [reflexivity|].
  rewrite IH. cbn. lia.
Qed.

Lemma shift_empty (m : string) : ReSpec.shift m "" = "" -> m = "".
Proof.
  intro H. pose proof (shift_length m "") as L. rewrite H in L.
  destruct m; [reflexivity|cbn in L; lia].
Qed.

Lemma match_here_found (r : Re.regex) (seen rest : string) :
  Re.match_here r seen rest <> None
  <-> exists seen' rest', ReSpec.matches r seen rest seen' rest'.
Proof.
  unfold Re.match_here.
  pose proof (run_matches r seen rest (fun s r => Some (s, r))) as R.
  destruct (Re.run r seen rest (fun s r => Some (s, r))) as [[s1 r1]|].
  - split; [|discriminate]. intros _.
    destruct (proj1 R ltac:(discriminate)) as (s' & r' & M & _). eauto.
  - split; [congruence|]. intros (s' & r' & M). exfalso.
    apply (proj2 R); [|reflexivity]. exists s', r'. split; [exact M|discriminate].
Qed.

Lemma search_from_found (r : Re.regex) (rest : string) :
  forall seen,
    Re.search_from r seen rest <> None
    <-> exists before after seen' rest',
          rest = before ++ after /\
          ReSpec.matches r (ReSpec.shift before seen) after seen' rest'.
Proof.
  induction rest as [|c t IH]; intro seen; cbn [Re.search_from];
    rewrite option_not_None_or, match_here_found.
  - split.
    + intros [(s' & r' & M)|H]; [|congruence]. exists "", "", s', r'. auto.
    + intros (before & after & s' & r' & E & M). left.
      destruct before; [|discriminate E]. cbn in E. subst after. eauto.
  - rewrite IH. split.
    + intros [(s' & r' & M)|(before & after & s' & r' & E & M)].
      * exists "", (String c t), s', r'. auto.
      * exists (String c before), after, s', r'. cbn. rewrite E. auto.
    + intros (before & after & s' & r' & E & M). destruct before as [|d before].
      * left. cbn in E. subst after. eauto.
      * right. cbn in E. injection E as <- ->. exists before, after, s', r'. auto.
Qed.

(** [search] finds a match exactly when the pattern matches somewhere. *)
Theorem search_found (r : Re.regex) (s : string) :
  Re.search r s <> None <-> ReSpec.found r s.
Proof.
  unfold Re.search, ReSpec.found. apply search_from_found.
Qed.

(** A segment without an opening bracket is its own schema segment and its
    own name. *)
Lemma shift_last (before : string) :
  forall seen c t,
    ReSpec.shift before seen = String c t ->
    before = "" \/ exists b, before = b ++ String c "".
Proof.
  induction before as [|d m IH]; intros seen c t H; [now left|].
  right. cbn [ReSpec.shift] in H. destruct (IH _ _ _ H) as [->|(b & ->)].
  - cbn in H. injection H as -> _. now exists "".
  - now exists (String d b).
Qed.

Lemma entry_without_bracket (entry : string) :
  (forall before after, entry <> before ++ String sq_open after) ->
  convert_data_converter_entry_to_nxdl_path_entry entry = entry /\
  get_name_from_data_dict_entry entry = entry.
Proof.
  intro N. unfold convert_data_converter_entry_to_nxdl_path_entry,
    get_name_from_data_dict_entry. split.
  - destruct (Re.search regex_nxdl_entry entry) eqn:S; [|reflexivity].
    exfalso.
    assert (F : Re.search regex_nxdl_entry entry <> None) by congruence.
    apply search_found in F.
    destruct F as (before & rest & s' & r' & -> & s1 & r1 & (m & _ & -> & _)
                     & ((s2 & r2 & (c & C & -> & _)) & _)).
    apply Ascii.eqb_eq in C. subst c.
    apply (N (before ++ m) r2). now rewrite append_assoc.
  - destruct (Re.search regex_entry_name entry) eqn:S; [|reflexivity].
    exfalso.
    assert (F : Re.search regex_entry_name entry <> None) by congruence.
    apply search_found in F.
    destruct F as (before & rest & s' & r' & -> & s1 & r1
                     & ((c & t & B & C) & _) & _).
    apply Ascii.eqb_eq in C. subst c.
    destruct (shift_last _ _ _ _ B) as [->|(b & ->)]; [discriminate B|].
    apply (N b rest). now rewrite append_assoc.
Qed.

(** ** The timestamp pattern *)

Ltac break :=
  repeat match goal with
    | H : exists _, _ |- _ => destruct H as [? H]
    | H : _ /\ _ |- _ => destruct H as [? ?]
    | H : Ascii.eqb _ _ = true |- _ => apply Ascii.eqb_eq in H
    end.

Lemma matches_Lit (l : string) :
  forall seen rest seen' rest',
    ReSpec.matches (Re.Lit l) seen rest seen' rest'
    <-> rest = l ++ rest' /\ seen' = ReSpec.shift l seen.
Proof.
  induction l as [|c l IH]; intros seen rest seen' rest'; cbn [Re.Lit ReSpec.matches].
  - cbn. intuition congruence.
  - split.
    + intros (s1 & r1 & (d & D & E & ->) & M). apply IH in M.
      destruct M as [-> ->]. apply Ascii.eqb_eq in D. subst d.
      subst rest. auto.
    + intros [-> ->]. exists (String c seen), (l ++ rest'). split.
      * exists c. rewrite Ascii.eqb_refl. auto.
      * apply IH. auto.
Qed.

Lemma digits_two (s : string) :
  Timestamp.digits 2 s
  <-> exists a b,
        s = String a (String b "") /\ Re.digit a = true /\ Re.digit b = true.
Proof.
  unfold Timestamp.digits. split.
  - intros [L A]. destruct s as [|a [|b [|c s]]]; try discriminate L.
    cbn in A. apply andb_true_iff in A. destruct A as [Ha A].
    apply andb_true_iff in A. destruct A as [Hb _]. eauto.
  - intros (a & b & -> & Ha & Hb). cbn. rewrite Ha, Hb. auto.
Qed.

Lemma digits_four (s : string) :
  Timestamp.digits 4 s
  <-> exists a b c d,
        s = String a (String b (String c (String d ""))) /\
        Re.digit a = true /\ Re.digit b = true /\
        Re.digit c = true /\ Re.digit d = true.
Proof.
  unfold Timestamp.digits. split.
  - intros [L A]. destruct s as [|a [|b [|c [|d [|e s]]]]]; try discriminate L.
    cbn in A. repeat (apply andb_true_iff in A; destruct A as [? A]).
    exists a, b, c, d. auto.
  - intros (a & b & c & d & -> & Ha & Hb & Hc & Hd). cbn.
    rewrite Ha, Hb, Hc, Hd. auto.
Qed.

Lemma matches_two_digits (seen rest seen' rest' : string) :
  ReSpec.matches (Re.Rep 2 (Re.Cls Re.digit)) seen rest seen' rest'
  <-> exists d, Timestamp.digits 2 d /\ rest = d ++ rest' /\
                seen' = ReSpec.shift d seen.
Proof.
  cbn [Re.Rep ReSpec.matches]. split.
  - intro H. break. subst.
    match goal with
    | |- exists d, _ /\ String ?a (String ?b _) = _ /\ _ =>
        exists (String a (String b ""))
    end.
    split; [apply digits_two; eauto|auto].
  - intros (d & D & -> & ->). apply digits_two in D.
    destruct D as (a & b & -> & Ha & Hb). cbn.
    exists (String a seen), (String b rest'). split; [eauto|].
    exists (String b (String a seen)), rest'. split; [eauto|auto].
Qed.

Lemma matches_zone (seen rest seen' rest' : string) :
  ReSpec.matches Timestamp.zone_pattern seen rest seen' rest'
  <-> exists z, Timestamp.zone z /\ rest = z ++ rest' /\
                seen' = ReSpec.shift z seen.
Proof.
  unfold Timestamp.zone_pattern.
  cbn [seq fold_right ReSpec.matches Re.Chr]. split.
  - intros [H|H].
    + destruct H as (s1 & r1 & (N & -> & ->) & s2 & r2 & S & s3 & r3 & H1
                       & s4 & r4 & C & s5 & r5 & H2 & -> & ->).
      apply matches_two_digits in H1, H2.
      destruct H1 as (hh & Dh & -> & ->). destruct H2 as (mm & Dm & -> & ->).
      destruct C as (c & C & -> & ->). apply Ascii.eqb_eq in C. subst c.
      assert (X : exists sign,
                 (sign = "+" \/ sign = "-") /\ rest = sign ++ hh ++ ":" ++ mm ++ r5
                 /\ s2 = ReSpec.shift sign seen).
      { destruct S as [(c & C & -> & ->)|(c & C & -> & ->)];
          apply Ascii.eqb_eq in C; subst c; eauto. }
      destruct X as (sign & Sg & -> & ->).
      exists (sign ++ hh ++ ":" ++ mm).
      apply digits_two in Dh, Dm.
      destruct Dh as (h1 & h2 & -> & Hh1 & Hh2).
      destruct Dm as (m1 & m2 & -> & Hm1 & Hm2).
      split; [|destruct Sg as [-> | ->]; cbn; auto].
      right. exists sign, (String h1 (String h2 "")), (String m1 (String m2 "")).
      split; [reflexivity|]. split; [exact Sg|].
      split; [apply digits_two; eauto|]. split; [apply digits_two; eauto|].
      intro Z. apply N. exists (ReSpec.shift "-00:00" seen), r5.
      apply matches_Lit. split; [|reflexivity].
      destruct Sg as [-> | ->]; cbn in Z |- *; [discriminate Z|].
      injection Z as -> -> -> ->. reflexivity.
    + destruct H as (c & C & -> & ->). apply Ascii.eqb_eq in C. subst c.
      exists "Z". split; [now left|auto].
  - intros (z & Z & -> & ->). destruct Z as [->|Z].
    + right. exists "Z"%char. auto.
    + left. destruct Z as (sign & hh & mm & -> & Sg & Dh & Dm & Nz).
      apply digits_two in Dh, Dm.
      destruct Dh as (h1 & h2 & -> & Hh1 & Hh2).
      destruct Dm as (m1 & m2 & -> & Hm1 & Hm2).
      exists seen, ((sign ++ String h1 (String h2 "") ++ ":" ++ String m1 (String m2 "")) ++ rest').
      split.
      * split; [|auto]. intros (s1 & r1 & L). apply matches_Lit in L.
        destruct L as [L _]. apply Nz.
        destruct Sg as [-> | ->]; cbn in L |- *; [discriminate L|].
        injection L as -> -> -> -> _. reflexivity.
      * assert (D2 : forall a b sn rs,
                   Re.digit a = true -> Re.digit b = true ->
                   ReSpec.matches (Re.Rep 2 (Re.Cls Re.digit)) sn
                     (String a (String b rs)) (String b (String a sn)) rs).
        { intros a b sn rs Ha Hb. apply matches_two_digits.
          exists (String a (String b "")).
          split; [apply digits_two; eauto|auto]. }
        destruct Sg as [-> | ->]; cbn [append].
        -- eexists; eexists. split; [left; exists "+"%char; eauto|].
           eexists; eexists. split; [apply D2; assumption|].
           eexists; eexists. split; [exists ":"%char; eauto|].
           eexists; eexists. split; [apply D2; assumption|]. auto.
        -- eexists; eexists. split; [right; exists "-"%char; eauto|].
           eexists; eexists. split; [apply D2; assumption|].
           eexists; eexists. split; [exists ":"%char; eauto|].
           eexists; eexists. split; [apply D2; assumption|]. auto.
Qed.

Lemma matches_four_digits (seen rest seen' rest' : string) :
  ReSpec.matches (Re.Rep 4 (Re.Cls Re.digit)) seen rest seen' rest'
  <-> exists d, Timestamp.digits 4 d /\ rest = d ++ rest' /\
                seen' = ReSpec.shift d seen.
Proof.
  cbn [Re.Rep ReSpec.matches]. split.
  - intro H. break. subst.
    match goal with
    | |- exists d, _ /\ String ?a (String ?b (String ?c (String ?e _))) = _ /\ _ =>
        exists (String a (String b (String c (String e ""))));
        split; [apply digits_four; exists a, b, c, e; repeat split; assumption
               |auto]
    end.
  - intros (d & D & -> & ->). apply digits_four in D.
    destruct D as (a & b & c & e & -> & Ha & Hb & Hc & He). cbn.
    eexists; eexists. split; [exists a; eauto|].
    eexists; eexists. split; [exists b; eauto|].
    eexists; eexists. split; [exists c; eauto|].
    eexists; eexists. split; [exists e; eauto|auto].
Qed.

Lemma matches_Chr (c : ascii) (seen rest seen' rest' : string) :
  ReSpec.matches (Re.Chr c) seen rest seen' rest'
  <-> rest = String c rest' /\ seen' = String c seen.
Proof.
  cbn. split.
  - intros (d & D & -> & ->). apply Ascii.eqb_eq in D. now subst.
  - intros [-> ->]. exists c. rewrite Ascii.eqb_refl. auto.
Qed.

Lemma matches_fraction (seen rest seen' rest' : string) :
  ReSpec.matches (Re.Opt (Re.Seq (Re.Chr ".") (Re.Greedy Re.digit)))
    seen rest seen' rest'
  <-> exists f, Timestamp.fraction f /\ rest = f ++ rest' /\
                seen' = ReSpec.shift f seen.
Proof.
  unfold Re.Opt. cbn [ReSpec.matches]. split.
  - intros [(s1 & r1 & C & m & A & -> & ->)|[-> ->]].
    + apply matches_Chr in C. destruct C as [-> ->].
      exists ("." ++ m). split; [right; eauto|auto].
    + exists "". split; [now left|auto].
  - intros (f & [->|(ds & -> & A)] & -> & ->).
    + right. auto.
    + left. exists (String "." seen), (ds ++ rest').
      split; [apply matches_Chr; auto|]. exists ds. auto.
Qed.

Lemma matches_tail (seen rest seen' rest' : string) :
  ReSpec.matches Timestamp.tail_pattern seen rest seen' rest'
  <-> exists f z,
        Timestamp.fraction f /\ Timestamp.zone z /\
        rest = f ++ z ++ rest' /\ (rest' = "" \/ rest' = newline) /\
        seen' = ReSpec.shift z (ReSpec.shift f seen).
Proof.
  unfold Timestamp.tail_pattern. cbn [seq fold_right].
  change (ReSpec.matches (Re.Seq ?a ?b) seen rest seen' rest')
    with (exists s1 r1, ReSpec.matches a seen rest s1 r1 /\
                        ReSpec.matches b s1 r1 seen' rest').
  split.
  - intros (s1 & r1 & F & s2 & r2 & Z & s3 & r3 & (E & -> & ->) & -> & ->).
    apply matches_fraction in F. destruct F as (f & F & -> & ->).
    apply matches_zone in Z. destruct Z as (z & Z & -> & ->).
    exists f, z. auto.
  - intros (f & z & F & Z & -> & E & ->).
    exists (ReSpec.shift f seen), (z ++ rest').
    split; [apply matches_fraction; eauto|].
    exists (ReSpec.shift z (ReSpec.shift f seen)), rest'.
    split; [apply matches_zone; eauto|].
    exists (ReSpec.shift z (ReSpec.shift f seen)), rest'.
    cbn. auto.
Qed.

Lemma iso8601_parts :
  iso8601
  = fold_right Re.Seq Timestamp.tail_pattern
      [ Re.Bol;
        Re.Rep 4 (Re.Cls Re.digit); Re.Chr "-";
        Re.Rep 2 (Re.Cls Re.digit); Re.Chr "-";
        Re.Rep 2 (Re.Cls Re.digit); Re.Chr "T";
        Re.Rep 2 (Re.Cls Re.digit); Re.Chr ":";
        Re.Rep 2 (Re.Cls Re.digit); Re.Chr ":";
        Re.Rep 2 (Re.Cls Re.digit) ].
Proof. reflexivity. Qed.

Lemma matches_Seq (a b : Re.regex) (seen rest seen' rest' : string) :
  ReSpec.matches (Re.Seq a b) seen rest seen' rest'
  <-> exists s1 r1, ReSpec.matches a seen rest s1 r1 /\
                    ReSpec.matches b s1 r1 seen' rest'.
Proof. reflexivity. Qed.

(** What the pattern matches: a well-formed timestamp, alone or followed by
    one newline. *)
Theorem iso8601_found (s : string) :
  ReSpec.found iso8601 s
  <-> Timestamp.well_formed s \/
      exists s0, s = s0 ++ newline /\ Timestamp.well_formed s0.
Proof.
  rewrite iso8601_parts. cbn [fold_right]. unfold ReSpec.found. split.
  - intros (before & rest & s' & r' & -> & M).
    apply matches_Seq in M. destruct M as (s1 & r1 & (B & -> & ->) & M).
    apply shift_empty in B. subst before. cbn [append ReSpec.shift] in *.
    do 11 (apply matches_Seq in M;
            let x := fresh "s" in let y := fresh "r" in
            let H := fresh "H" in
            destruct M as (x & y & H & M)).
    apply matches_four_digits in H. destruct H as (YYYY & DY & -> & ->).
    apply matches_Chr in H0. destruct H0 as [-> ->].
    apply matches_two_digits in H1. destruct H1 as (MM & DM & -> & ->).
    apply matches_Chr in H2. destruct H2 as [-> ->].
    apply matches_two_digits in H3. destruct H3 as (DD & DD' & -> & ->).
    apply matches_Chr in H4. destruct H4 as [-> ->].
    apply matches_two_digits in H5. destruct H5 as (hh & Dh & -> & ->).
    apply matches_Chr in H6. destruct H6 as [-> ->].
    apply matches_two_digits in H7. destruct H7 as (mm & Dm & -> & ->).
    apply matches_Chr in H8. destruct H8 as [-> ->].
    apply matches_two_digits in H9. destruct H9 as (ss & Ds & -> & ->).
    apply matches_tail in M. destruct M as (f & z & F & Z & -> & E & _).
    assert (W : Timestamp.well_formed
                  (YYYY ++ "-" ++ MM ++ "-" ++ DD ++ "T" ++ hh ++ ":" ++ mm
                     ++ ":" ++ ss ++ f ++ z)).
    { exists YYYY, MM, DD, hh, mm, ss, f, z.
      repeat (split; [first [reflexivity|assumption]|]). assumption. }
    destruct E as [-> | ->].
    + left. rewrite append_empty_r. exact W.
    + right. eexists. split; [|exact W].
      repeat (rewrite append_assoc || cbn [append]). reflexivity.
  - assert (X : forall s0 r',
               Timestamp.well_formed s0 -> r' = "" \/ r' = newline ->
               exists before rest seen' rest',
                 s0 ++ r' = before ++ rest /\
                 ReSpec.matches
                   (Re.Seq Re.Bol
                      (Re.Seq (Re.Rep 4 (Re.Cls Re.digit))
                      (Re.Seq (Re.Chr "-")
                      (Re.Seq (Re.Rep 2 (Re.Cls Re.digit))
                      (Re.Seq (Re.Chr "-")
                      (Re.Seq (Re.Rep 2 (Re.Cls Re.digit))
                      (Re.Seq (Re.Chr "T")
                      (Re.Seq (Re.Rep 2 (Re.Cls Re.digit))
                      (Re.Seq (Re.Chr ":")
                      (Re.Seq (Re.Rep 2 (Re.Cls Re.digit))
                      (Re.Seq (Re.Chr ":")
                      (Re.Seq (Re.Rep 2 (Re.Cls Re.digit))
                         Timestamp.tail_pattern))))))))))))
                   (ReSpec.shift before "") rest seen' rest').
    { intros s0 r' (YYYY & MM & DD & hh & mm & ss & f & z & -> & DY & DM & DD'
                      & Dh & Dm & Ds & F & Z) E.
      exists "". eexists. eexists. exists r'. split; [reflexivity|].
      cbn [append ReSpec.shift].
      apply matches_Seq. eexists; eexists. split; [cbn; auto|].
      apply matches_Seq. eexists; eexists.
      split; [apply matches_four_digits; exists YYYY;
              split; [exact DY|split; [|reflexivity]]|].
      { repeat (rewrite append_assoc || cbn [append]). reflexivity. }
      apply matches_Seq. eexists; eexists.
      split; [apply matches_Chr; split; reflexivity|].
      apply matches_Seq. eexists; eexists.
      split; [apply matches_two_digits; exists MM;
              split; [exact DM|split; reflexivity]|].
      apply matches_Seq. eexists; eexists.
      split; [apply matches_Chr; split; reflexivity|].
      apply matches_Seq. eexists; eexists.
      split; [apply matches_two_digits; exists DD;
              split; [exact DD'|split; reflexivity]|].
      apply matches_Seq. eexists; eexists.
      split; [apply matches_Chr; split; reflexivity|].
      apply matches_Seq. eexists; eexists.
      split; [apply matches_two_digits; exists hh;
              split; [exact Dh|split; reflexivity]|].
      apply matches_Seq. eexists; eexists.
      split; [apply matches_Chr; split; reflexivity|].
      apply matches_Seq. eexists; eexists.
      split; [apply matches_two_digits; exists mm;
              split; [exact Dm|split; reflexivity]|].
      apply matches_Seq. eexists; eexists.
      split; [apply matches_Chr; split; reflexivity|].
      apply matches_Seq. eexists; eexists.
      split; [apply matches_two_digits; exists ss;
              split; [exact Ds|split; reflexivity]|].
      apply matches_tail. exists f, z. auto. }
    intros [W|(s0 & -> & W)].
    + rewrite <- (append_empty_r s). apply X; auto.
    + apply X; auto.
Qed.

Lemma last_char_app (a b : string) :
  b <> "" -> last_char (a ++ b) = last_char b.
Proof.
  intro N. induction a as [|c a IH]; [reflexivity|].
  cbn [append last_char]. rewrite IH.
  destruct (a ++ b) eqn:E; [|reflexivity].
  destruct a; [cbn in E; contradiction|discriminate E].
Qed.

Lemma app_not_empty_r (a b : string) : b <> "" -> a ++ b <> "".
Proof.
  intro N. destruct a; [exact N|discriminate].
Qed.

Ltac not_empty :=
  repeat apply app_not_empty_r; first [assumption|discriminate].

(** A well-formed timestamp ends with Z or with a digit. *)
Lemma well_formed_last_char (s : string) :
  Timestamp.well_formed s ->
  exists c, last_char s = Some c /\ (c = "Z"%char \/ Re.digit c = true).
Proof.
  intros (YYYY & MM & DD & hh & mm & ss & f & z & -> & _ & _ & _ & _ & _ & _
            & _ & Z).
  assert (L : exists c, last_char z = Some c /\
                        (c = "Z"%char \/ Re.digit c = true)).
  { destruct Z as [->|(sign & h & m & -> & _ & _ & Dm & _)].
    - exists "Z"%char. auto.
    - apply digits_two in Dm. destruct Dm as (a & b & -> & _ & Hb).
      exists b. split; [|now right].
      do 3 (rewrite last_char_app by not_empty). reflexivity. }
  destruct L as (c & L & C). exists c. split; [|exact C].
  assert (N : z <> "") by (intros ->; discriminate L).
  do 12 (rewrite last_char_app by not_empty). exact L.
Qed.

Lemma well_formed_no_final_newline (s0 : string) :
  ~ Timestamp.well_formed (s0 ++ newline).
Proof.
  intro W. apply well_formed_last_char in W. destruct W as (c & L & C).
  rewrite last_char_app in L by discriminate. injection L as <-.
  destruct C as [C|C]; discriminate C.
Qed.

(** The check of a string under ISO8601 or NX_DATE_TIME passes for a
    well-formed timestamp, alone or followed by one newline, and fails with
    the format error for every other string. *)
Theorem timestamp_check (s nxdl_type path : string) :
  nxdl_type = "ISO8601" \/ nxdl_type = "NX_DATE_TIME" ->
  (is_valid_data_field (VStr s) nxdl_type path = Ok tt
   <-> Timestamp.well_formed s \/
       exists s0, s = s0 ++ newline /\ Timestamp.well_formed s0) /\
  (is_valid_data_field (VStr s) nxdl_type path = Raise (FormatError path)
   <-> ~ (Timestamp.well_formed s \/
          exists s0, s = s0 ++ newline /\ Timestamp.well_formed s0)).
Proof.
  intro T. rewrite <- iso8601_found, <- search_found.
  assert (E : is_valid_data_field (VStr s) nxdl_type path
              = match Re.search iso8601 s with
                | None => Raise (FormatError path)
                | Some _ => Ok tt
                end) by (destruct T as [-> | ->]; reflexivity).
  rewrite E. destruct (Re.search iso8601 s) as [m|]; split; split; intro H.
  - discriminate.
  - reflexivity.
  - discriminate H.
  - exfalso. apply H. discriminate.
  - discriminate H.
  - exfalso. apply H. reflexivity.
  - intro N. apply N. reflexivity.
  - reflexivity.
Qed.

Lemma timestamp_check_witness :
  ("ISO8601" = "ISO8601" \/ "ISO8601" = "NX_DATE_TIME") /\
  (is_valid_data_field (VStr "2022-01-22T12:14:12") "ISO8601" "/t"
   = Raise (FormatError "/t")
   <-> ~ (Timestamp.well_formed "2022-01-22T12:14:12" \/
          exists s0, "2022-01-22T12:14:12" = s0 ++ newline /\
                     Timestamp.well_formed s0)).
Proof.
  assert (H : "ISO8601" = "ISO8601" \/ "ISO8601" = "NX_DATE_TIME") by now left.
  split; [exact H|].
  exact (proj2 (timestamp_check "2022-01-22T12:14:12" "ISO8601" "/t" H)).
Defined.

(** The four boundary cases of the specification. *)
Lemma timestamp_boundary_cases (path : string) :
  is_valid_data_field (VStr "2022-01-22T12:14:12.05018Z") "ISO8601" path = Ok tt /\
  is_valid_data_field (VStr "2022-01-22T12:14:12.05018-00:00") "ISO8601" path
  = Raise (FormatError path) /\
  is_valid_data_field (VStr "2022-01-22T12:14:12+02:00") "ISO8601" path = Ok tt /\
  is_valid_data_field (VStr "2022-01-22T12:14:12") "ISO8601" path
  = Raise (FormatError path) /\
  is_valid_data_field (VStr "2022-01-22T12:14:12.05018Z") "NX_DATE_TIME" path = Ok tt /\
  is_valid_data_field (VStr "2022-01-22T12:14:12.05018-00:00") "NX_DATE_TIME" path
  = Raise (FormatError path) /\
  is_valid_data_field (VStr "2022-01-22T12:14:12+02:00") "NX_DATE_TIME" path = Ok tt /\
  is_valid_data_field (VStr "2022-01-22T12:14:12") "NX_DATE_TIME" path
  = Raise (FormatError path).
Proof.
  repeat split; vm_compute; reflexivity.
Qed.

(** C6 (the code departs from the specification).  A timestamp followed by a newline
    is not of the form YYYY-MM-DDTHH:MM:SS[.fraction](Z|+HH:MM|-HH:MM), yet
    it is accepted under ISO8601 and under NX_DATE_TIME: the [$] of the
    pattern also matches before a final newline. *)
Theorem timestamp_with_final_newline_accepted :
  forall path,
    ~ Timestamp.well_formed ("2022-01-22T12:14:12Z" ++ newline) /\
    is_valid_data_field (VStr ("2022-01-22T12:14:12Z" ++ newline)) "ISO8601" path
    = Ok tt /\
    is_valid_data_field (VStr ("2022-01-22T12:14:12Z" ++ newline))
      "NX_DATE_TIME" path = Ok tt.
Proof.
  intro path. split; [apply well_formed_no_final_newline|].
  split; vm_compute; reflexivity.
Qed.

(** A list of strings passes the type check of the two timestamp types, and
    the search of the pattern in a list is a TypeError, whatever the strings
    are. *)
Lemma timestamp_list_raises_TypeError (items : list string)
  (nxdl_type path : string) :
  nxdl_type = "ISO8601" \/ nxdl_type = "NX_DATE_TIME" ->
  is_valid_data_field (VList (map VStr items)) nxdl_type path = Raise TypeError.
Proof.
  intro T.
  assert (V : is_valid_data_type (VList (map VStr items)) [py_str] = Ok true).
  { cbn [is_valid_data_type]. rewrite check_all_isinstance_returns. f_equal.
    induction items as [|x items IH]; [reflexivity|exact IH]. }
  destruct T as [-> | ->]; unfold is_valid_data_field, dict_item;
    cbn [dict_get NEXUS_TO_PYTHON_DATA_TYPES String.eqb Ascii.eqb Bool.eqb bind];
    rewrite V; reflexivity.
Qed.

(** * Further properties *)

(** ** Path model: segments *)

Lemma length_append (a b : string) :
  String.length (a ++ b) = String.length a + String.length b.
Proof. induction a as [|c a IH]; cbn; [reflexivity|now rewrite IH]. Qed.

Lemma take_append (a b : string) : PyStr.take (String.length a) (a ++ b) = a.
Proof. induction a as [|c a IH]; cbn; [now destruct b|now rewrite IH]. Qed.

Lemma all_in_append (p : ascii -> bool) (a b : string) :
  ReSpec.all_in p (a ++ b) = (ReSpec.all_in p a && ReSpec.all_in p b)%bool.
Proof.
  induction a as [|c a IH]; cbn; [reflexivity|].
  rewrite IH. now rewrite andb_assoc.
Qed.

Lemma all_in_weaken (p q : ascii -> bool) (s : string) :
  (forall c, p c = true -> q c = true) ->
  ReSpec.all_in p s = true -> ReSpec.all_in q s = true.
Proof.
  intro H. induction s as [|c s IH]; cbn; [reflexivity|].
  intro A. apply andb_true_iff in A. destruct A as [A1 A2].
  now rewrite (H c A1), IH.
Qed.

(** A lazy run up to [stop] ends at the first [stop], when no newline comes
    before it. *)
Lemma run_until_stops (stop : ascii) (a tail : string) :
  forall seen,
    ReSpec.all_in (fun c => Re.dot c && negb (Ascii.eqb stop c))%bool a = true ->
    Re.run (until stop) seen (a ++ String stop tail) (fun s r => Some (s, r))
    = Some (ReSpec.shift a seen, String stop tail).
Proof.
  induction a as [|c a IH]; intros seen A.
  - cbn. now rewrite Ascii.eqb_refl.
  - cbn [ReSpec.all_in] in A. apply andb_true_iff in A. destruct A as [Hc A].
    apply andb_true_iff in Hc. destruct Hc as [D N].
    apply negb_true_iff in N. specialize (IH (String c seen) A).
    cbn [append ReSpec.shift]. unfold until in *. cbn [Re.run Re.Chr] in *.
    rewrite N, D. exact IH.
Qed.

(** Where a lazy run up to [stop] ends, whenever it succeeds. *)
Lemma run_until_result (stop : ascii) (rest : string) :
  forall seen s' r',
    Re.run (until stop) seen rest (fun s r => Some (s, r)) = Some (s', r') ->
    exists m tail,
      rest = m ++ String stop tail /\ r' = String stop tail /\
      ReSpec.all_in (fun c => Re.dot c && negb (Ascii.eqb stop c))%bool m = true /\
      s' = ReSpec.shift m seen.
Proof.
  induction rest as [|c t IH]; intros seen s' r'; unfold until in *;
    cbn [Re.run Re.Chr] in *; [discriminate|].
  destruct (Ascii.eqb stop c) eqn:E.
  - intros [= <- <-]. apply Ascii.eqb_eq in E. subst c.
    exists "", t. auto.
  - destruct (Re.dot c) eqn:D; [|discriminate].
    intro H. apply IH in H. destruct H as (m & tail & -> & -> & A & ->).
    exists (String c m), tail. cbn. rewrite D, E, A. auto.
Qed.

Lemma match_here_until (stop : ascii) (a tail seen : string) :
  ReSpec.all_in (fun c => Re.dot c && negb (Ascii.eqb stop c))%bool a = true ->
  Re.match_here (until stop) seen (a ++ String stop tail) = Some a.
Proof.
  intro A. unfold Re.match_here. rewrite (run_until_stops stop a tail seen A).
  rewrite length_append.
  replace (String.length a + String.length (String stop tail)
           - String.length (String stop tail)) with (String.length a) by lia.
  now rewrite take_append.
Qed.

Lemma match_here_until_result (stop : ascii) (rest seen m : string) :
  Re.match_here (until stop) seen rest = Some m ->
  exists tail,
    rest = m ++ String stop tail /\
    ReSpec.all_in (fun c => Re.dot c && negb (Ascii.eqb stop c))%bool m = true.
Proof.
  unfold Re.match_here.
  destruct (Re.run (until stop) seen rest (fun s r => Some (s, r)))
    as [[s' r']|] eqn:R; [|discriminate].
  apply run_until_result in R. destruct R as (m' & tail & -> & -> & A & _).
  rewrite length_append.
  replace (String.length m' + String.length (String stop tail)
           - String.length (String stop tail)) with (String.length m') by lia.
  rewrite take_append. intros [= <-]. eauto.
Qed.

(** The text behind the first opening bracket is searched for the name. *)
Lemma search_name_skips (class : string) :
  forall seen tail,
    (seen = "" \/ exists c t, seen = String c t /\ Ascii.eqb sq_open c = false) ->
    ReSpec.all_in not_open class = true ->
    Re.search_from regex_entry_name seen (class ++ String sq_open tail)
    = Re.search_from regex_entry_name
        (String sq_open (ReSpec.shift class seen)) tail.
Proof.
  assert (B : forall seen rest,
             (seen = "" \/
              exists c t, seen = String c t /\ Ascii.eqb sq_open c = false) ->
             Re.match_here regex_entry_name seen rest = None).
  { intros seen rest [->|(c & t & -> & E)];
      unfold Re.match_here, regex_entry_name; cbn [Re.run];
      [reflexivity|now rewrite E]. }
  induction class as [|d class IH]; intros seen tail S A.
  - cbn [append ReSpec.shift Re.search_from]. now rewrite (B seen _ S).
  - cbn [ReSpec.all_in] in A. apply andb_true_iff in A. destruct A as [Hd A].
    apply negb_true_iff in Hd.
    cbn [append ReSpec.shift Re.search_from]. rewrite (B seen _ S).
    apply IH; [|exact A]. right. eauto.
Qed.

Lemma bracketed_segment_converted (class name rest : string) :
  ReSpec.all_in token_char class = true ->
  ReSpec.all_in name_char name = true ->
  convert_data_converter_entry_to_nxdl_path_entry
    (class ++ String sq_open (name ++ String sq_close rest)) = class /\
  get_name_from_data_dict_entry
    (class ++ String sq_open (name ++ String sq_close rest)) = name.
Proof.
  intros C N. split.
  - unfold convert_data_converter_entry_to_nxdl_path_entry, Re.search.
    change regex_nxdl_entry with (until sq_open).
    assert (M : Re.match_here (until sq_open) ""
                  (class ++ String sq_open (name ++ String sq_close rest))
                = Some class) by (apply match_here_until; exact C).
    destruct class; cbn [append Re.search_from] in *; now rewrite M.
  - unfold get_name_from_data_dict_entry, Re.search.
    rewrite search_name_skips; [|now left|].
    + assert (M : Re.match_here regex_entry_name
                    (String sq_open (ReSpec.shift class ""))
                    (name ++ String sq_close rest) = Some name).
      { pose proof (match_here_until sq_close name rest
                      (String sq_open (ReSpec.shift class "")) N) as M.
        unfold Re.match_here in *. unfold regex_entry_name.
        cbn [Re.run]. rewrite Ascii.eqb_refl. exact M. }
      destruct name; cbn [append Re.search_from] in *; now rewrite M.
    + apply (all_in_weaken token_char); [|exact C].
      intros c H. unfold token_char in H. apply andb_true_iff in H.
      now destruct H.
Qed.

(** X1.  A segment [CLASS[name]...] is converted to [CLASS] for the schema
    path and to [name] for the storage path, whatever follows the closing
    bracket, when the class has no newline and no opening bracket and the
    name has no newline and no closing bracket. *)
Theorem segment_with_suggested_name :
  forall class name rest,
    ReSpec.all_in token_char class = true ->
    ReSpec.all_in name_char name = true ->
    convert_data_converter_entry_to_nxdl_path_entry
      (class ++ String sq_open (name ++ String sq_close rest)) = class /\
    get_name_from_data_dict_entry
      (class ++ String sq_open (name ++ String sq_close rest)) = name.
Proof. exact bracketed_segment_converted. Qed.

Lemma segment_with_suggested_name_witness :
  ReSpec.all_in token_char "ENTRY" = true /\
  ReSpec.all_in name_char "entry" = true /\
  convert_data_converter_entry_to_nxdl_path_entry "ENTRY[entry]" = "ENTRY" /\
  get_name_from_data_dict_entry "ENTRY[entry]" = "entry".
Proof.
  assert (H1 : ReSpec.all_in token_char "ENTRY" = true) by reflexivity.
  assert (H2 : ReSpec.all_in name_char "entry" = true) by reflexivity.
  repeat (split; [assumption|]).
  exact (segment_with_suggested_name "ENTRY" "entry" "" H1 H2).
Defined.

Lemma search_from_until_result (stop : ascii) (rest : string) :
  forall seen m,
    Re.search_from (until stop) seen rest = Some m ->
    exists before tail,
      rest = before ++ m ++ String stop tail /\
      ReSpec.all_in (fun c => Re.dot c && negb (Ascii.eqb stop c))%bool m = true.
Proof.
  induction rest as [|c t IH]; intros seen m; cbn [Re.search_from].
  - destruct (Re.match_here (until stop) seen "") eqn:M; [|discriminate].
    intros [= ->]. apply match_here_until_result in M.
    destruct M as (tail & E & A). exists "", tail. auto.
  - destruct (Re.match_here (until stop) seen (String c t)) eqn:M.
    + intros [= ->]. apply match_here_until_result in M.
      destruct M as (tail & E & A). exists "", tail. auto.
    + intro H. apply IH in H. destruct H as (before & tail & -> & A).
      exists (String c before), tail. auto.
Qed.

(** What the schema segment of an entry is: the entry itself, or a part of
    it that stands before an opening bracket and has none. *)
Lemma nxdl_path_entry_cases (entry : string) :
  convert_data_converter_entry_to_nxdl_path_entry entry = entry \/
  exists before tail,
    entry = before
            ++ convert_data_converter_entry_to_nxdl_path_entry entry
            ++ String sq_open tail /\
    ReSpec.all_in token_char
      (convert_data_converter_entry_to_nxdl_path_entry entry) = true.
Proof.
  unfold convert_data_converter_entry_to_nxdl_path_entry, Re.search.
  change regex_nxdl_entry with (until sq_open).
  destruct (Re.search_from (until sq_open) "" entry) as [m|] eqn:S;
    [|now left].
  right. apply search_from_until_result in S.
  destruct S as (before & tail & E & A). exists before, tail. auto.
Qed.

Lemma not_open_no_bracket (s : string) :
  ReSpec.all_in not_open s = true ->
  forall before after, s <> before ++ String sq_open after.
Proof.
  intros A before after ->. rewrite all_in_append in A.
  apply andb_true_iff in A. destruct A as [_ A]. cbn in A. discriminate A.
Qed.

Lemma no_bracket_not_open (s : string) :
  (forall before after, s <> before ++ String sq_open after) ->
  ReSpec.all_in not_open s = true.
Proof.
  induction s as [|c s IH]; intro N; [reflexivity|].
  cbn [ReSpec.all_in]. apply andb_true_iff. split.
  - unfold not_open. apply negb_true_iff. apply Ascii.eqb_neq. intros <-.
    now apply (N "" s).
  - apply IH. intros before after ->. now apply (N (String c before) after).
Qed.

Lemma token_char_not_open (s : string) :
  ReSpec.all_in token_char s = true -> ReSpec.all_in not_open s = true.
Proof.
  apply all_in_weaken. intros c H. unfold token_char in H.
  apply andb_true_iff in H. now destruct H.
Qed.

(** The schema segment of a segment never has an opening bracket. *)
Lemma nxdl_path_entry_not_open (entry : string) :
  ReSpec.all_in not_open
    (convert_data_converter_entry_to_nxdl_path_entry entry) = true.
Proof.
  destruct (nxdl_path_entry_cases entry) as [E|(before & tail & _ & A)];
    [|now apply token_char_not_open].
  rewrite E.
  unfold convert_data_converter_entry_to_nxdl_path_entry, Re.search in E.
  change regex_nxdl_entry with (until sq_open) in E.
  destruct (Re.search_from (until sq_open) "" entry) as [m|] eqn:S.
  - apply search_from_until_result in S.
    destruct S as (b & t & _ & A). subst m. now apply token_char_not_open.
  - apply no_bracket_not_open. intros before after ->.
    assert (F : Re.search (until sq_open) (before ++ String sq_open after)
                <> None).
    { apply search_found. exists before, (String sq_open after).
      eexists; eexists. split; [reflexivity|].
      unfold until. cbn [ReSpec.matches].
      exists (ReSpec.shift before ""), (String sq_open after). split.
      - exists "". auto.
      - split; [|auto]. eexists; eexists. exists sq_open.
        rewrite Ascii.eqb_refl. auto. }
    unfold Re.search in F. congruence.
Qed.

Lemma segment_unchanged (entry : string) :
  ReSpec.all_in not_open entry = true ->
  convert_data_converter_entry_to_nxdl_path_entry entry = entry /\
  get_name_from_data_dict_entry entry = entry.
Proof.
  intro A. apply entry_without_bracket. now apply not_open_no_bracket.
Qed.

(** X2.  A segment without an opening bracket passes through both segment
    conversions unchanged.  The schema segment of any segment has no opening
    bracket, so that converting it once more changes nothing. *)
Theorem segment_without_bracket :
  forall entry,
    (ReSpec.all_in not_open entry = true ->
     convert_data_converter_entry_to_nxdl_path_entry entry = entry /\
     get_name_from_data_dict_entry entry = entry) /\
    ReSpec.all_in not_open
      (convert_data_converter_entry_to_nxdl_path_entry entry) = true /\
    convert_data_converter_entry_to_nxdl_path_entry
      (convert_data_converter_entry_to_nxdl_path_entry entry)
    = convert_data_converter_entry_to_nxdl_path_entry entry.
Proof.
  intro entry. split; [apply segment_unchanged|].
  split; [apply nxdl_path_entry_not_open|].
  apply segment_unchanged. apply nxdl_path_entry_not_open.
Qed.

Lemma segment_without_bracket_witness :
  ReSpec.all_in not_open "sample" = true /\
  convert_data_converter_entry_to_nxdl_path_entry "sample" = "sample" /\
  get_name_from_data_dict_entry "sample" = "sample".
Proof.
  assert (H : ReSpec.all_in not_open "sample" = true) by reflexivity.
  split; [exact H|].
  exact (proj1 (segment_without_bracket "sample") H).
Defined.

(** ** Path model: whole paths *)

Lemma split_no_sep_prefix (sep : ascii) (s acc : string) :
  ReSpec.all_in (fun c => negb (Ascii.eqb c sep)) s = true ->
  PyStr.split sep (s ++ acc)
  = match PyStr.split sep acc with
    | h :: r => (s ++ h) :: r
    | [] => [s]
    end.
Proof.
  induction s as [|c s IH]; intro A.
  - cbn [append]. pose proof (split_not_nil sep acc) as N.
    destruct (PyStr.split sep acc); [contradiction|reflexivity].
  - cbn [ReSpec.all_in] in A. apply andb_true_iff in A. destruct A as [Hc A].
    apply negb_true_iff in Hc. cbn [append PyStr.split]. rewrite Hc, (IH A).
    pose proof (split_not_nil sep acc) as N.
    destruct (PyStr.split sep acc); [contradiction|reflexivity].
Qed.

(** A path is split into the segments it was made of. *)
Lemma split_join_segments (segments : list string) :
  Forall (fun s => ReSpec.all_in not_slash s = true) segments ->
  PyStr.split slash (join_segments segments) = "" :: segments.
Proof.
  induction 1 as [|s segments Hs _ IH]; [reflexivity|].
  cbn [join_segments fold_right PyStr.split]. rewrite Ascii.eqb_refl.
  fold (join_segments segments). f_equal.
  rewrite (split_no_sep_prefix slash s _ Hs), IH. now rewrite append_empty_r.
Qed.

(** The pieces of a split have no separator. *)
Lemma split_pieces_no_sep (sep : ascii) (s : string) :
  Forall (fun x => ReSpec.all_in (fun c => negb (Ascii.eqb c sep)) x = true)
    (PyStr.split sep s).
Proof.
  induction s as [|c s IH]; cbn [PyStr.split].
  - constructor; [reflexivity|constructor].
  - destruct (Ascii.eqb c sep) eqn:E.
    + constructor; [reflexivity|exact IH].
    + destruct (PyStr.split sep s) as [|h r].
      * constructor; [cbn; now rewrite E|constructor].
      * inversion IH as [|? ? Hh Hr]. subst.
        constructor; [cbn; now rewrite E, Hh|exact Hr].
Qed.

Lemma join_converted_segments (f : string -> string) (entries : list string) :
  fold_right String.append ""
    (map (fun entry => String slash (f entry)) entries)
  = join_segments (map f entries).
Proof.
  induction entries as [|x entries IH]; [reflexivity|].
  cbn [map fold_right join_segments]. fold (join_segments (map f entries)).
  now rewrite <- IH.
Qed.

Lemma conversions_of_pieces (path : string) :
  convert_data_converter_dict_to_nxdl_path path
  = join_segments
      (map convert_data_converter_entry_to_nxdl_path_entry
         (tl (PyStr.split slash path))) /\
  convert_data_dict_path_to_hdf5_path path
  = join_segments
      (map get_name_from_data_dict_entry (tl (PyStr.split slash path))).
Proof.
  rewrite nxdl_path_joined, hdf5_path_joined.
  unfold join_converted. now rewrite !join_converted_segments.
Qed.

Lemma conversions_of_segments (segments : list string) :
  Forall (fun s => ReSpec.all_in not_slash s = true) segments ->
  convert_data_converter_dict_to_nxdl_path (join_segments segments)
  = join_segments
      (map convert_data_converter_entry_to_nxdl_path_entry segments) /\
  convert_data_dict_path_to_hdf5_path (join_segments segments)
  = join_segments (map get_name_from_data_dict_entry segments).
Proof.
  intro H. destruct (conversions_of_pieces (join_segments segments)) as [G1 G2].
  rewrite G1, G2, (split_join_segments segments H). now split.
Qed.

(** X3.  Both path conversions work segment by segment: the conversion of
    the path made of given slash-free segments is the path made of the
    converted segments; and every conversion result is of that form, the
    first piece of the input, before its first slash, being dropped. *)
Theorem path_conversions_by_segment :
  (forall segments,
      Forall (fun s => ReSpec.all_in not_slash s = true) segments ->
      convert_data_converter_dict_to_nxdl_path (join_segments segments)
      = join_segments
          (map convert_data_converter_entry_to_nxdl_path_entry segments) /\
      convert_data_dict_path_to_hdf5_path (join_segments segments)
      = join_segments (map get_name_from_data_dict_entry segments)) /\
  (forall path,
      convert_data_converter_dict_to_nxdl_path path
      = join_segments
          (map convert_data_converter_entry_to_nxdl_path_entry
             (tl (PyStr.split slash path))) /\
      convert_data_dict_path_to_hdf5_path path
      = join_segments
          (map get_name_from_data_dict_entry (tl (PyStr.split slash path)))).
Proof. split; [exact conversions_of_segments|exact conversions_of_pieces]. Qed.

Lemma path_conversions_by_segment_witness :
  Forall (fun s => ReSpec.all_in not_slash s = true) ["ENTRY[entry]"; "sample"] /\
  convert_data_converter_dict_to_nxdl_path
    (join_segments ["ENTRY[entry]"; "sample"])
  = join_segments
      (map convert_data_converter_entry_to_nxdl_path_entry
         ["ENTRY[entry]"; "sample"]).
Proof.
  assert (H : Forall (fun s => ReSpec.all_in not_slash s = true)
                ["ENTRY[entry]"; "sample"])
    by (repeat constructor).
  split; [exact H|].
  exact (proj1 (proj1 path_conversions_by_segment ["ENTRY[entry]"; "sample"] H)).
Defined.

Lemma nxdl_path_entry_no_slash (entry : string) :
  ReSpec.all_in not_slash entry = true ->
  ReSpec.all_in not_slash
    (convert_data_converter_entry_to_nxdl_path_entry entry) = true.
Proof.
  intro A. destruct (nxdl_path_entry_cases entry) as [->|(b & t & E & _)];
    [exact A|].
  rewrite E in A. rewrite !all_in_append in A.
  apply andb_true_iff in A. destruct A as [_ A].
  apply andb_true_iff in A. now destruct A.
Qed.

(** X4.  The schema path is a fixed point of the conversion: converting a
    converted path changes nothing. *)
Theorem nxdl_path_idempotent :
  forall path,
    convert_data_converter_dict_to_nxdl_path
      (convert_data_converter_dict_to_nxdl_path path)
    = convert_data_converter_dict_to_nxdl_path path.
Proof.
  intro path.
  destruct (conversions_of_pieces path) as [E _].
  rewrite E at 1.
  assert (H : Forall (fun s => ReSpec.all_in not_slash s = true)
                (map convert_data_converter_entry_to_nxdl_path_entry
                   (tl (PyStr.split slash path)))).
  { pose proof (split_pieces_no_sep slash path) as P.
    destruct (PyStr.split slash path) as [|h r]; [constructor|].
    inversion P as [|? ? _ Pr]. subst. cbn [tl]. clear - Pr.
    induction Pr as [|x r Hx _ IH]; [constructor|].
    cbn [map]. constructor; [|exact IH].
    now apply nxdl_path_entry_no_slash. }
  rewrite (proj1 (conversions_of_segments _ H)), E.
  f_equal. rewrite map_map. apply map_ext. intro entry.
  apply segment_unchanged. apply nxdl_path_entry_not_open.
Qed.

(** X5.  The documented conversion in general: for a path whose segments are
    [CLASS[name]] (class and name without slash, newline and the bracket that
    would end them early), the schema path is the path of the classes and
    the storage path is the path of the names. *)
Theorem path_of_bracketed_segments :
  forall segments : list (string * string),
    Forall (fun cn =>
              ReSpec.all_in token_char (fst cn) = true /\
              ReSpec.all_in name_char (snd cn) = true /\
              ReSpec.all_in not_slash (fst cn) = true /\
              ReSpec.all_in not_slash (snd cn) = true) segments ->
    convert_data_converter_dict_to_nxdl_path
      (join_segments (map (fun cn => bracketed (fst cn) (snd cn)) segments))
    = join_segments (map fst segments) /\
    convert_data_dict_path_to_hdf5_path
      (join_segments (map (fun cn => bracketed (fst cn) (snd cn)) segments))
    = join_segments (map snd segments).
Proof.
  intros segments H.
  assert (N : Forall (fun s => ReSpec.all_in not_slash s = true)
                (map (fun cn => bracketed (fst cn) (snd cn)) segments)).
  { induction H as [|[c n] l (_ & _ & Hc & Hn) _ IH]; [constructor|].
    cbn [map fst snd]. constructor; [|exact IH].
    unfold bracketed. rewrite all_in_append. cbn [ReSpec.all_in].
    rewrite all_in_append. cbn [ReSpec.all_in fst snd] in *.
    now rewrite Hc, Hn. }
  destruct (conversions_of_segments _ N) as [E1 E2].
  rewrite E1, E2, !map_map. rewrite Forall_forall in H.
  split; f_equal; apply map_ext_in; intros [c n] I;
    destruct (H _ I) as (Hc & Hn & _); cbn [fst snd] in *;
    apply (bracketed_segment_converted c n "" Hc Hn).
Qed.

Lemma path_of_bracketed_segments_witness :
  Forall (fun cn =>
            ReSpec.all_in token_char (fst cn) = true /\
            ReSpec.all_in name_char (snd cn) = true /\
            ReSpec.all_in not_slash (fst cn) = true /\
            ReSpec.all_in not_slash (snd cn) = true)
    [("ENTRY", "entry"); ("INSTRUMENT", "instrument")] /\
  convert_data_converter_dict_to_nxdl_path
    (join_segments
       (map (fun cn => bracketed (fst cn) (snd cn))
          [("ENTRY", "entry"); ("INSTRUMENT", "instrument")]))
  = join_segments (map fst [("ENTRY", "entry"); ("INSTRUMENT", "instrument")]) /\
  convert_data_dict_path_to_hdf5_path
    (join_segments
       (map (fun cn => bracketed (fst cn) (snd cn))
          [("ENTRY", "entry"); ("INSTRUMENT", "instrument")]))
  = join_segments (map snd [("ENTRY", "entry"); ("INSTRUMENT", "instrument")]).
Proof.
  assert (H : Forall (fun cn =>
                        ReSpec.all_in token_char (fst cn) = true /\
                        ReSpec.all_in name_char (snd cn) = true /\
                        ReSpec.all_in not_slash (fst cn) = true /\
                        ReSpec.all_in not_slash (snd cn) = true)
                [("ENTRY", "entry"); ("INSTRUMENT", "instrument")])
    by (repeat constructor).
  split; [exact H|].
  exact (path_of_bracketed_segments _ H).
Defined.

(** ** The validation loop *)

Section LoopOutcome.

Variable nexus : nexus_module.
Variable array_eq : array_eq_semantics.
Variable data : data_dict.
Variable nxdl_root : Elem.

Lemma validate_paths_outcome (template : list string) :
  (Forall (fun p => validate_path nexus array_eq data nxdl_root p = Ok tt) template /\
   validate_paths nexus array_eq template data nxdl_root = Ok true) \/
  (exists before path rest e,
      template = (before ++ path :: rest)%list /\
      Forall (fun p => validate_path nexus array_eq data nxdl_root p = Ok tt) before /\
      validate_path nexus array_eq data nxdl_root path = Raise e /\
      validate_paths nexus array_eq template data nxdl_root = Raise e).
Proof.
  induction template as [|p template IH].
  - left. split; [constructor|reflexivity].
  - cbn [validate_paths].
    destruct (validate_path nexus array_eq data nxdl_root p) as [[]|e] eqn:V.
    + cbn [bind]. destruct IH as [[F R]|(before & path & rest & e & -> & F & P & R)].
      * left. split; [constructor; assumption|exact R].
      * right. exists (p :: before), path, rest, e.
        repeat split; try assumption. constructor; assumption.
    + right. exists [], p, template, e. repeat split; try assumption.
      constructor.
Qed.

End LoopOutcome.

(** X6.  [validate_data_dict] with a loaded schema either returns [True] or
    raises: it returns [True] exactly when the loop body passes for every
    path of the template, it never returns [False], and when it raises, the
    error is that of the first path, in template order, whose body fails. *)
Theorem validate_data_dict_outcome :
  forall (nexus : nexus_module) (array_eq : array_eq_semantics)
         (template : list string) (data : data_dict) (nxdl_root : Elem),
    (validate_data_dict nexus array_eq template data (Some nxdl_root) = Ok true
     <-> Forall (fun p => validate_path nexus array_eq data nxdl_root p = Ok tt)
           template) /\
    validate_data_dict nexus array_eq template data (Some nxdl_root)
    <> Ok false /\
    (forall e,
        validate_data_dict nexus array_eq template data (Some nxdl_root)
        = Raise e
        <-> exists before path rest,
              template = (before ++ path :: rest)%list /\
              Forall (fun p => validate_path nexus array_eq data nxdl_root p
                               = Ok tt) before /\
              validate_path nexus array_eq data nxdl_root path = Raise e).
Proof.
  intros nexus array_eq template data nxdl_root. cbn [validate_data_dict].
  destruct (validate_paths_outcome nexus array_eq data nxdl_root template)
    as [[F R]|(before & path & rest & e & E & F & P & R)].
  - rewrite R. split; [tauto|]. split; [discriminate|].
    intro e. split; [discriminate|].
    intros (before & path & rest & -> & _ & P).
    apply Forall_app in F. destruct F as [_ F]. inversion F as [|? ? Hp _].
    subst. congruence.
  - rewrite R. split; [|split; [discriminate|]].
    + split; [discriminate|]. intro A. subst template.
      apply Forall_app in A. destruct A as [_ A]. inversion A as [|? ? Hp _].
      subst. congruence.
    + intro e'. split.
      * intros [= <-]. exists before, path, rest. auto.
      * intros (before' & path' & rest' & E' & F' & P').
        rewrite E' in R.
        rewrite (validate_paths_first_failure nexus array_eq data nxdl_root
                   before' rest' path' e' F' P') in R.
        now symmetry.
Qed.

(** ** The loop body on the kinds of paths *)

Lemma rpartition_no_sep (p : string) :
  ReSpec.all_in not_slash p = true -> PyStr.rpartition slash p = None.
Proof.
  induction p as [|c p IH]; [reflexivity|].
  cbn [ReSpec.all_in PyStr.rpartition]. intro A.
  apply andb_true_iff in A. destruct A as [Hc A].
  apply negb_true_iff in Hc. now rewrite (IH A), Hc.
Qed.

Lemma rpartition_trailing_sep (p : string) :
  PyStr.rpartition slash (p ++ "/") = Some (p, "").
Proof.
  induction p as [|c p IH]; [reflexivity|].
  cbn [append PyStr.rpartition]. now rewrite IH.
Qed.

(** X7.  A key of the template without any slash makes the loop body raise
    ValueError (from [rindex]), and a key that ends with a slash makes it
    raise IndexError (the name of its last segment is empty); the empty key
    is of the first kind. *)
Theorem template_key_without_last_segment :
  forall (nexus : nexus_module) (array_eq : array_eq_semantics)
         (data : data_dict) (nxdl_root : Elem),
    (forall path,
        ReSpec.all_in not_slash path = true ->
        validate_path nexus array_eq data nxdl_root path = Raise ValueError) /\
    (forall p,
        validate_path nexus array_eq data nxdl_root (p ++ "/")
        = Raise IndexError) /\
    validate_path nexus array_eq data nxdl_root "" = Raise ValueError.
Proof.
  intros nexus array_eq data nxdl_root.
  assert (A : forall path,
             ReSpec.all_in not_slash path = true ->
             validate_path nexus array_eq data nxdl_root path
             = Raise ValueError).
  { intros path H. unfold validate_path, PyStr.after_rindex.
    rewrite (rpartition_no_sep path H).
    now destruct (path_in_data_dict _ data). }
  split; [exact A|]. split; [|now apply A].
  intro p. unfold validate_path, PyStr.after_rindex.
  rewrite rpartition_trailing_sep.
  now destruct (path_in_data_dict _ data).
Qed.

Lemma template_key_without_last_segment_witness :
  ReSpec.all_in not_slash "title" = true /\
  validate_path test_nexus elementwise_eq [] test_root "title"
  = Raise ValueError.
Proof.
  assert (H : ReSpec.all_in not_slash "title" = true) by reflexivity.
  split; [exact H|].
  exact (proj1 (template_key_without_last_segment
                  test_nexus elementwise_eq [] test_root) "title" H).
Defined.

Section PathKinds.

Variable nexus : nexus_module.
Variable array_eq : array_eq_semantics.
Variable data : data_dict.
Variable nxdl_root : Elem.

(** The loop body of a path that is not passed over, up to the point where
    the schema node is known. *)
Lemma validate_path_of_node (path : string) (c : ascii) :
  entry_name_initial path = Ok c ->
  Ascii.eqb c "@" = false ->
  validate_path nexus array_eq data nxdl_root path
  = let elem :=
      get_node_at_nxdl_path nexus
        (convert_data_converter_dict_to_nxdl_path path) nxdl_root in
    let found :=
      path_in_data_dict (convert_data_converter_dict_to_nxdl_path path) data in
    missing <-
      (if String.eqb (get_required_string elem) REQUIRED then
         if negb (fst found) then Ok true
         else item_is_None data (snd found)
       else Ok false) ;;
    (if missing then
       optional_parent <- check_for_optional_parent nexus path nxdl_root ;;
       if (String.eqb optional_parent NOT_FOUND
           || check_are_children_set optional_parent data)%bool
       then Raise (MissingRequiredFieldError
                     (if String.eqb (snd found) "" then path
                      else snd found))
       else Ok tt
     else Ok tt) ;;;
    nxdl_type <- declared_nxdl_type elem ;;
    if fst found then
      v <- dict_item data (snd found) ;;
      match v with
      | Some val =>
          is_valid_data_field val nxdl_type (snd found) ;;;
          r <- is_value_valid_element_of_enum nexus array_eq val elem ;;
          let (is_valid_enum, enums) := r in
          if negb is_valid_enum
          then Raise (EnumMismatchError (snd found) enums)
          else Ok tt
      | None => Ok tt
      end
    else Ok tt.
Proof.
  intros I C. unfold validate_path, entry_name_initial in *.
  destruct (path_in_data_dict _ data) as [found renamed].
  destruct (PyStr.after_rindex slash path) as [last_entry|];
    [|discriminate I].
  cbn [bind] in *. rewrite I. cbn [bind fst snd]. now rewrite C.
Qed.

End PathKinds.

(** X8.  A path of the template that the schema does not describe (the
    lookup of its node gives [None]) and that is not an attribute makes the
    loop body raise AttributeError, whatever the data holds. *)
Theorem path_not_in_schema_raises_AttributeError :
  forall (nexus : nexus_module) (array_eq : array_eq_semantics)
         (data : data_dict) (nxdl_root : Elem) (path : string) (c : ascii),
    entry_name_initial path = Ok c ->
    c <> "@"%char ->
    get_node_at_nxdl_path nexus
      (convert_data_converter_dict_to_nxdl_path path) nxdl_root = None ->
    validate_path nexus array_eq data nxdl_root path = Raise AttributeError.
Proof.
  intros nexus array_eq data nxdl_root path c I C N.
  apply Ascii.eqb_neq in C.
  rewrite (validate_path_of_node nexus array_eq data nxdl_root path c I C).
  cbn zeta. rewrite N. reflexivity.
Qed.

Lemma path_not_in_schema_raises_AttributeError_witness :
  entry_name_initial "/ENTRY[entry]/unknown" = Ok "u"%char /\
  "u"%char <> "@"%char /\
  get_node_at_nxdl_path test_nexus
    (convert_data_converter_dict_to_nxdl_path "/ENTRY[entry]/unknown")
    test_root = None /\
  validate_path test_nexus elementwise_eq [] test_root "/ENTRY[entry]/unknown"
  = Raise AttributeError.
Proof.
  assert (H1 : entry_name_initial "/ENTRY[entry]/unknown" = Ok "u"%char)
    by (vm_compute; reflexivity).
  assert (H2 : "u"%char <> "@"%char) by discriminate.
  assert (H3 : get_node_at_nxdl_path test_nexus
                 (convert_data_converter_dict_to_nxdl_path
                    "/ENTRY[entry]/unknown") test_root = None)
    by (vm_compute; reflexivity).
  repeat (split; [assumption|]).
  exact (path_not_in_schema_raises_AttributeError test_nexus elementwise_eq []
           test_root "/ENTRY[entry]/unknown" "u"%char H1 H2 H3).
Defined.

(** X9.  OPTIONAL and RECOMMENDED are never enforced: a path that is not an
    attribute, whose node is in the schema and is not REQUIRED, and whose
    entry in the data is missing or [None], passes. *)
Theorem unrequired_path_without_value_passes :
  forall (nexus : nexus_module) (array_eq : array_eq_semantics)
         (data : data_dict) (nxdl_root : Elem) (path : string) (c : ascii)
         (e : Elem),
    entry_name_initial path = Ok c ->
    c <> "@"%char ->
    get_node_at_nxdl_path nexus
      (convert_data_converter_dict_to_nxdl_path path) nxdl_root = Some e ->
    get_required_string (Some e) <> REQUIRED ->
    missing_or_None data path = true ->
    validate_path nexus array_eq data nxdl_root path = Ok tt.
Proof.
  intros nexus array_eq data nxdl_root path c e I C N R M.
  apply Ascii.eqb_neq in C. apply String.eqb_neq in R.
  rewrite (validate_path_of_node nexus array_eq data nxdl_root path c I C).
  cbn zeta. rewrite N, R. cbn [bind].
  destruct (declared_nxdl_type_of_element e) as [t T]. rewrite T. cbn [bind].
  pose proof (path_in_data_dict_matching data path) as P.
  unfold missing_or_None in M.
  destruct (matching_entry data path) as [[key [v|]]|];
    [discriminate M|destruct P as [P G]|]; rewrite P; cbn [fst snd];
    [|reflexivity].
  unfold dict_item. now rewrite G.
Qed.

Lemma unrequired_path_without_value_passes_witness :
  entry_name_initial size_path = Ok "s"%char /\
  "s"%char <> "@"%char /\
  get_node_at_nxdl_path test_nexus
    (convert_data_converter_dict_to_nxdl_path size_path) test_root
  = Some (optional_node "field" "size") /\
  get_required_string (Some (optional_node "field" "size")) <> REQUIRED /\
  missing_or_None [(size_path, None)] size_path = true /\
  validate_path test_nexus elementwise_eq [(size_path, None)] test_root size_path
  = Ok tt.
Proof.
  assert (H1 : entry_name_initial size_path = Ok "s"%char)
    by (vm_compute; reflexivity).
  assert (H2 : "s"%char <> "@"%char) by discriminate.
  assert (H3 : get_node_at_nxdl_path test_nexus
                 (convert_data_converter_dict_to_nxdl_path size_path) test_root
               = Some (optional_node "field" "size"))
    by (vm_compute; reflexivity).
  assert (H4 : get_required_string (Some (optional_node "field" "size"))
               <> REQUIRED) by discriminate.
  assert (H5 : missing_or_None [(size_path, None)] size_path = true)
    by (vm_compute; reflexivity).
  repeat (split; [assumption|]).
  exact (unrequired_path_without_value_passes test_nexus elementwise_eq
           [(size_path, None)] test_root size_path "s"%char
           (optional_node "field" "size") H1 H2 H3 H4 H5).
Defined.

Lemma no_children_set_without_values (data : data_dict) (parent : string) :
  Forall (fun kv : string * option value => snd kv = None) data ->
  check_are_children_set parent data = false.
Proof.
  intro H. unfold check_are_children_set.
  induction H as [|[k v] data Hv _ IH]; [reflexivity|].
  cbn [existsb fst snd] in *. subst v. cbn [is_not_None].
  now rewrite andb_false_r.
Qed.

Lemma missing_without_values (data : data_dict) (path : string) :
  Forall (fun kv : string * option value => snd kv = None) data ->
  missing_or_None data path = true.
Proof.
  intro H. unfold missing_or_None, matching_entry.
  destruct (find _ data) as [[k [v|]]|] eqn:F; try reflexivity.
  apply find_some in F. destruct F as [F _].
  rewrite Forall_forall in H. specialize (H _ F). discriminate H.
Qed.

(** X10.  When no entry of the data has a value (every value is [None], or
    the data is empty), a REQUIRED path that starts with a slash and is not
    an attribute fails with the missing-required error exactly when it has no
    OPTIONAL or RECOMMENDED ancestor, and passes exactly when it has one. *)
Theorem required_path_in_data_without_values :
  forall (nexus : nexus_module) (array_eq : array_eq_semantics)
         (data : data_dict) (nxdl_root : Elem) (path : string) (c : ascii),
    Forall (fun kv : string * option value => snd kv = None) data ->
    PyStr.startswith path "/" = true ->
    entry_name_initial path = Ok c ->
    c <> "@"%char ->
    requiredness nexus nxdl_root path = REQUIRED ->
    (validate_path nexus array_eq data nxdl_root path
     = Raise (MissingRequiredFieldError (reported_path data path))
     <-> nearest_optional_ancestor nexus nxdl_root path = None) /\
    (validate_path nexus array_eq data nxdl_root path = Ok tt
     <-> nearest_optional_ancestor nexus nxdl_root path <> None).
Proof.
  intros nexus array_eq data nxdl_root path c D A I C R.
  apply Ascii.eqb_neq in C.
  rewrite (validate_path_missing_required nexus array_eq data nxdl_root path c
             A I C R (missing_without_values data path D)).
  destruct (nearest_optional_ancestor nexus nxdl_root path) as [a|].
  - rewrite (no_children_set_without_values data a D).
    split; split; try discriminate; try congruence.
  - split; split; try discriminate; try congruence.
Qed.

Lemma required_path_in_data_without_values_witness :
  Forall (fun kv : string * option value => snd kv = None)
    [(size_path, None)] /\
  PyStr.startswith distance_path "/" = true /\
  entry_name_initial distance_path = Ok "d"%char /\
  "d"%char <> "@"%char /\
  requiredness test_nexus test_root distance_path = REQUIRED /\
  (validate_path test_nexus elementwise_eq [(size_path, None)] test_root
     distance_path = Ok tt
   <-> nearest_optional_ancestor test_nexus test_root distance_path <> None).
Proof.
  assert (H0 : Forall (fun kv : string * option value => snd kv = None)
                 [(size_path, None)]) by (repeat constructor).
  assert (H1 : PyStr.startswith distance_path "/" = true) by reflexivity.
  assert (H2 : entry_name_initial distance_path = Ok "d"%char)
    by (vm_compute; reflexivity).
  assert (H3 : "d"%char <> "@"%char) by discriminate.
  assert (H4 : requiredness test_nexus test_root distance_path = REQUIRED)
    by (vm_compute; reflexivity).
  repeat (split; [assumption|]).
  exact (proj2 (required_path_in_data_without_values test_nexus elementwise_eq
                  [(size_path, None)] test_root distance_path "d"%char
                  H0 H1 H2 H3 H4)).
Defined.

(** X11.  A path whose entry in the data has a value is never checked for
    being required: its loop body is the type, range and format check of the
    value followed by the enum check, and the errors name the key of the
    data, not the path of the template. *)
Theorem path_with_value_is_checked :
  forall (nexus : nexus_module) (array_eq : array_eq_semantics)
         (data : data_dict) (nxdl_root : Elem) (path : string) (c : ascii)
         (key : string) (v : value),
    entry_name_initial path = Ok c ->
    c <> "@"%char ->
    matching_entry data path = Some (key, Some v) ->
    validate_path nexus array_eq data nxdl_root path
    = let elem :=
        get_node_at_nxdl_path nexus
          (convert_data_converter_dict_to_nxdl_path path) nxdl_root in
      nxdl_type <- declared_nxdl_type elem ;;
      is_valid_data_field v nxdl_type key ;;;
      r <- is_value_valid_element_of_enum nexus array_eq v elem ;;
      if negb (fst r) then Raise (EnumMismatchError key (snd r)) else Ok tt.
Proof.
  intros nexus array_eq data nxdl_root path c key v I C M.
  apply Ascii.eqb_neq in C.
  rewrite (validate_path_of_node nexus array_eq data nxdl_root path c I C).
  pose proof (path_in_data_dict_matching data path) as P. rewrite M in P.
  destruct P as [P G]. cbn zeta. rewrite P. cbn [fst snd negb].
  unfold item_is_None, dict_item. rewrite G. cbn [bind is_not_None negb].
  destruct (String.eqb _ REQUIRED); cbn [bind];
    destruct (declared_nxdl_type _) as [t|]; cbn [bind]; try reflexivity;
    destruct (is_valid_data_field v t key) as [[]|]; cbn [bind];
    try reflexivity;
    destruct (is_value_valid_element_of_enum _ _ _ _) as [[b l]|];
    reflexivity.
Qed.

Lemma path_with_value_is_checked_witness :
  entry_name_initial distance_path = Ok "d"%char /\
  "d"%char <> "@"%char /\
  matching_entry [(distance_path, Some a_float)] distance_path
  = Some (distance_path, Some a_float) /\
  validate_path test_nexus elementwise_eq [(distance_path, Some a_float)]
    test_root distance_path
  = Raise (TypeMismatchError distance_path).
Proof.
  assert (H1 : entry_name_initial distance_path = Ok "d"%char)
    by (vm_compute; reflexivity).
  assert (H2 : "d"%char <> "@"%char) by discriminate.
  assert (H3 : matching_entry [(distance_path, Some a_float)] distance_path
               = Some (distance_path, Some a_float))
    by (vm_compute; reflexivity).
  repeat (split; [assumption|]).
  rewrite (path_with_value_is_checked test_nexus elementwise_eq
             [(distance_path, Some a_float)] test_root distance_path "d"%char
             distance_path a_float H1 H2 H3).
  vm_compute. reflexivity.
Defined.

(** ** Lookup of a schema path in the data *)

Section DataLookup.

Variable nxdl_path : string.

Lemma path_in_data_dict_cases (data : data_dict) :
  (path_in_data_dict nxdl_path data = (false, "") /\
   forall key v,
     In (key, v) data ->
     convert_data_converter_dict_to_nxdl_path key <> nxdl_path) \/
  (exists before key v rest,
      data = (before ++ (key, v) :: rest)%list /\
      convert_data_converter_dict_to_nxdl_path key = nxdl_path /\
      (forall key' v',
          In (key', v') before ->
          convert_data_converter_dict_to_nxdl_path key' <> nxdl_path) /\
      path_in_data_dict nxdl_path data = (true, key)).
Proof.
  induction data as [|[k v] data IH].
  - left. split; [reflexivity|]. intros key v [].
  - cbn [path_in_data_dict].
    destruct (String.eqb nxdl_path
                (convert_data_converter_dict_to_nxdl_path k)) eqn:E.
    + right. apply String.eqb_eq in E. exists [], k, v, data.
      split; [reflexivity|]. split; [now symmetry|].
      split; [intros key' v' []|reflexivity].
    + apply String.eqb_neq in E.
      destruct IH as [[R N]|(before & key & v0 & rest & -> & C & N & R)].
      * left. split; [exact R|]. intros key v' [[= <- <-]|I]; [congruence|].
        now apply (N key v').
      * right. exists ((k, v) :: before), key, v0, rest.
        split; [reflexivity|]. split; [exact C|]. split; [|exact R].
        intros key' v' [[= <- <-]|I]; [congruence|]. now apply (N key' v').
Qed.

Lemma path_in_data_dict_at (before : data_dict) (key : string)
  (v : option value) (rest : data_dict) :
  convert_data_converter_dict_to_nxdl_path key = nxdl_path ->
  (forall key' v',
      In (key', v') before ->
      convert_data_converter_dict_to_nxdl_path key' <> nxdl_path) ->
  path_in_data_dict nxdl_path (before ++ (key, v) :: rest)%list = (true, key).
Proof.
  intros C N. induction before as [|[k0 v0] before IH];
    cbn [app path_in_data_dict].
  - now rewrite <- C, String.eqb_refl.
  - destruct (String.eqb nxdl_path
                (convert_data_converter_dict_to_nxdl_path k0)) eqn:E.
    + apply String.eqb_eq in E. exfalso. apply (N k0 v0); [now left|now symmetry].
    + apply IH. intros k' v' I. apply (N k' v'). now right.
Qed.

End DataLookup.

(** X12.  [path_in_data_dict] returns the first key of the data, in
    insertion order, whose schema path is the given one, and [(False, "")]
    exactly when no key has that schema path; so every key of the data is
    found under its own schema path, and a key that comes after another key
    with the same schema path is never returned. *)
Theorem path_in_data_dict_first_match :
  forall (nxdl_path : string) (data : data_dict),
    (fst (path_in_data_dict nxdl_path data) = false
     <-> forall key v,
           In (key, v) data ->
           convert_data_converter_dict_to_nxdl_path key <> nxdl_path) /\
    (fst (path_in_data_dict nxdl_path data) = false ->
     snd (path_in_data_dict nxdl_path data) = "") /\
    (forall before key v rest,
        data = (before ++ (key, v) :: rest)%list ->
        convert_data_converter_dict_to_nxdl_path key = nxdl_path ->
        (forall key' v',
            In (key', v') before ->
            convert_data_converter_dict_to_nxdl_path key' <> nxdl_path) ->
        path_in_data_dict nxdl_path data = (true, key)) /\
    (forall key v,
        In (key, v) data ->
        convert_data_converter_dict_to_nxdl_path key = nxdl_path ->
        fst (path_in_data_dict nxdl_path data) = true).
Proof.
  intros nxdl_path data.
  assert (T : forall before key v rest,
             data = (before ++ (key, v) :: rest)%list ->
             convert_data_converter_dict_to_nxdl_path key = nxdl_path ->
             (forall key' v',
                 In (key', v') before ->
                 convert_data_converter_dict_to_nxdl_path key' <> nxdl_path) ->
             path_in_data_dict nxdl_path data = (true, key)).
  { intros before key v rest -> C N. now apply path_in_data_dict_at. }
  destruct (path_in_data_dict_cases nxdl_path data)
    as [[R N]|(before & key & v & rest & E & C & N & R)]; rewrite R in *;
    cbn [fst snd].
  - split; [tauto|]. split; [reflexivity|]. split; [exact T|].
    intros k v I Ck. exfalso. now apply (N k v).
  - split; [|split; [discriminate|split; [exact T|reflexivity]]].
    split; [discriminate|]. intro A. exfalso. apply (A key v); [|exact C].
    subst data. apply in_or_app. right. now left.
Qed.

Lemma path_in_data_dict_first_match_witness :
  In ("/ENTRY[other]/title", Some (VStr "b"))
    [("/ENTRY[entry]/title", Some (VStr "a"));
     ("/ENTRY[other]/title", Some (VStr "b"))] /\
  convert_data_converter_dict_to_nxdl_path "/ENTRY[other]/title"
  = "/ENTRY/title" /\
  fst (path_in_data_dict "/ENTRY/title"
         [("/ENTRY[entry]/title", Some (VStr "a"));
          ("/ENTRY[other]/title", Some (VStr "b"))]) = true /\
  path_in_data_dict "/ENTRY/title"
    [("/ENTRY[entry]/title", Some (VStr "a"));
     ("/ENTRY[other]/title", Some (VStr "b"))]
  = (true, "/ENTRY[entry]/title").
Proof.
  assert (H1 : In ("/ENTRY[other]/title", Some (VStr "b"))
                 [("/ENTRY[entry]/title", Some (VStr "a"));
                  ("/ENTRY[other]/title", Some (VStr "b"))])
    by (right; left; reflexivity).
  assert (H2 : convert_data_converter_dict_to_nxdl_path "/ENTRY[other]/title"
               = "/ENTRY/title") by (vm_compute; reflexivity).
  repeat (split; [assumption|]).
  split.
  - exact (proj2 (proj2 (proj2 (path_in_data_dict_first_match "/ENTRY/title" _)))
             "/ENTRY[other]/title" (Some (VStr "b")) H1 H2).
  - vm_compute. reflexivity.
Defined.

(** ** The checks of a value by type tag *)

Lemma timestamp_field_of_list (items : list value) (nxdl_type path : string) :
  nxdl_type = "ISO8601" \/ nxdl_type = "NX_DATE_TIME" ->
  is_valid_data_field (VList items) nxdl_type path
  = if forallb (fun x => isinstance x [py_str]) items
    then Raise TypeError else Raise (TypeMismatchError path).
Proof.
  intro T.
  assert (V : is_valid_data_type (VList items) [py_str]
              = Ok (forallb (fun x => isinstance x [py_str]) items)).
  { cbn [is_valid_data_type]. now rewrite check_all_isinstance_returns. }
  destruct T as [-> | ->]; unfold is_valid_data_field, dict_item;
    cbn [dict_get NEXUS_TO_PYTHON_DATA_TYPES String.eqb Ascii.eqb Bool.eqb bind];
    rewrite V; cbn [bind];
    destruct (forallb (fun x => isinstance x [py_str]) items); reflexivity.
Qed.

Lemma timestamp_field_of_np_str (s nxdl_type path : string) :
  nxdl_type = "ISO8601" \/ nxdl_type = "NX_DATE_TIME" ->
  is_valid_data_field (VNp (NpStr s)) nxdl_type path
  = is_valid_data_field (VStr s) nxdl_type path.
Proof. intros [-> | ->]; reflexivity. Qed.

Lemma timestamp_field_of_str (s nxdl_type path : string) :
  nxdl_type = "ISO8601" \/ nxdl_type = "NX_DATE_TIME" ->
  is_valid_data_field (VStr s) nxdl_type path = Ok tt \/
  is_valid_data_field (VStr s) nxdl_type path = Raise (FormatError path).
Proof.
  intro T.
  assert (E : is_valid_data_field (VStr s) nxdl_type path
              = match Re.search iso8601 s with
                | None => Raise (FormatError path)
                | Some _ => Ok tt
                end) by (destruct T as [-> | ->]; reflexivity).
  rewrite E. destruct (Re.search iso8601 s); auto.
Qed.

(** X13.  The outcome of the check under ISO8601 or NX_DATE_TIME for every
    value: a [str] (or [np.str_]) of ASCII characters passes when it is a
    well-formed timestamp, alone or followed by one newline, and fails with
    the format error otherwise; a list raises TypeError when all its items
    are strings (the empty list included) and fails with the type error
    otherwise; every other value fails with the type error.  (Beyond ASCII
    the [\d] of the pattern also accepts the decimal digits of other
    scripts, which are no characters of the model.) *)
Theorem timestamp_field_outcome :
  forall (v : value) (nxdl_type path : string),
    nxdl_type = "ISO8601" \/ nxdl_type = "NX_DATE_TIME" ->
    match v with
    | VStr s | VNp (NpStr s) =>
        ReSpec.all_in is_ascii s = true ->
        (is_valid_data_field v nxdl_type path = Ok tt <-> timestamp_text s) /\
        (is_valid_data_field v nxdl_type path = Raise (FormatError path)
         <-> ~ timestamp_text s) /\
        (is_valid_data_field v nxdl_type path = Ok tt \/
         is_valid_data_field v nxdl_type path = Raise (FormatError path))
    | VList items =>
        is_valid_data_field v nxdl_type path
        = if forallb (fun x => isinstance x [py_str]) items
          then Raise TypeError else Raise (TypeMismatchError path)
    | _ => is_valid_data_field v nxdl_type path = Raise (TypeMismatchError path)
    end.
Proof.
  intros v nxdl_type path T.
  assert (S : forall s,
             (is_valid_data_field (VStr s) nxdl_type path = Ok tt
              <-> timestamp_text s) /\
             (is_valid_data_field (VStr s) nxdl_type path
              = Raise (FormatError path) <-> ~ timestamp_text s) /\
             (is_valid_data_field (VStr s) nxdl_type path = Ok tt \/
              is_valid_data_field (VStr s) nxdl_type path
              = Raise (FormatError path))).
  { intro s. destruct (timestamp_check s nxdl_type path T) as [A B].
    split; [exact A|]. split; [exact B|].
    now apply timestamp_field_of_str. }
  destruct v as [s| | | | | |[b|w z|w n|w f|s0|b]|chararray flat|items|];
    try (destruct T as [-> | ->]; reflexivity);
    try (destruct w; destruct T as [-> | ->]; reflexivity);
    try (destruct chararray; destruct T as [-> | ->]; reflexivity).
  - intros _. apply S.
  - intros _. rewrite (timestamp_field_of_np_str s0 nxdl_type path T). apply S.
  - now apply timestamp_field_of_list.
Qed.

Lemma timestamp_field_outcome_witness :
  ("NX_DATE_TIME" = "ISO8601" \/ "NX_DATE_TIME" = "NX_DATE_TIME") /\
  ReSpec.all_in is_ascii "2022-01-22 12:14:12Z" = true /\
  (is_valid_data_field (VStr "2022-01-22 12:14:12Z") "NX_DATE_TIME" "/t"
   = Raise (FormatError "/t")
   <-> ~ timestamp_text "2022-01-22 12:14:12Z") /\
  is_valid_data_field (VList [VStr "2022-01-22T12:14:12Z"]) "NX_DATE_TIME" "/t"
  = Raise TypeError.
Proof.
  assert (H : "NX_DATE_TIME" = "ISO8601" \/ "NX_DATE_TIME" = "NX_DATE_TIME")
    by now right.
  assert (A : ReSpec.all_in is_ascii "2022-01-22 12:14:12Z" = true)
    by reflexivity.
  repeat (split; [assumption|]).
  split.
  - exact (proj1 (proj2 (timestamp_field_outcome (VStr "2022-01-22 12:14:12Z")
                           "NX_DATE_TIME" "/t" H A))).
  - exact (timestamp_field_outcome (VList [VStr "2022-01-22T12:14:12Z"])
             "NX_DATE_TIME" "/t" H).
Defined.

(** Under NX_POSINT a value of an accepted type is judged by
    [is_positive_int] alone. *)
Lemma posint_field_checked (v : value) (path : string) :
  is_valid_data_type v [py_int; np_ndarray; np_signedinteger] = Ok true ->
  is_valid_data_field v "NX_POSINT" path
  = (p <- is_positive_int v ;; if p then Ok tt else Raise (RangeError path)).
Proof.
  intro V. unfold is_valid_data_field, dict_item.
  cbn [dict_get NEXUS_TO_PYTHON_DATA_TYPES String.eqb Ascii.eqb Bool.eqb bind].
  rewrite V. cbn [bind negb orb].
  destruct (is_positive_int v) as [[]|e]; reflexivity.
Qed.

Lemma list_of_int_type (zs : list Z) (accepted : list pyclass) :
  In py_int accepted ->
  is_valid_data_type (VList (map VInt zs)) accepted = Ok true.
Proof.
  intro H. cbn [is_valid_data_type]. rewrite check_all_isinstance_returns.
  f_equal. apply forallb_forall. intros x I. apply in_map_iff in I.
  destruct I as (z & <- & _). unfold isinstance. apply existsb_exists.
  exists py_int. split; [exact H|reflexivity].
Qed.

(** X14.  The check under NX_POSINT by kind of value: a Python int passes
    when it is greater than zero and fails with the range error otherwise; a
    list of ints passes when every item is greater than zero (so the empty
    list passes) and fails with the range error otherwise; [True] passes and
    [False] fails with the range error, a bool being an int; a float fails
    with the type error; an array without elements raises IndexError and an
    array whose first element is a text raises TypeError. *)
Theorem positive_int_field_outcome :
  forall path : string,
    (forall z,
        is_valid_data_field (VInt z) "NX_POSINT" path
        = if Z.ltb 0 z then Ok tt else Raise (RangeError path)) /\
    (forall zs,
        is_valid_data_field (VList (map VInt zs)) "NX_POSINT" path
        = if forallb (Z.ltb 0) zs then Ok tt else Raise (RangeError path)) /\
    (forall b,
        is_valid_data_field (VBool b) "NX_POSINT" path
        = if b then Ok tt else Raise (RangeError path)) /\
    (forall f,
        is_valid_data_field (VFloat f) "NX_POSINT" path
        = Raise (TypeMismatchError path)) /\
    (forall chararray,
        is_valid_data_field (VArray chararray []) "NX_POSINT" path
        = Raise IndexError) /\
    (forall chararray s rest,
        is_valid_data_field (VArray chararray (NpStr s :: rest)) "NX_POSINT" path
        = Raise TypeError).
Proof.
  intro path.
  split; [intro z; rewrite posint_field_checked by reflexivity;
          cbn [is_positive_int is_greater_than bind];
          destruct (Z.ltb 0 z); reflexivity|].
  split; [intro zs;
          rewrite posint_field_checked by (apply list_of_int_type; now left);
          rewrite posint_list_every_element; cbn [bind];
          destruct (forallb (Z.ltb 0) zs); reflexivity|].
  split; [intros []; reflexivity|].
  split; [reflexivity|].
  split; [intros []; reflexivity|intros [] s rest; reflexivity].
Qed.



Lemma list_never_accepted (t : string) (accepted : list pyclass)
  (inner : list value) :
  dict_get NEXUS_TO_PYTHON_DATA_TYPES t = Some accepted ->
  isinstance (VList inner) accepted = false.
Proof.
  intro E. apply dict_get_types_cases in E. cbn [In NEXUS_TO_PYTHON_DATA_TYPES] in E.
  repeat (destruct E as [E|E]; [injection E as <- <-; reflexivity|]).
  contradiction.
Qed.

Lemma list_with_unaccepted_item (t : string) (accepted : list pyclass)
  (items : list value) (x : value) (path : string) :
  dict_get NEXUS_TO_PYTHON_DATA_TYPES t = Some accepted ->
  In x items ->
  isinstance x accepted = false ->
  is_valid_data_field (VList items) t path = Raise (TypeMismatchError path).
Proof.
  intros E I X. apply is_valid_data_field_type_mismatch with accepted;
    [exact E|].
  cbn [is_valid_data_type]. rewrite check_all_isinstance_returns. f_equal.
  destruct (forallb (fun obj => isinstance obj accepted) items) eqn:F;
    [|reflexivity].
  rewrite forallb_forall in F. specialize (F x I). congruence.
Qed.

(** X16.  Lists in the check of a value, under every tag of the table: a
    list is valid only through its items, so a list with an item that is not
    of an accepted type fails with the type error, and so does every list
    that holds a list; the empty list is valid under every tag but the two
    timestamp tags, NX_POSINT included. *)
Theorem lists_in_field_check :
  forall (t : string) (accepted : list pyclass) (path : string),
    dict_get NEXUS_TO_PYTHON_DATA_TYPES t = Some accepted ->
    (forall items x,
        In x items ->
        isinstance x accepted = false ->
        is_valid_data_field (VList items) t path
        = Raise (TypeMismatchError path)) /\
    (forall items inner,
        In (VList inner) items ->
        is_valid_data_field (VList items) t path
        = Raise (TypeMismatchError path)) /\
    (t <> "ISO8601" -> t <> "NX_DATE_TIME" ->
     is_valid_data_field (VList []) t path = Ok tt).
Proof.
  intros t accepted path E. split; [|split].
  - intros items x. now apply list_with_unaccepted_item.
  - intros items inner I.
    apply (list_with_unaccepted_item t accepted items (VList inner) path E I).
    now apply list_never_accepted with t.
  - intros I D. apply dict_get_types_cases in E.
    cbn [In NEXUS_TO_PYTHON_DATA_TYPES] in E.
    repeat (destruct E as [E|E];
            [injection E as <- <-; first [reflexivity|congruence]|]).
    contradiction.
Qed.

Lemma lists_in_field_check_witness :
  dict_get NEXUS_TO_PYTHON_DATA_TYPES "NX_FLOAT"
  = Some [py_float; np_ndarray; np_floating] /\
  In (VList [a_float]) [a_float; VList [a_float]] /\
  is_valid_data_field (VList [a_float; VList [a_float]]) "NX_FLOAT" "/x"
  = Raise (TypeMismatchError "/x").
Proof.
  assert (H1 : dict_get NEXUS_TO_PYTHON_DATA_TYPES "NX_FLOAT"
               = Some [py_float; np_ndarray; np_floating]) by reflexivity.
  assert (H2 : In (VList [a_float]) [a_float; VList [a_float]])
    by (right; left; reflexivity).
  repeat (split; [assumption|]).
  exact (proj1 (proj2 (lists_in_field_check "NX_FLOAT" _ "/x" H1))
           [a_float; VList [a_float]] [a_float] H2).
Defined.

(** ** Enumerations: values that can never be valid *)

Section EnumerationRejects.

Variable nexus : nexus_module.
Variable array_eq : array_eq_semantics.

Lemma py_in_other_value (v : value) (l : list string) :
  (forall s, py_eq_str array_eq v s = Ok false) ->
  py_in array_eq v l = Ok false.
Proof.
  intro H. induction l as [|x l IH]; [reflexivity|].
  cbn [py_in]. rewrite H. exact IH.
Qed.

Lemma enum_check_not_found (v : value) (e : Elem) (enums : list string) :
  get_enums nexus e = (true, enums) ->
  py_in array_eq v (removelast enums) = Ok false ->
  is_value_valid_element_of_enum nexus array_eq v (Some e) = Ok (false, enums).
Proof.
  intros G F. unfold is_value_valid_element_of_enum. rewrite G.
  destruct (is_list v); [reflexivity|]. now rewrite F.
Qed.

End EnumerationRejects.

(** X17.  Where an enumeration is declared, a value that is neither a
    string nor an array is never valid, whatever the entries are: a number, a
    bool or a byte string equals no entry.  And an enumeration with fewer than
    two entries makes every value invalid, since the last entry is never
    compared. *)
Theorem enum_check_never_valid :
  forall (nexus : nexus_module) (array_eq : array_eq_semantics)
         (e : Elem) (enums : list string),
    get_enums nexus e = (true, enums) ->
    (forall v,
        match v with
        | VStr _ | VNp (NpStr _) | VArray _ _ => True
        | _ =>
            is_value_valid_element_of_enum nexus array_eq v (Some e)
            = Ok (false, enums)
        end) /\
    (List.length enums <= 1 ->
     forall v,
       is_value_valid_element_of_enum nexus array_eq v (Some e)
       = Ok (false, enums)).
Proof.
  intros nexus array_eq e enums G. split.
  - intro v.
    destruct v as [s| | | | | |[b|w z|w n|w f|s0|b]|c flat|items|];
      try exact I;
      apply (enum_check_not_found nexus array_eq _ e enums G);
      apply py_in_other_value; reflexivity.
  - intros L v. apply (enum_check_not_found nexus array_eq v e enums G).
    destruct enums as [|x [|y enums]]; [reflexivity|reflexivity|].
    cbn [List.length] in L. lia.
Qed.

Lemma enum_check_never_valid_witness :
  get_enums (table_nexus []) mode_field = (true, ["a"; "b"; "c"]) /\
  is_value_valid_element_of_enum (table_nexus []) elementwise_eq (VInt 1)
    (Some mode_field) = Ok (false, ["a"; "b"; "c"]).
Proof.
  assert (H : get_enums (table_nexus []) mode_field = (true, ["a"; "b"; "c"]))
    by reflexivity.
  split; [exact H|].
  exact (proj1 (enum_check_never_valid (table_nexus []) elementwise_eq
                  mode_field ["a"; "b"; "c"] H) (VInt 1)).
Defined.

(** ** Names that belong to an element *)

Lemma endswith_refl (s : string) : PyStr.endswith s s = true.
Proof. destruct s; cbn [PyStr.endswith]; now rewrite String.eqb_refl. Qed.

Lemma endswith_append (prefix s : string) :
  PyStr.endswith (prefix ++ s) s = true.
Proof.
  induction prefix as [|c prefix IH]; [apply endswith_refl|].
  cbn [append PyStr.endswith]. rewrite IH. apply orb_true_r.
Qed.

Lemma endswith_drop (n : nat) :
  forall s, PyStr.endswith s (PyStr.drop n s) = true.
Proof.
  induction n as [|n IH]; intro s; [destruct s; apply endswith_refl|].
  destruct s as [|c s]; [reflexivity|].
  cbn [PyStr.drop PyStr.endswith]. rewrite IH. apply orb_true_r.
Qed.

Lemma endswith_empty (s : string) : PyStr.endswith s "" = true.
Proof.
  induction s as [|c s IH]; [reflexivity|].
  cbn [PyStr.endswith]. rewrite IH. apply orb_true_r.
Qed.

Lemma drop_all (s : string) : PyStr.drop (String.length s) s = "".
Proof. induction s as [|c s IH]; [reflexivity|exact IH]. Qed.

(** The two branches of [belongs_to], for an element with a name. *)
Lemma belongs_to_cases (e : Elem) (name hdfName : string) :
  dict_get (attrib e) "name" = Some name ->
  belongs_to e hdfName
  = if (match dict_get (attrib e) "nameType" with
        | Some v => String.eqb v "any"
        | None => false
        end
        && negb (String.eqb hdfName "doc")
        && negb (String.eqb hdfName "enumeration"))%bool
    then Ok (Nat.eqb (upper_run name) (String.length name)
             || PyStr.endswith hdfName (PyStr.drop (upper_run name) name))%bool
    else Ok (String.eqb name hdfName).
Proof.
  intro N. unfold belongs_to, dict_item. rewrite N. cbn [bind].
  destruct (dict_get (attrib e) "nameType") as [v|]; cbn [andb].
  - destruct (String.eqb v "any" && negb (String.eqb hdfName "doc")
              && negb (String.eqb hdfName "enumeration"))%bool.
    + destruct (Nat.eqb (upper_run name) (String.length name)
                || PyStr.endswith hdfName (PyStr.drop (upper_run name) name))%bool;
        reflexivity.
    + destruct (String.eqb name hdfName); reflexivity.
  - destruct (String.eqb name hdfName); reflexivity.
Qed.

(** X18.  [belongs_to] raises KeyError exactly for an element without a
    [name] attribute.  For an element with a name: the name itself always
    belongs to it; a name belongs to it only if it ends with what follows the
    leading capitals of the element's name; without [nameType="any"], and for
    the reserved names [doc] and [enumeration], only the exact name belongs
    to it; and with [nameType="any"] every name that is not reserved and is
    made of any text followed by that ending belongs to it, so that a name
    of capitals only stands for every name. *)
Theorem belongs_to_name_rule :
  forall (e : Elem) (hdfName : string),
    (dict_get (attrib e) "name" = None ->
     belongs_to e hdfName = Raise (KeyError "name")) /\
    (forall name,
        dict_get (attrib e) "name" = Some name ->
        (exists b, belongs_to e hdfName = Ok b) /\
        (name = hdfName -> belongs_to e hdfName = Ok true) /\
        (belongs_to e hdfName = Ok true ->
         PyStr.endswith hdfName (PyStr.drop (upper_run name) name) = true) /\
        (dict_get (attrib e) "nameType" <> Some "any" \/
         hdfName = "doc" \/ hdfName = "enumeration" ->
         belongs_to e hdfName = Ok (String.eqb name hdfName)) /\
        (dict_get (attrib e) "nameType" = Some "any" ->
         hdfName <> "doc" -> hdfName <> "enumeration" ->
         (forall front,
             hdfName = front ++ PyStr.drop (upper_run name) name ->
             belongs_to e hdfName = Ok true) /\
         (upper_run name = String.length name ->
          belongs_to e hdfName = Ok true))).
Proof.
  intros e hdfName. split.
  - intro N. unfold belongs_to, dict_item. rewrite N.
    destruct (_ && _ && _)%bool; reflexivity.
  - intros name N. rewrite (belongs_to_cases e name hdfName N).
    set (any := match dict_get (attrib e) "nameType" with
                | Some v => String.eqb v "any"
                | None => false
                end).
    split; [destruct (any && _ && _)%bool; eauto|].
    split; [|split; [|split]].
    + intros <-. destruct (any && _ && _)%bool;
        [|now rewrite String.eqb_refl].
      now rewrite endswith_drop, orb_true_r.
    + destruct (any && _ && _)%bool.
      * intros [= H]. apply orb_true_iff in H. destruct H as [H|H]; [|exact H].
        apply Nat.eqb_eq in H. rewrite H, drop_all. apply endswith_empty.
      * intros [= H]. apply String.eqb_eq in H. subst hdfName.
        apply endswith_drop.
    + intros H.
      assert (F : (any && negb (String.eqb hdfName "doc")
                   && negb (String.eqb hdfName "enumeration"))%bool = false).
      { destruct H as [H|[-> | ->]].
        - subst any. destruct (dict_get (attrib e) "nameType") as [v|];
            [|reflexivity].
          destruct (String.eqb v "any") eqn:E; [|reflexivity].
          apply String.eqb_eq in E. subst v. now contradiction H.
        - now rewrite andb_false_r.
        - now rewrite andb_false_r. }
      now rewrite F.
    + intros A D En.
      assert (T : (any && negb (String.eqb hdfName "doc")
                   && negb (String.eqb hdfName "enumeration"))%bool = true).
      { subst any. rewrite A. apply String.eqb_neq in D, En.
        now rewrite D, En. }
      rewrite T. split.
      * intros front ->. now rewrite endswith_append, orb_true_r.
      * intros ->. now rewrite Nat.eqb_refl.
Qed.

Lemma belongs_to_name_rule_witness :
  dict_get
    (attrib (Element "field" [("name", "DATA"); ("nameType", "any")] None
               test_application []))
    "name" = Some "DATA" /\
  dict_get
    (attrib (Element "field" [("name", "DATA"); ("nameType", "any")] None
               test_application []))
    "nameType" = Some "any" /\
  "counts" <> "doc" /\ "counts" <> "enumeration" /\
  upper_run "DATA" = String.length "DATA" /\
  belongs_to
    (Element "field" [("name", "DATA"); ("nameType", "any")] None
       test_application [])
    "counts" = Ok true.
Proof.
  assert (H1 : dict_get
                 (attrib (Element "field" [("name", "DATA"); ("nameType", "any")]
                            None test_application []))
                 "name" = Some "DATA") by reflexivity.
  assert (H2 : dict_get
                 (attrib (Element "field" [("name", "DATA"); ("nameType", "any")]
                            None test_application []))
                 "nameType" = Some "any") by reflexivity.
  assert (H3 : "counts" <> "doc") by discriminate.
  assert (H4 : "counts" <> "enumeration") by discriminate.
  assert (H5 : upper_run "DATA" = String.length "DATA") by reflexivity.
  repeat (split; [assumption|]).
  exact (proj2 (proj2 (proj2 (proj2 (proj2
           (proj2 (belongs_to_name_rule _ "counts") "DATA" H1))))
           H2 H3 H4) H5).
Defined.

(** ** The search among the children of an element *)

Section FirstFitting.

Variable name : string.

Lemma first_fitting_skips (before : list Lxml.Child) (rest : list Lxml.Child) :
  Forall (fun c => Lxml.child_fits c name = Ok false) before ->
  Lxml.first_fitting (before ++ rest)%list name = Lxml.first_fitting rest name.
Proof.
  induction 1 as [|c before Hc _ IH]; [reflexivity|].
  cbn [app Lxml.first_fitting]. rewrite Hc. exact IH.
Qed.

(** A child that fits is an element. *)
Lemma child_fits_element (child : Lxml.Child) (b : bool) :
  Lxml.child_fits child name = Ok b -> exists e, child = Lxml.ElementChild e.
Proof.
  destruct child as [e|t|tg t]; [eauto|discriminate|discriminate].
Qed.

Lemma first_fitting_cases (children : list Lxml.Child) :
  (Lxml.first_fitting children name = Ok None /\
   Forall (fun c => Lxml.child_fits c name = Ok false) children) \/
  (exists before child after,
      children = (before ++ child :: after)%list /\
      Forall (fun c => Lxml.child_fits c name = Ok false) before /\
      ((exists e,
           child = Lxml.ElementChild e /\
           Lxml.child_fits child name = Ok true /\
           Lxml.first_fitting children name = Ok (Some e)) \/
       (exists x, Lxml.child_fits child name = Raise x /\
                  Lxml.first_fitting children name = Raise x))).
Proof.
  induction children as [|c children IH].
  - left. split; [reflexivity|constructor].
  - cbn [Lxml.first_fitting].
    destruct (Lxml.child_fits c name) as [[]|x] eqn:F; cbn [bind].
    + right. exists [], c, children. split; [reflexivity|].
      split; [constructor|]. left.
      destruct (child_fits_element c true F) as [e ->]. exists e. auto.
    + destruct IH as [[R A]|(before & child & after & -> & B & H)].
      * left. split; [exact R|]. now constructor.
      * right. exists (c :: before), child, after. split; [reflexivity|].
        split; [now constructor|exact H].
    + right. exists [], c, children. split; [reflexivity|].
      split; [constructor|]. right. exists x. now split.
Qed.

End FirstFitting.

(** When one child element fits a name. *)
Lemma child_fits_true (child : Lxml.Element) (name : string) :
  Lxml.child_fits (Lxml.ElementChild child) name = Ok true <->
  (Lxml.localname child = "group" /\ Lxml.get_nx_class child = name) \/
  ((Lxml.localname child = "field" \/ Lxml.localname child = "attribute") /\
   Lxml.belongs_to child name = Ok true) \/
  (Lxml.localname child = "doc" /\ name = "doc") \/
  (Lxml.localname child = "enumeration" /\ name = "enumeration").
Proof.
  unfold Lxml.child_fits. cbn [Lxml.QName_localname bind].
  destruct (String.eqb (Lxml.localname child) "group") eqn:G.
  - apply String.eqb_eq in G. rewrite G.
    cbn [andb String.eqb Ascii.eqb Bool.eqb bind].
    destruct (String.eqb (Lxml.get_nx_class child) name) eqn:C.
    + apply String.eqb_eq in C. split; [intros _; left; now split|reflexivity].
    + apply String.eqb_neq in C. split; [discriminate|].
      intros [[_ H]|[[[H|H] _]|[[H _]|[H _]]]]; congruence.
  - apply String.eqb_neq in G. cbn [andb].
    destruct (String.eqb (Lxml.localname child) "field") eqn:F.
    + apply String.eqb_eq in F. rewrite F.
      destruct (Lxml.belongs_to child name) as [[]|x];
        cbn [bind String.eqb Ascii.eqb Bool.eqb andb];
        split; try reflexivity; try discriminate;
        try (intros _; right; left; auto; fail);
        intros [[H _]|[[_ H]|[[H _]|[H _]]]]; congruence.
    + apply String.eqb_neq in F. cbn [bind].
      destruct (String.eqb (Lxml.localname child) "attribute") eqn:A.
      * apply String.eqb_eq in A. rewrite A.
        destruct (Lxml.belongs_to child name) as [[]|x];
          cbn [bind String.eqb Ascii.eqb Bool.eqb andb];
          split; try reflexivity; try discriminate;
          try (intros _; right; left; auto; fail);
          intros [[H _]|[[_ H]|[[H _]|[H _]]]]; congruence.
      * apply String.eqb_neq in A. cbn [bind].
        destruct (String.eqb (Lxml.localname child) "doc") eqn:D.
        -- apply String.eqb_eq in D. rewrite D.
           cbn [andb String.eqb Ascii.eqb Bool.eqb].
           destruct (String.eqb name "doc") eqn:N.
           ++ apply String.eqb_eq in N.
              split; [intros _; do 2 right; left; now split|reflexivity].
           ++ apply String.eqb_neq in N. split; [discriminate|].
              intros [[H _]|[[[H|H] _]|[[_ H]|[H _]]]]; congruence.
        -- apply String.eqb_neq in D. cbn [andb].
           destruct (String.eqb (Lxml.localname child) "enumeration") eqn:En.
           ++ apply String.eqb_eq in En. cbn [andb].
              destruct (String.eqb name "enumeration") eqn:N.
              ** apply String.eqb_eq in N.
                 split; [intros _; do 3 right; now split|reflexivity].
              ** apply String.eqb_neq in N. split; [discriminate|].
                 intros [[H _]|[[[H|H] _]|[[H _]|[_ H]]]]; congruence.
           ++ apply String.eqb_neq in En. cbn [andb]. split; [discriminate|].
              intros [[H _]|[[[H|H] _]|[[H _]|[H _]]]]; congruence.
Qed.

(** A child makes the search raise as a comment or a processing
    instruction (ValueError), or as a field or an attribute without a name
    (KeyError). *)
Lemma child_fits_raises (child : Lxml.Child) (name : string) (x : exn) :
  Lxml.child_fits child name = Raise x ->
  (Lxml.no_element child = true /\ x = ValueError) \/
  (exists e,
      child = Lxml.ElementChild e /\
      (Lxml.localname e = "field" \/ Lxml.localname e = "attribute") /\
      dict_get (Lxml.attrib e) "name" = None /\ x = KeyError "name").
Proof.
  destruct child as [e|t|tg t];
    [|intros [= <-]; left; now split|intros [= <-]; left; now split].
  intro R. right. exists e. split; [reflexivity|]. revert R.
  assert (B : forall h, Lxml.belongs_to e h = Raise x ->
                        dict_get (Lxml.attrib e) "name" = None /\
                        x = KeyError "name").
  { intros h. unfold Lxml.belongs_to, dict_item.
    destruct (dict_get (Lxml.attrib e) "name") as [n|]; cbn [bind].
    - destruct (_ && _ && _)%bool;
        [destruct (_ || _)%bool|destruct (String.eqb n h)]; discriminate.
    - destruct (_ && _ && _)%bool; intros [= <-]; now split. }
  unfold Lxml.child_fits. cbn [Lxml.QName_localname bind].
  destruct (String.eqb (Lxml.localname e) "group"
            && String.eqb (Lxml.get_nx_class e) name)%bool; [discriminate|].
  destruct (String.eqb (Lxml.localname e) "field") eqn:F.
  - apply String.eqb_eq in F.
    destruct (Lxml.belongs_to e name) as [[]|x'] eqn:Bt; cbn [bind].
    + discriminate.
    + destruct (String.eqb (Lxml.localname e) "attribute"); cbn [bind];
        repeat match goal with
               | |- context [if ?b then _ else _] => destruct b
               end; discriminate.
    + intros [= <-]. split; [now left|]. now apply (B name).
  - cbn [bind].
    destruct (String.eqb (Lxml.localname e) "attribute") eqn:A.
    + apply String.eqb_eq in A.
      destruct (Lxml.belongs_to e name) as [[]|x'] eqn:Bt; cbn [bind].
      * discriminate.
      * repeat match goal with
               | |- context [if ?b then _ else _] => destruct b
               end; discriminate.
      * intros [= <-]. split; [now right|]. now apply (B name).
    + cbn [bind].
      repeat match goal with
             | |- context [if ?b then _ else _] => destruct b
             end; discriminate.
Qed.

(** X19.  [get_own_nxdl_child] returns the first child, in document order,
    that fits the name: a group of that class, a field or an attribute the
    name belongs to, or the [doc] or [enumeration] child for these two
    names; it returns [None] exactly when no child fits; and it raises
    exactly when a child that raises comes before every child that fits.
    The children that raise are the comments and processing instructions,
    which [getchildren()] returns as well and of which [etree.QName] raises
    ValueError, and the fields and attributes without a name (KeyError). *)
Theorem get_own_nxdl_child_first_fit :
  forall (nxdlElem : Lxml.Element) (name : string),
    (forall child,
        Lxml.get_own_nxdl_child nxdlElem name = Ok (Some child) <->
        exists before after,
          Lxml.getchildren nxdlElem
          = (before ++ Lxml.ElementChild child :: after)%list /\
          Forall (fun c => Lxml.child_fits c name = Ok false) before /\
          Lxml.child_fits (Lxml.ElementChild child) name = Ok true) /\
    (Lxml.get_own_nxdl_child nxdlElem name = Ok None <->
     Forall (fun c => Lxml.child_fits c name = Ok false)
       (Lxml.getchildren nxdlElem)) /\
    (forall x,
        Lxml.get_own_nxdl_child nxdlElem name = Raise x <->
        exists before child after,
          Lxml.getchildren nxdlElem = (before ++ child :: after)%list /\
          Forall (fun c => Lxml.child_fits c name = Ok false) before /\
          Lxml.child_fits child name = Raise x) /\
    (forall child,
        Lxml.child_fits (Lxml.ElementChild child) name = Ok true <->
        (Lxml.localname child = "group" /\ Lxml.get_nx_class child = name) \/
        ((Lxml.localname child = "field" \/
          Lxml.localname child = "attribute") /\
         Lxml.belongs_to child name = Ok true) \/
        (Lxml.localname child = "doc" /\ name = "doc") \/
        (Lxml.localname child = "enumeration" /\ name = "enumeration")) /\
    (forall child,
        Lxml.no_element child = true ->
        Lxml.child_fits child name = Raise ValueError) /\
    (forall child x,
        Lxml.child_fits child name = Raise x ->
        (Lxml.no_element child = true /\ x = ValueError) \/
        (exists e,
            child = Lxml.ElementChild e /\
            (Lxml.localname e = "field" \/ Lxml.localname e = "attribute") /\
            dict_get (Lxml.attrib e) "name" = None /\ x = KeyError "name")).
Proof.
  intros nxdlElem name. unfold Lxml.get_own_nxdl_child.
  assert (At : forall before child after,
             Forall (fun c => Lxml.child_fits c name = Ok false) before ->
             Lxml.first_fitting (before ++ child :: after)%list name
             = (b <- Lxml.child_fits child name ;;
                if b then
                  match child with
                  | Lxml.ElementChild e => Ok (Some e)
                  | _ => Raise ValueError
                  end
                else Lxml.first_fitting after name)).
  { intros before child after B. now rewrite first_fitting_skips. }
  split; [|split; [|split; [|split; [|split]]]].
  - intro child. split.
    + intro R.
      destruct (first_fitting_cases name (Lxml.getchildren nxdlElem))
        as [[R' _]|(before & c & after & E & B
                    & [(e & -> & F & R')|(x & F & R')])];
        rewrite R' in R; try discriminate.
      injection R as <-. now exists before, after.
    + intros (before & after & -> & B & F). now rewrite (At _ _ _ B), F.
  - split.
    + intro R.
      destruct (first_fitting_cases name (Lxml.getchildren nxdlElem))
        as [[_ A]|(before & c & after & E & B
                   & [(e & -> & F & R')|(x & F & R')])];
        [exact A| |]; rewrite R' in R; discriminate.
    + intro A. rewrite <- (app_nil_r (Lxml.getchildren nxdlElem)).
      now rewrite (first_fitting_skips name _ [] A).
  - intro x. split.
    + intro R.
      destruct (first_fitting_cases name (Lxml.getchildren nxdlElem))
        as [[R' _]|(before & c & after & E & B
                    & [(e & -> & F & R')|(x' & F & R')])];
        rewrite R' in R; try discriminate.
      injection R as <-. now exists before, c, after.
    + intros (before & child & after & -> & B & F). now rewrite (At _ _ _ B), F.
  - intro child. apply child_fits_true.
  - intros [e|t|tg t] N; [discriminate N|reflexivity|reflexivity].
  - intros child x. apply child_fits_raises.
Qed.

Lemma get_own_nxdl_child_first_fit_witness :
  Lxml.no_element (Lxml.CommentChild " the title of the entry ") = true /\
  Lxml.child_fits (Lxml.CommentChild " the title of the entry ") "title"
  = Raise ValueError /\
  Lxml.get_own_nxdl_child
    (Lxml.element "group" [("type", "NXentry")] None test_application
       [Lxml.CommentChild " the title of the entry ";
        Lxml.ElementChild
          (Lxml.element "field" [("name", "title")] None test_application [])])
    "title"
  = Raise ValueError.
Proof.
  assert (H : Lxml.no_element (Lxml.CommentChild " the title of the entry ")
              = true) by reflexivity.
  split; [exact H|].
  split.
  - exact (proj1 (proj2 (proj2 (proj2 (proj2
             (get_own_nxdl_child_first_fit
                (Lxml.element "group" [] None test_application []) "title")))))
             (Lxml.CommentChild " the title of the entry ") H).
  - reflexivity.
Defined.

(** On a document without comments and processing instructions the search
    is the search among the child elements. *)
Lemma lxml_of_parts (e : Elem) :
  Lxml.localname (lxml_of e) = localname e /\
  Lxml.attrib (lxml_of e) = attrib e /\
  Lxml.text (lxml_of e) = text e /\
  Lxml.getchildren (lxml_of e)
  = map (fun c => Lxml.ElementChild (lxml_of c)) (getchildren e).
Proof. destruct e; repeat split. Qed.

Lemma child_fits_without_comments (c : Elem) (name : string) :
  Lxml.child_fits (Lxml.ElementChild (lxml_of c)) name = child_fits c name.
Proof.
  destruct (lxml_of_parts c) as (L & A & _ & _).
  unfold Lxml.child_fits, child_fits, Lxml.get_nx_class, get_nx_class,
    Lxml.belongs_to, belongs_to.
  cbn [Lxml.QName_localname bind]. now rewrite L, A.
Qed.

Lemma get_own_nxdl_child_without_comments (e : Elem) (name : string) :
  Lxml.get_own_nxdl_child (lxml_of e) name
  = (r <- get_own_nxdl_child e name ;; Ok (option_map lxml_of r)).
Proof.
  unfold Lxml.get_own_nxdl_child, get_own_nxdl_child.
  rewrite (proj2 (proj2 (proj2 (lxml_of_parts e)))).
  induction (getchildren e) as [|c cs IH]; [reflexivity|].
  cbn [map Lxml.first_fitting first_fitting].
  rewrite child_fits_without_comments.
  destruct (child_fits c name) as [[]|x]; cbn [bind option_map];
    [reflexivity|exact IH|reflexivity].
Qed.

(** ** Where a child comes from *)

Lemma own_child_is_child (nxdlElem child : Lxml.Element) (name : string) :
  Lxml.get_own_nxdl_child nxdlElem name = Ok (Some child) ->
  In (Lxml.ElementChild child) (Lxml.getchildren nxdlElem).
Proof.
  unfold Lxml.get_own_nxdl_child. intro R.
  destruct (first_fitting_cases name (Lxml.getchildren nxdlElem))
    as [[R' _]|(before & c & after & E & B
                & [(e & -> & F & R')|(x & F & R')])];
    rewrite R' in R; try discriminate.
  injection R as <-. rewrite E. apply in_or_app. right. now left.
Qed.

Lemma own_child_raises (nxdlElem : Lxml.Element) (name : string) (x : exn) :
  Lxml.get_own_nxdl_child nxdlElem name = Raise x ->
  exists child,
    In child (Lxml.getchildren nxdlElem) /\
    Lxml.child_fits child name = Raise x /\
    (x = KeyError "name" \/ x = ValueError).
Proof.
  unfold Lxml.get_own_nxdl_child. intro R.
  destruct (first_fitting_cases name (Lxml.getchildren nxdlElem))
    as [[R' _]|(before & c & after & E & B
                & [(e & -> & F & R')|(x' & F & R')])];
    rewrite R' in R; try discriminate.
  injection R as <-. exists c. split; [|split; [exact F|]].
  - rewrite E. apply in_or_app. right. now left.
  - apply child_fits_raises in F.
    destruct F as [[_ ->]|(e & _ & _ & _ & ->)]; auto.
Qed.

Lemma get_None_length (s : string) (n : nat) :
  String.get n s = None -> String.length s <= n.
Proof.
  revert n. induction s as [|c s IH]; intro n; cbn [String.length]; [lia|].
  destruct n as [|n]; cbn [String.get]; [discriminate|].
  intro H. apply IH in H. lia.
Qed.

(** X20.  Where the result of [get_nxdl_child] comes from.  The call parses
    no file, or the one file of the base class named by the element's class.
    A child it returns is a child of the element itself that counts as true,
    found without parsing, or a child of the root of that base-class file.
    OSError means that this file is missing, IndexError that the class has
    fewer than three characters; any other error comes from a child of the
    element or of the root of the base-class file, and is the KeyError of a
    field or attribute without a name or the ValueError of a comment or
    processing instruction.  An element without a [type] attribute, whose
    class is then NX_CHAR, never has a file parsed. *)
Theorem get_nxdl_child_provenance :
  forall (fs : Lxml.doc_store) (nxdlElem : Lxml.Element) (name : string),
    (fst (Lxml.get_nxdl_child fs nxdlElem name) = [] \/
     fst (Lxml.get_nxdl_child fs nxdlElem name)
     = [base_class_file (Lxml.get_nx_class nxdlElem)]) /\
    (forall child,
        snd (Lxml.get_nxdl_child fs nxdlElem name) = Ok (Some child) ->
        (fst (Lxml.get_nxdl_child fs nxdlElem name) = [] /\
         In (Lxml.ElementChild child) (Lxml.getchildren nxdlElem) /\
         Lxml.elem_bool child = true) \/
        (fst (Lxml.get_nxdl_child fs nxdlElem name)
         = [base_class_file (Lxml.get_nx_class nxdlElem)] /\
         exists bc,
           dict_get fs (base_class_file (Lxml.get_nx_class nxdlElem))
           = Some bc /\
           In (Lxml.ElementChild child) (Lxml.getchildren bc))) /\
    (forall x,
        snd (Lxml.get_nxdl_child fs nxdlElem name) = Raise x ->
        (x = OSError (base_class_file (Lxml.get_nx_class nxdlElem)) /\
         dict_get fs (base_class_file (Lxml.get_nx_class nxdlElem)) = None) \/
        (x = IndexError /\
         String.length (Lxml.get_nx_class nxdlElem) <= 2 /\
         fst (Lxml.get_nxdl_child fs nxdlElem name) = []) \/
        (exists parent child,
            (parent = nxdlElem \/
             dict_get fs (base_class_file (Lxml.get_nx_class nxdlElem))
             = Some parent) /\
            In child (Lxml.getchildren parent) /\
            Lxml.child_fits child name = Raise x /\
            (x = KeyError "name" \/ x = ValueError))) /\
    (dict_get (Lxml.attrib nxdlElem) "type" = None ->
     fst (Lxml.get_nxdl_child fs nxdlElem name) = []).
Proof.
  intros fs nxdlElem name. unfold Lxml.get_nxdl_child.
  destruct (Lxml.get_own_nxdl_child nxdlElem name) as [own|x0] eqn:O.
  - destruct (Lxml.truth own) eqn:T.
    + cbn [fst snd]. split; [now left|].
      split; [|split; [discriminate|reflexivity]].
      intros child [= ->]. left. split; [reflexivity|].
      split; [now apply own_child_is_child with name|exact T].
    + unfold PyStr.index.
      destruct (String.get 2 (Lxml.get_nx_class nxdlElem)) as [c|] eqn:G.
      * destruct (Ascii.eqb c "_") eqn:U; cbn [fst snd].
        -- split; [now left|]. split; [discriminate|].
           split; [discriminate|reflexivity].
        -- split; [now right|]. unfold Lxml.parse_getroot.
           destruct (dict_get fs (base_class_file (Lxml.get_nx_class nxdlElem)))
             as [bc|] eqn:D; cbn [bind].
           ++ split; [|split].
              ** intros child R. right. split; [reflexivity|]. exists bc.
                 split; [reflexivity|]. now apply own_child_is_child with name.
              ** intros x R. right. right. apply own_child_raises in R.
                 destruct R as (child & I & F & K). exists bc, child. auto.
              ** intro N. exfalso. unfold Lxml.get_nx_class, dict_item in G, U.
                 rewrite N in G. cbn in G. injection G as <-. discriminate U.
           ++ split; [discriminate|]. split.
              ** intros x [= <-]. left. now split.
              ** intro N. exfalso. unfold Lxml.get_nx_class, dict_item in G, U.
                 rewrite N in G. cbn in G. injection G as <-. discriminate U.
      * cbn [fst snd]. split; [now left|]. split; [discriminate|].
        split; [|reflexivity].
        intros x [= <-]. right. left. split; [reflexivity|].
        split; [now apply get_None_length|reflexivity].
  - cbn [fst snd]. split; [now left|]. split; [discriminate|].
    split; [|reflexivity].
    intros x [= <-]. right. right. apply own_child_raises in O.
    destruct O as (child & I & F & K). exists nxdlElem, child. auto.
Qed.

Lemma get_nxdl_child_provenance_witness :
  snd (Lxml.get_nxdl_child
         [(base_class_file "NXentry",
           Lxml.element "definition" [("name", "NXentry")] None
             (base_class_file "NXentry")
             [Lxml.CommentChild " fields of the entry ";
              Lxml.ElementChild (lxml_of base_title)])]
         (lxml_of application_entry) "title")
  = Raise ValueError /\
  ((ValueError = OSError (base_class_file
                            (Lxml.get_nx_class (lxml_of application_entry))) /\
    dict_get
      [(base_class_file "NXentry",
        Lxml.element "definition" [("name", "NXentry")] None
          (base_class_file "NXentry")
          [Lxml.CommentChild " fields of the entry ";
           Lxml.ElementChild (lxml_of base_title)])]
      (base_class_file (Lxml.get_nx_class (lxml_of application_entry)))
    = None) \/
   (ValueError = IndexError /\
    String.length (Lxml.get_nx_class (lxml_of application_entry)) <= 2 /\
    fst (Lxml.get_nxdl_child
           [(base_class_file "NXentry",
             Lxml.element "definition" [("name", "NXentry")] None
               (base_class_file "NXentry")
               [Lxml.CommentChild " fields of the entry ";
                Lxml.ElementChild (lxml_of base_title)])]
           (lxml_of application_entry) "title") = []) \/
   (exists parent child,
       (parent = lxml_of application_entry \/
        dict_get
          [(base_class_file "NXentry",
            Lxml.element "definition" [("name", "NXentry")] None
              (base_class_file "NXentry")
              [Lxml.CommentChild " fields of the entry ";
               Lxml.ElementChild (lxml_of base_title)])]
          (base_class_file (Lxml.get_nx_class (lxml_of application_entry)))
        = Some parent) /\
       In child (Lxml.getchildren parent) /\
       Lxml.child_fits child "title" = Raise ValueError /\
       (ValueError = KeyError "name" \/ ValueError = ValueError))).
Proof.
  assert (H : snd (Lxml.get_nxdl_child
                     [(base_class_file "NXentry",
                       Lxml.element "definition" [("name", "NXentry")] None
                         (base_class_file "NXentry")
                         [Lxml.CommentChild " fields of the entry ";
                          Lxml.ElementChild (lxml_of base_title)])]
                     (lxml_of application_entry) "title")
              = Raise ValueError) by reflexivity.
  split; [exact H|].
  exact (proj1 (proj2 (proj2 (get_nxdl_child_provenance _ _ "title")))
           ValueError H).
Defined.

(** ** Template paths without a leading slash *)

Lemma prefix_refl (s : string) : String.prefix s s = true.
Proof.
  induction s as [|c s IH]; [reflexivity|].
  cbn [String.prefix]. destruct (ascii_dec c c); [exact IH|contradiction].
Qed.

Lemma prefix_trans (a b c : string) :
  String.prefix a b = true -> String.prefix b c = true ->
  String.prefix a c = true.
Proof.
  revert b c. induction a as [|x a IH]; intros b c;
    [destruct c; reflexivity|].
  destruct b as [|y b]; cbn [String.prefix]; [discriminate|].
  destruct (ascii_dec x y) as [<-|]; [|discriminate].
  destruct c as [|z c]; cbn [String.prefix]; [discriminate|].
  destruct (ascii_dec x z) as [<-|]; [|discriminate].
  apply IH.
Qed.

Lemma rpartition_prefix (sep : ascii) (s h l : string) :
  PyStr.rpartition sep s = Some (h, l) -> String.prefix h s = true.
Proof.
  revert h l. induction s as [|c s IH]; intros h l; cbn [PyStr.rpartition];
    [discriminate|].
  destruct (PyStr.rpartition sep s) as [[h' l']|].
  - intros [= <- <-]. cbn [String.prefix].
    destruct (ascii_dec c c); [now apply IH with l'|contradiction].
  - destruct (Ascii.eqb c sep); [|discriminate]. intros [= <- <-].
    reflexivity.
Qed.

(** The head of a path that does not start with a slash starts with the
    same character, and is a prefix of the path. *)
Lemma rsplit1_head_relative (c : ascii) (t : string) :
  c <> slash ->
  exists h,
    PyStr.rsplit1_head slash (String c t) = String c h /\
    String.prefix (String c h) (String c t) = true.
Proof.
  intro N. unfold PyStr.rsplit1_head.
  destruct (PyStr.rpartition slash (String c t)) as [[h l]|] eqn:E.
  - pose proof (rpartition_prefix _ _ _ _ E) as P.
    cbn [PyStr.rpartition] in E.
    destruct (PyStr.rpartition slash t) as [[h' l']|].
    + injection E as <- <-. eauto.
    + apply Ascii.eqb_neq in N. rewrite N in E. discriminate E.
  - exists t. split; [reflexivity|apply prefix_refl].
Qed.

Section RelativePath.

Variable nexus : nexus_module.
Variable nxdl_root : Elem.
Variable c : ascii.
Hypothesis relative : c <> slash.

Lemma relative_parent_is_optional (depth : nat) :
  forall t r,
    check_for_optional_parent_rec nexus depth (String c t) nxdl_root = Ok r ->
    is_optional_or_recommended (requiredness nexus nxdl_root r) = true /\
    String.prefix r (String c t) = true /\ r <> "".
Proof.
  induction depth as [|depth IH]; intros t r; [discriminate|].
  cbn [check_for_optional_parent_rec].
  destruct (rsplit1_head_relative c t relative) as (h & -> & P).
  cbn [String.eqb]. fold (requiredness nexus nxdl_root (String c h)).
  destruct (is_optional_or_recommended
              (requiredness nexus nxdl_root (String c h))) eqn:O.
  - intros [= <-]. split; [exact O|]. split; [exact P|discriminate].
  - intro R. apply IH in R. destruct R as (R1 & R2 & R3).
    split; [exact R1|]. split; [|exact R3].
    now apply prefix_trans with (String c h).
Qed.

Lemma relative_parent_recursion (depth : nat) :
  forall t,
    (forall p,
        String.prefix p (String c t) = true ->
        is_optional_or_recommended (requiredness nexus nxdl_root p) = false) ->
    check_for_optional_parent_rec nexus depth (String c t) nxdl_root
    = Raise RecursionError.
Proof.
  induction depth as [|depth IH]; intros t H; [reflexivity|].
  cbn [check_for_optional_parent_rec].
  destruct (rsplit1_head_relative c t relative) as (h & -> & P).
  cbn [String.eqb]. fold (requiredness nexus nxdl_root (String c h)).
  rewrite (H _ P). apply IH. intros p Pp. apply H.
  now apply prefix_trans with (String c h).
Qed.

End RelativePath.

Section MissingValue.

Variable nexus : nexus_module.
Variable array_eq : array_eq_semantics.
Variable data : data_dict.
Variable nxdl_root : Elem.

(** The loop body of a required path without a value, up to the search for
    an optional parent. *)
Lemma validate_path_without_value (path : string) (ci : ascii) :
  entry_name_initial path = Ok ci ->
  Ascii.eqb ci "@" = false ->
  requiredness nexus nxdl_root path = REQUIRED ->
  missing_or_None data path = true ->
  validate_path nexus array_eq data nxdl_root path
  = (optional_parent <- check_for_optional_parent nexus path nxdl_root ;;
     if (String.eqb optional_parent NOT_FOUND
         || check_are_children_set optional_parent data)%bool
     then Raise (MissingRequiredFieldError (reported_path data path))
     else Ok tt).
Proof.
  intros I C R M.
  rewrite (validate_path_of_node nexus array_eq data nxdl_root path ci I C).
  unfold requiredness, missing_or_None, reported_path in *.
  pose proof (path_in_data_dict_matching data path) as P.
  destruct (required_is_an_element _ R) as [e Ee].
  destruct (declared_nxdl_type_of_element e) as [t T].
  cbv zeta. rewrite R, String.eqb_refl, Ee, T.
  destruct (matching_entry data path) as [[key [v|]]|];
    [discriminate M|destruct P as [P G]|];
    rewrite P; cbn [fst snd negb bind];
    unfold item_is_None, dict_item; try rewrite G;
    cbn [bind is_not_None negb];
    destruct (check_for_optional_parent nexus path nxdl_root) as [a|x];
    cbn [bind]; try reflexivity;
    destruct (String.eqb a NOT_FOUND || check_are_children_set a data)%bool;
    reflexivity.
Qed.

End MissingValue.

(** X21.  A path that does not start with a slash has no verdict "no
    optional parent": its parent is never the empty path, so the search
    returns only a parent that is OPTIONAL or RECOMMENDED, and when no prefix
    of the path is one, it calls itself without end (RecursionError), at
    every nesting bound.  In the validation, a REQUIRED path of that kind
    without a value then raises RecursionError where a path with a leading
    slash would be reported missing. *)
Theorem relative_path_optional_parent :
  forall (nexus : nexus_module) (nxdl_root : Elem) (c : ascii) (t : string),
    c <> slash ->
    (forall depth r,
        check_for_optional_parent_rec nexus depth (String c t) nxdl_root = Ok r ->
        is_optional_or_recommended (requiredness nexus nxdl_root r) = true /\
        String.prefix r (String c t) = true /\ r <> "") /\
    ((forall p,
         String.prefix p (String c t) = true ->
         is_optional_or_recommended (requiredness nexus nxdl_root p) = false) ->
     (forall depth,
         check_for_optional_parent_rec nexus depth (String c t) nxdl_root
         = Raise RecursionError) /\
     check_for_optional_parent nexus (String c t) nxdl_root
     = Raise RecursionError /\
     (forall array_eq data ci,
         entry_name_initial (String c t) = Ok ci ->
         ci <> "@"%char ->
         requiredness nexus nxdl_root (String c t) = REQUIRED ->
         missing_or_None data (String c t) = true ->
         validate_path nexus array_eq data nxdl_root (String c t)
         = Raise RecursionError)).
Proof.
  intros nexus nxdl_root c t N. split.
  - intros depth r. now apply relative_parent_is_optional.
  - intro H.
    assert (R : forall depth,
               check_for_optional_parent_rec nexus depth (String c t) nxdl_root
               = Raise RecursionError)
      by (intro depth; now apply relative_parent_recursion).
    split; [exact R|]. split; [apply R|].
    intros array_eq data ci I C Rq M. apply Ascii.eqb_neq in C.
    rewrite (validate_path_without_value nexus array_eq data nxdl_root
               _ ci I C Rq M).
    unfold check_for_optional_parent. now rewrite R.
Qed.

Lemma relative_path_optional_parent_witness :
  "E"%char <> slash /\
  (forall p,
      String.prefix p "ENTRY/title" = true ->
      is_optional_or_recommended
        (requiredness
           (table_nexus [("/title", required_node "field" "title")])
           test_root p) = false) /\
  entry_name_initial "ENTRY/title" = Ok "t"%char /\
  "t"%char <> "@"%char /\
  requiredness (table_nexus [("/title", required_node "field" "title")])
    test_root "ENTRY/title" = REQUIRED /\
  missing_or_None [] "ENTRY/title" = true /\
  validate_path (table_nexus [("/title", required_node "field" "title")])
    elementwise_eq [] test_root "ENTRY/title" = Raise RecursionError.
Proof.
  assert (H1 : "E"%char <> slash) by discriminate.
  assert (H2 : forall p,
             String.prefix p "ENTRY/title" = true ->
             is_optional_or_recommended
               (requiredness
                  (table_nexus [("/title", required_node "field" "title")])
                  test_root p) = false).
  { intros p _. unfold requiredness, table_nexus, get_node_at_nxdl_path.
    cbn [dict_get].
    destruct (String.eqb "/title" (convert_data_converter_dict_to_nxdl_path p));
      reflexivity. }
  assert (H3 : entry_name_initial "ENTRY/title" = Ok "t"%char) by reflexivity.
  assert (H4 : "t"%char <> "@"%char) by discriminate.
  assert (H5 : requiredness
                 (table_nexus [("/title", required_node "field" "title")])
                 test_root "ENTRY/title" = REQUIRED) by reflexivity.
  assert (H6 : missing_or_None [] "ENTRY/title" = true) by reflexivity.
  repeat (split; [assumption|]).
  exact (proj2 (proj2 (proj2 (relative_path_optional_parent
                                (table_nexus [("/title", required_node "field" "title")])
                                test_root "E"%char "NTRY/title" H1) H2))
           elementwise_eq [] "t"%char H3 H4 H5 H6).
Defined.

(** ** The entries that count as children of an optional parent *)

Lemma prefix_append (a b : string) : String.prefix a (a ++ b) = true.
Proof.
  induction a as [|c a IH]; [destruct b; reflexivity|].
  cbn [append String.prefix]. destruct (ascii_dec c c); [exact IH|contradiction].
Qed.

Lemma children_set_iff (parent : string) (data : data_dict) :
  check_are_children_set parent data = true <->
  exists key v,
    In (key, Some v) data /\
    PyStr.contains (convert_data_converter_dict_to_nxdl_path key)
      (convert_data_converter_dict_to_nxdl_path parent) = true.
Proof.
  unfold check_are_children_set. rewrite existsb_exists. split.
  - intros ([key [v|]] & I & H); cbn [fst snd] in H;
      apply andb_true_iff in H; destruct H as [H S]; [|discriminate S].
    now exists key, v.
  - intros (key & v & I & H). exists (key, Some v). split; [exact I|].
    cbn [fst snd is_not_None]. now rewrite H.
Qed.

(** X22.  [check_are_children_set] is true exactly when some entry of the
    data has a value and a schema path that contains the schema path of the
    parent.  So every entry with a value whose schema path extends that of
    the parent counts, the entry of the parent itself included; the answer
    depends on the parent only through its schema path, so that entries
    under another instance of the same classes count as well; entries
    without a value never count; and adding entries to the data never turns
    the answer from true to false. *)
Theorem children_set_rule :
  forall (parent : string) (data : data_dict),
    (check_are_children_set parent data = true <->
     exists key v,
       In (key, Some v) data /\
       PyStr.contains (convert_data_converter_dict_to_nxdl_path key)
         (convert_data_converter_dict_to_nxdl_path parent) = true) /\
    (forall key v rest,
        In (key, Some v) data ->
        convert_data_converter_dict_to_nxdl_path key
        = convert_data_converter_dict_to_nxdl_path parent ++ rest ->
        check_are_children_set parent data = true) /\
    (forall parent',
        convert_data_converter_dict_to_nxdl_path parent'
        = convert_data_converter_dict_to_nxdl_path parent ->
        check_are_children_set parent' data
        = check_are_children_set parent data) /\
    (Forall (fun kv : string * option value => snd kv = None) data ->
     check_are_children_set parent data = false) /\
    (forall before after,
        check_are_children_set parent data = true ->
        check_are_children_set parent (before ++ data ++ after)%list = true).
Proof.
  intros parent data. split; [apply children_set_iff|].
  split; [|split; [|split]].
  - intros key v rest I E. apply children_set_iff. exists key, v.
    split; [exact I|]. rewrite E. apply contains_prefix, prefix_append.
  - intros parent' E. unfold check_are_children_set. now rewrite E.
  - apply no_children_set_without_values.
  - intros before after H. apply children_set_iff in H.
    destruct H as (key & v & I & H). apply children_set_iff.
    exists key, v. split; [|exact H].
    apply in_or_app. right. apply in_or_app. now left.
Qed.

Lemma children_set_rule_witness :
  convert_data_converter_dict_to_nxdl_path
    "/ENTRY[other]/INSTRUMENT[second]/BEAM[probe]"
  = convert_data_converter_dict_to_nxdl_path beam_path /\
  check_are_children_set "/ENTRY[other]/INSTRUMENT[second]/BEAM[probe]"
    [(distance_path, Some a_float)]
  = check_are_children_set beam_path [(distance_path, Some a_float)] /\
  check_are_children_set beam_path [(distance_path, Some a_float)] = true.
Proof.
  assert (H : convert_data_converter_dict_to_nxdl_path
                "/ENTRY[other]/INSTRUMENT[second]/BEAM[probe]"
              = convert_data_converter_dict_to_nxdl_path beam_path)
    by (vm_compute; reflexivity).
  split; [exact H|]. split.
  - exact (proj1 (proj2 (proj2 (children_set_rule beam_path
                                  [(distance_path, Some a_float)])))
             "/ENTRY[other]/INSTRUMENT[second]/BEAM[probe]" H).
  - vm_compute. reflexivity.
Defined.

(** ** Class names and template segments *)

Lemma upper_char_plain (c : ascii) :
  plain_char c = true -> plain_char (upper_char c) = true.
Proof.
  destruct c as [[] [] [] [] [] [] [] []]; intro H;
    first [exact H|reflexivity].
Qed.

Lemma upper_plain (s : string) :
  ReSpec.all_in plain_char s = true ->
  ReSpec.all_in plain_char (upper s) = true.
Proof.
  induction s as [|c s IH]; [reflexivity|].
  cbn [ReSpec.all_in upper]. intro A. apply andb_true_iff in A.
  destruct A as [Hc A]. now rewrite (upper_char_plain c Hc), IH.
Qed.

Lemma upper_length (s : string) : String.length (upper s) = String.length s.
Proof. induction s as [|c s IH]; cbn; [reflexivity|now rewrite IH]. Qed.

Lemma upper_char_idempotent (c : ascii) :
  upper_char (upper_char c) = upper_char c.
Proof. destruct c as [[] [] [] [] [] [] [] []]; reflexivity. Qed.

Lemma upper_idempotent (s : string) : upper (upper s) = upper s.
Proof.
  induction s as [|c s IH]; [reflexivity|].
  cbn [upper]. now rewrite upper_char_idempotent, IH.
Qed.

Lemma drop_length (n : nat) :
  forall s, String.length (PyStr.drop n s) = String.length s - n.
Proof.
  induction n as [|n IH]; intro s; [cbn; lia|].
  destruct s as [|c s]; [reflexivity|]. cbn [PyStr.drop String.length].
  now rewrite IH.
Qed.

Lemma plain_is_token_and_name (s : string) :
  ReSpec.all_in plain_char s = true ->
  ReSpec.all_in token_char s = true /\ ReSpec.all_in name_char s = true /\
  ReSpec.all_in not_slash s = true.
Proof.
  intro A. repeat split; revert A; apply all_in_weaken; intros c H;
    unfold plain_char, token_char, name_char, not_slash in *;
    repeat (apply andb_true_iff in H; destruct H as [H ?]);
    repeat (apply andb_true_iff; split); assumption.
Qed.

Lemma upper_char_ascii (c : ascii) :
  is_ascii c = true ->
  is_ascii (upper_char c) = true /\
  negb (Nat.leb 97 (nat_of_ascii (upper_char c))
        && Nat.leb (nat_of_ascii (upper_char c)) 122) = true.
Proof.
  destruct c as [[] [] [] [] [] [] [] []]; intro H;
    first [discriminate H|split; reflexivity].
Qed.

Lemma upper_ascii (s : string) :
  ReSpec.all_in is_ascii s = true -> ReSpec.all_in is_ascii (upper s) = true.
Proof.
  induction s as [|c s IH]; [reflexivity|].
  cbn [ReSpec.all_in upper]. intro A. apply andb_true_iff in A.
  destruct A as [Hc A]. now rewrite (proj1 (upper_char_ascii c Hc)), IH.
Qed.

Lemma upper_no_small_letter (s : string) :
  ReSpec.all_in is_ascii s = true ->
  ReSpec.all_in
    (fun c => negb (Nat.leb 97 (nat_of_ascii c) && Nat.leb (nat_of_ascii c) 122))
    (upper s) = true.
Proof.
  induction s as [|c s IH]; [reflexivity|].
  cbn [ReSpec.all_in upper]. intro A. apply andb_true_iff in A.
  destruct A as [Hc A]. now rewrite (proj2 (upper_char_ascii c Hc)), IH.
Qed.

(** X23.  The suggested name of a class name drops its first two
    characters, whatever they are.  For a class name of ASCII characters the
    capitals are the upper case of the suggested name, have its length and
    are ASCII again; and when what follows the first two characters has no
    newline, slash or bracket, the two fit the path model: the template
    segment CAPS[name] made of them gives back CAPS as its schema segment
    and the suggested name as its storage name, also as a path of one
    segment. *)
Theorem class_name_conversions :
  forall nexus_name : string,
    String.length (convert_nexus_to_suggested_name nexus_name)
    = String.length nexus_name - 2 /\
    (forall c1 c2 rest,
        nexus_name = String c1 (String c2 rest) ->
        convert_nexus_to_suggested_name nexus_name = rest) /\
    (ReSpec.all_in is_ascii nexus_name = true ->
     convert_nexus_to_caps nexus_name
     = upper (convert_nexus_to_suggested_name nexus_name) /\
     String.length (convert_nexus_to_caps nexus_name)
     = String.length nexus_name - 2 /\
     ReSpec.all_in is_ascii (convert_nexus_to_caps nexus_name) = true /\
     ReSpec.all_in
       (fun c => negb (Nat.leb 97 (nat_of_ascii c)
                       && Nat.leb (nat_of_ascii c) 122))
       (convert_nexus_to_caps nexus_name) = true /\
     (ReSpec.all_in plain_char (PyStr.drop 2 nexus_name) = true ->
      let segment :=
        bracketed (convert_nexus_to_caps nexus_name)
          (convert_nexus_to_suggested_name nexus_name) in
      convert_data_converter_entry_to_nxdl_path_entry segment
      = convert_nexus_to_caps nexus_name /\
      get_name_from_data_dict_entry segment
      = convert_nexus_to_suggested_name nexus_name /\
      convert_data_converter_dict_to_nxdl_path (join_segments [segment])
      = join_segments [convert_nexus_to_caps nexus_name] /\
      convert_data_dict_path_to_hdf5_path (join_segments [segment])
      = join_segments [convert_nexus_to_suggested_name nexus_name])).
Proof.
  intro nexus_name. unfold convert_nexus_to_caps, convert_nexus_to_suggested_name.
  split; [apply drop_length|].
  split; [now intros c1 c2 rest ->|].
  intro Asc.
  split; [reflexivity|].
  split; [now rewrite upper_length, drop_length|].
  assert (D : ReSpec.all_in is_ascii (PyStr.drop 2 nexus_name) = true).
  { destruct nexus_name as [|c1 [|c2 rest]]; try reflexivity.
    cbn [ReSpec.all_in] in Asc. cbn [PyStr.drop].
    apply andb_true_iff in Asc. destruct Asc as [_ Asc].
    apply andb_true_iff in Asc. now destruct Asc. }
  split; [now apply upper_ascii|].
  split; [now apply upper_no_small_letter|].
  intro P. cbv zeta.
  destruct (plain_is_token_and_name _ P) as (T & N & S).
  destruct (plain_is_token_and_name _ (upper_plain _ P)) as (Tu & Nu & Su).
  destruct (bracketed_segment_converted _ _ "" Tu N) as [E1 E2].
  fold (bracketed (upper (PyStr.drop 2 nexus_name)) (PyStr.drop 2 nexus_name))
    in E1, E2.
  split; [exact E1|]. split; [exact E2|].
  assert (F : Forall (fun s => ReSpec.all_in not_slash s = true)
                [bracketed (upper (PyStr.drop 2 nexus_name))
                   (PyStr.drop 2 nexus_name)]).
  { constructor; [|constructor]. unfold bracketed.
    rewrite all_in_append. cbn [ReSpec.all_in]. rewrite all_in_append.
    cbn [ReSpec.all_in]. now rewrite Su, S. }
  destruct (conversions_of_segments _ F) as [C1 C2].
  rewrite C1, C2. cbn [map]. now rewrite E1, E2.
Qed.

Lemma class_name_conversions_witness :
  ReSpec.all_in is_ascii "NXentry" = true /\
  ReSpec.all_in plain_char (PyStr.drop 2 "NXentry") = true /\
  convert_data_converter_entry_to_nxdl_path_entry
    (bracketed (convert_nexus_to_caps "NXentry")
       (convert_nexus_to_suggested_name "NXentry"))
  = convert_nexus_to_caps "NXentry" /\
  convert_nexus_to_caps "NXentry" = "ENTRY" /\
  convert_nexus_to_suggested_name "NXentry" = "entry".
Proof.
  assert (H1 : ReSpec.all_in is_ascii "NXentry" = true) by reflexivity.
  assert (H2 : ReSpec.all_in plain_char (PyStr.drop 2 "NXentry") = true)
    by reflexivity.
  repeat (split; [assumption|]).
  split; [|split; reflexivity].
  exact (proj1 (proj2 (proj2 (proj2 (proj2
           (proj2 (proj2 (class_name_conversions "NXentry")) H1))))
           H2)).
Defined.

(** ** Tags without their namespace *)

Lemma split_after_sep (sep : ascii) (a b : string) :
  exists h r,
    PyStr.split sep (a ++ String sep b) = h :: r /\ r <> [] /\
    last (h :: r) "" = last (PyStr.split sep b) "".
Proof.
  induction a as [|c a (h & r & E & N & L)]; cbn [append PyStr.split].
  - rewrite Ascii.eqb_refl. exists "", (PyStr.split sep b).
    split; [reflexivity|]. split; [apply split_not_nil|].
    pose proof (split_not_nil sep b) as Nb.
    destruct (PyStr.split sep b); [contradiction|reflexivity].
  - rewrite E. destruct (Ascii.eqb c sep).
    + exists "", (h :: r). split; [reflexivity|]. split; [discriminate|].
      exact L.
    + exists (String c h), r. split; [reflexivity|]. split; [exact N|].
      destruct r as [|x r]; [contradiction|exact L].
Qed.

Lemma split_without_sep (sep : ascii) (s : string) :
  ReSpec.all_in (fun c => negb (Ascii.eqb c sep)) s = true ->
  PyStr.split sep s = [s].
Proof.
  intro A. rewrite <- (append_empty_r s) at 1.
  rewrite (split_no_sep_prefix sep s "" A). cbn [PyStr.split].
  now rewrite append_empty_r.
Qed.

Lemma last_piece_no_sep (sep : ascii) (s : string) :
  ReSpec.all_in (fun c => negb (Ascii.eqb c sep)) (last (PyStr.split sep s) "")
  = true.
Proof.
  pose proof (split_pieces_no_sep sep s) as P.
  induction P as [|x l Hx _ IH]; [reflexivity|].
  destruct l as [|y l]; [exact Hx|exact IH].
Qed.

(** X24.  [remove_namespace_from_tag] returns what follows the last closing
    curly bracket of the tag: a tag without one is returned unchanged, a
    result has none, and for a local name without one every text in front,
    ending with that bracket, is removed; the function changes nothing when
    applied to its own result. *)
Theorem remove_namespace_from_tag_rule :
  forall tag : string,
    ReSpec.all_in (fun c => negb (Ascii.eqb c curly_close))
      (remove_namespace_from_tag tag) = true /\
    (ReSpec.all_in (fun c => negb (Ascii.eqb c curly_close)) tag = true ->
     remove_namespace_from_tag tag = tag) /\
    (forall namespace,
        ReSpec.all_in (fun c => negb (Ascii.eqb c curly_close)) tag = true ->
        remove_namespace_from_tag (namespace ++ String curly_close tag) = tag) /\
    remove_namespace_from_tag (remove_namespace_from_tag tag)
    = remove_namespace_from_tag tag.
Proof.
  intro tag.
  assert (U : forall s,
             ReSpec.all_in (fun c => negb (Ascii.eqb c curly_close)) s = true ->
             remove_namespace_from_tag s = s).
  { intros s A. unfold remove_namespace_from_tag.
    now rewrite (split_without_sep curly_close s A). }
  split; [apply last_piece_no_sep|]. split; [apply U|]. split.
  - intros namespace A. unfold remove_namespace_from_tag.
    destruct (split_after_sep curly_close namespace tag) as (h & r & E & _ & L).
    rewrite E, L. now apply U.
  - apply U. apply last_piece_no_sep.
Qed.

Lemma remove_namespace_from_tag_rule_witness :
  ReSpec.all_in (fun c => negb (Ascii.eqb c curly_close)) "group" = true /\
  remove_namespace_from_tag
    ("{http://definition.nexusformat.org/nxdl/3.1" ++ String curly_close "group")
  = "group".
Proof.
  assert (H : ReSpec.all_in (fun c => negb (Ascii.eqb c curly_close)) "group"
              = true) by reflexivity.
  split; [exact H|].
  exact (proj1 (proj2 (proj2 (remove_namespace_from_tag_rule "group")))
           "{http://definition.nexusformat.org/nxdl/3.1" H).
Defined.

(** X25.  [get_first_group] returns the first child of the root, in document
    order, whose tag without namespace is [group], whatever the namespace
    is; it returns the root itself when no child is one, so a root without
    children is returned as it is; and what it returns is the root or one of
    its children with that tag. *)
Theorem get_first_group_rule :
  forall root : ETElement,
    (forall before child after,
        et_children root = (before ++ child :: after)%list ->
        remove_namespace_from_tag (et_tag child) = "group" ->
        Forall (fun c => remove_namespace_from_tag (et_tag c) <> "group")
          before ->
        get_first_group root = child) /\
    (Forall (fun c => remove_namespace_from_tag (et_tag c) <> "group")
       (et_children root) ->
     get_first_group root = root) /\
    (get_first_group root = root \/
     (In (get_first_group root) (et_children root) /\
      remove_namespace_from_tag (et_tag (get_first_group root)) = "group")).
Proof.
  intro root. unfold get_first_group. split; [|split].
  - intros before child after -> G B.
    induction B as [|c before Hc _ IH]; cbn [app find].
    + now rewrite G, String.eqb_refl.
    + apply String.eqb_neq in Hc. now rewrite Hc.
  - intro A.
    induction A as [|c l Hc _ IH]; [reflexivity|].
    cbn [find]. apply String.eqb_neq in Hc. now rewrite Hc.
  - destruct (find _ (et_children root)) as [child|] eqn:F; [|now left].
    right. apply find_some in F. destruct F as [I G].
    apply String.eqb_eq in G. now split.
Qed.

Lemma get_first_group_rule_witness :
  et_children
    (ETNode "{http://definition.nexusformat.org/nxdl/3.1}definition" [] None
       [ETNode "{http://definition.nexusformat.org/nxdl/3.1}doc" [] None [];
        ETNode "{http://definition.nexusformat.org/nxdl/3.1}group"
          [("type", "NXentry")] None [];
        ETNode "group" [("type", "NXsample")] None []])
  = ([ETNode "{http://definition.nexusformat.org/nxdl/3.1}doc" [] None []]
     ++ ETNode "{http://definition.nexusformat.org/nxdl/3.1}group"
          [("type", "NXentry")] None []
     :: [ETNode "group" [("type", "NXsample")] None []])%list /\
  remove_namespace_from_tag
    (et_tag (ETNode "{http://definition.nexusformat.org/nxdl/3.1}group"
               [("type", "NXentry")] None [])) = "group" /\
  Forall (fun c => remove_namespace_from_tag (et_tag c) <> "group")
    [ETNode "{http://definition.nexusformat.org/nxdl/3.1}doc" [] None []] /\
  get_first_group
    (ETNode "{http://definition.nexusformat.org/nxdl/3.1}definition" [] None
       [ETNode "{http://definition.nexusformat.org/nxdl/3.1}doc" [] None [];
        ETNode "{http://definition.nexusformat.org/nxdl/3.1}group"
          [("type", "NXentry")] None [];
        ETNode "group" [("type", "NXsample")] None []])
  = ETNode "{http://definition.nexusformat.org/nxdl/3.1}group"
      [("type", "NXentry")] None [].
Proof.
  assert (H1 : et_children
                 (ETNode "{http://definition.nexusformat.org/nxdl/3.1}definition"
                    [] None
                    [ETNode "{http://definition.nexusformat.org/nxdl/3.1}doc"
                       [] None [];
                     ETNode "{http://definition.nexusformat.org/nxdl/3.1}group"
                       [("type", "NXentry")] None [];
                     ETNode "group" [("type", "NXsample")] None []])
               = ([ETNode "{http://definition.nexusformat.org/nxdl/3.1}doc"
                     [] None []]
                  ++ ETNode "{http://definition.nexusformat.org/nxdl/3.1}group"
                       [("type", "NXentry")] None []
                  :: [ETNode "group" [("type", "NXsample")] None []])%list)
    by reflexivity.
  assert (H2 : remove_namespace_from_tag
                 (et_tag (ETNode "{http://definition.nexusformat.org/nxdl/3.1}group"
                            [("type", "NXentry")] None [])) = "group")
    by reflexivity.
  assert (H3 : Forall (fun c => remove_namespace_from_tag (et_tag c) <> "group")
                 [ETNode "{http://definition.nexusformat.org/nxdl/3.1}doc"
                    [] None []])
    by (constructor; [discriminate|constructor]).
  repeat (split; [assumption|]).
  exact (proj1 (get_first_group_rule _) _ _ _ H1 H2 H3).
Defined.

(** ** What the validation of one path can raise *)

Section PathExceptions.

Variable nexus : nexus_module.
Variable array_eq : array_eq_semantics.

Lemma check_for_optional_parent_raises (nxdl_root : Elem) (depth : nat) :
  forall path e,
    check_for_optional_parent_rec nexus depth path nxdl_root = Raise e ->
    e = RecursionError.
Proof.
  induction depth as [|depth IH]; intros path e; cbn [check_for_optional_parent_rec].
  - now intros [= <-].
  - destruct (String.eqb _ ""); [discriminate|].
    destruct (is_optional_or_recommended _); [discriminate|]. apply IH.
Qed.

Lemma py_eq_str_raises (v : value) (s : string) (e : exn) :
  py_eq_str array_eq v s = Raise e ->
  exists c flat, array_eq c flat s = Raise e.
Proof.
  destruct v as [| | | | | |[]|c flat| |]; cbn [py_eq_str]; try discriminate.
  intro H. now exists c, flat.
Qed.

Lemma py_in_raises (v : value) (l : list string) (e : exn) :
  py_in array_eq v l = Raise e ->
  exists c flat s, array_eq c flat s = Raise e.
Proof.
  induction l as [|x l IH]; cbn [py_in]; [discriminate|].
  destruct (py_eq_str array_eq v x) as [[]|e'] eqn:E; cbn [bind].
  - discriminate.
  - exact IH.
  - intros [= <-]. apply py_eq_str_raises in E.
    destruct E as (c & flat & E). now exists c, flat, x.
Qed.

Lemma enum_check_raises (v : value) (elem : option Elem) (e : exn) :
  is_value_valid_element_of_enum nexus array_eq v elem = Raise e ->
  exists c flat s, array_eq c flat s = Raise e.
Proof.
  unfold is_value_valid_element_of_enum. destruct elem as [el|]; [|discriminate].
  destruct (get_enums nexus el) as [[] enums]; [|discriminate].
  destruct (is_list v); [discriminate|].
  destruct (py_in array_eq v (removelast enums)) as [[]|e'] eqn:P; cbn [bind negb].
  - destruct (py_eq_str array_eq v "") as [[]|e''] eqn:Q; cbn [bind];
      try discriminate.
    intros [= <-]. apply py_eq_str_raises in Q.
    destruct Q as (c & flat & Q). now exists c, flat, "".
  - discriminate.
  - intros [= <-]. now apply py_in_raises in P.
Qed.

End PathExceptions.

(** X26.  What the loop body of [validate_data_dict] can raise for one path
    of the template: ValueError, IndexError, AttributeError, RecursionError
    and TypeError; KeyError only for a declared type that is not in the table
    of types, never for a key of the data; the missing-required error for the
    path or for the key of the data that matches it; the type, range, format
    and enum errors only for a key of the data that matches the path; and
    what the comparison of an array with a string raises. *)
Theorem validate_path_exceptions :
  forall (nexus : nexus_module) (array_eq : array_eq_semantics)
         (data : data_dict) (nxdl_root : Elem) (path : string) (e : exn),
    validate_path nexus array_eq data nxdl_root path = Raise e ->
    e = ValueError \/ e = IndexError \/ e = AttributeError \/
    e = RecursionError \/ e = TypeError \/
    (exists elem t,
        get_node_at_nxdl_path nexus
          (convert_data_converter_dict_to_nxdl_path path) nxdl_root = Some elem /\
        dict_get (attrib elem) "type" = Some t /\
        dict_get NEXUS_TO_PYTHON_DATA_TYPES t = None /\
        e = KeyError t) \/
    e = MissingRequiredFieldError path \/
    (exists key v,
        In (key, v) data /\
        convert_data_converter_dict_to_nxdl_path key
        = convert_data_converter_dict_to_nxdl_path path /\
        (e = MissingRequiredFieldError key \/ e = TypeMismatchError key \/
         e = RangeError key \/ e = FormatError key \/
         exists enums, e = EnumMismatchError key enums)) \/
    (exists c flat s, array_eq c flat s = Raise e).
Proof.
  intros nexus array_eq data nxdl_root path e.
  destruct (entry_name_initial path) as [ci|x] eqn:I.
  2:{ unfold validate_path. unfold entry_name_initial in I.
      destruct (path_in_data_dict _ data) as [found renamed].
      destruct (PyStr.after_rindex slash path) as [last_entry|x'] eqn:A;
        cbn [bind] in *.
      - rewrite I. cbn [bind]. intros [= <-]. unfold PyStr.index in I.
        destruct (String.get 0 _); [discriminate I|]. injection I as <-. auto.
      - intros [= <-]. unfold PyStr.after_rindex in A.
        destruct (PyStr.rpartition slash path) as [[h l]|]; [discriminate A|].
        injection A as <-. auto. }
  destruct (Ascii.eqb ci "@") eqn:C.
  { unfold validate_path. unfold entry_name_initial in I.
    destruct (path_in_data_dict _ data) as [found renamed].
    destruct (PyStr.after_rindex slash path) as [last_entry|x'];
      [|discriminate I].
    cbn [bind] in *. rewrite I. cbn [bind]. rewrite C. discriminate. }
  rewrite (validate_path_of_node nexus array_eq data nxdl_root path ci I C).
  cbv zeta.
  pose proof (path_in_data_dict_matching data path) as P.
  assert (M : forall key v,
             matching_entry data path = Some (key, v) ->
             In (key, v) data /\
             convert_data_converter_dict_to_nxdl_path key
             = convert_data_converter_dict_to_nxdl_path path).
  { intros key v F. unfold matching_entry in F. apply find_some in F.
    destruct F as [F1 F2]. cbn [fst] in F2. apply String.eqb_eq in F2.
    now split. }
  set (elem := get_node_at_nxdl_path nexus
                 (convert_data_converter_dict_to_nxdl_path path) nxdl_root) in *.
  destruct (matching_entry data path) as [[key v]|] eqn:F.
  - destruct P as [P G]. specialize (M key v eq_refl). destruct M as [M1 M2].
    rewrite P. cbn [fst snd negb].
    unfold item_is_None, dict_item. rewrite G. cbn [bind].
    destruct (String.eqb (get_required_string elem) REQUIRED
              && negb (is_not_None v))%bool eqn:Miss.
    + apply andb_true_iff in Miss. destruct Miss as [R Nv]. rewrite R, Nv.
      cbn [bind].
      destruct (check_for_optional_parent nexus path nxdl_root) as [a|x] eqn:O;
        cbn [bind].
      * destruct (String.eqb a NOT_FOUND || check_are_children_set a data)%bool.
        -- intros [= <-]. destruct (String.eqb key ""); [auto 10|].
           do 7 right. left. exists key, v. auto.
        -- cbn [bind]. destruct v as [val|]; [discriminate Nv|].
           destruct (declared_nxdl_type elem) as [t|x] eqn:D; cbn [bind];
             [discriminate|].
           intros [= <-]. unfold declared_nxdl_type in D.
           destruct elem as [el|]; [|injection D as <-; auto].
           unfold dict_has, dict_item in D.
           destruct (dict_get (attrib el) "type"); discriminate D.
      * intros [= <-]. unfold check_for_optional_parent in O.
        apply check_for_optional_parent_raises in O. auto.
    + assert (E : (if String.eqb (get_required_string elem) REQUIRED
                   then Ok (negb (is_not_None v)) else Ok false)
                  = Ok false).
      { destruct (String.eqb (get_required_string elem) REQUIRED);
          [|reflexivity].
        cbn [andb] in Miss. now rewrite Miss. }
      rewrite E. cbn [bind].
      destruct (declared_nxdl_type elem) as [t|x] eqn:D; cbn [bind].
      * destruct v as [val|]; [|discriminate].
        destruct (is_valid_data_field val t key) as [[]|x] eqn:V; cbn [bind].
        -- destruct (is_value_valid_element_of_enum nexus array_eq val elem)
             as [[valid enums]|x] eqn:En; cbn [bind].
           ++ destruct valid; cbn [negb]; [discriminate|].
              intros [= <-]. do 7 right. left. exists key, (Some val).
              split; [exact M1|]. split; [exact M2|]. do 4 right. now exists enums.
           ++ intros [= <-]. do 8 right. now apply enum_check_raises in En.
        -- intros [= <-].
           destruct (dict_get NEXUS_TO_PYTHON_DATA_TYPES t) as [accepted|] eqn:T.
           ++ destruct (is_valid_data_field_raises t accepted val key x T V)
                as [[-> _]|[_ [-> |[-> |[-> | ->]]]]]; auto 10;
                do 7 right; left; exists key, (Some val); auto 10.
           ++ rewrite (is_valid_data_field_unknown_type t val key T) in V.
              injection V as <-. do 5 right. left.
              unfold declared_nxdl_type in D.
              destruct elem as [el|] eqn:El; [|discriminate D].
              exists el, t. split; [reflexivity|].
              unfold dict_has, dict_item in D.
              destruct (dict_get (attrib el) "type") as [t'|].
              ** injection D as ->. auto.
              ** injection D as <-. discriminate T.
      * intros [= <-]. unfold declared_nxdl_type in D.
        destruct elem as [el|]; [|injection D as <-; auto].
        unfold dict_has, dict_item in D.
        destruct (dict_get (attrib el) "type"); discriminate D.
  - rewrite P. cbn [fst snd negb String.eqb].
    destruct (String.eqb (get_required_string elem) REQUIRED); cbn [bind].
    + destruct (check_for_optional_parent nexus path nxdl_root) as [a|x] eqn:O;
        cbn [bind].
      * destruct (String.eqb a NOT_FOUND || check_are_children_set a data)%bool.
        -- intros [= <-]. auto 10.
        -- cbn [bind].
           destruct (declared_nxdl_type elem) as [t|x] eqn:D; cbn [bind];
             [discriminate|].
           intros [= <-]. unfold declared_nxdl_type in D.
           destruct elem as [el|]; [|injection D as <-; auto].
           unfold dict_has, dict_item in D.
           destruct (dict_get (attrib el) "type"); discriminate D.
      * intros [= <-]. unfold check_for_optional_parent in O.
        apply check_for_optional_parent_raises in O. auto.
    + destruct (declared_nxdl_type elem) as [t|x] eqn:D; cbn [bind];
        [discriminate|].
      intros [= <-]. unfold declared_nxdl_type in D.
      destruct elem as [el|]; [|injection D as <-; auto].
      unfold dict_has, dict_item in D.
      destruct (dict_get (attrib el) "type"); discriminate D.
Qed.

Lemma validate_path_exceptions_witness :
  validate_path test_nexus elementwise_eq [(distance_path, Some a_float)]
    test_root distance_path
  = Raise (TypeMismatchError distance_path) /\
  (TypeMismatchError distance_path = ValueError \/
   TypeMismatchError distance_path = IndexError \/
   TypeMismatchError distance_path = AttributeError \/
   TypeMismatchError distance_path = RecursionError \/
   TypeMismatchError distance_path = TypeError \/
   (exists elem t,
       get_node_at_nxdl_path test_nexus
         (convert_data_converter_dict_to_nxdl_path distance_path) test_root
       = Some elem /\
       dict_get (attrib elem) "type" = Some t /\
       dict_get NEXUS_TO_PYTHON_DATA_TYPES t = None /\
       TypeMismatchError distance_path = KeyError t) \/
   TypeMismatchError distance_path = MissingRequiredFieldError distance_path \/
   (exists key v,
       In (key, v) [(distance_path, Some a_float)] /\
       convert_data_converter_dict_to_nxdl_path key
       = convert_data_converter_dict_to_nxdl_path distance_path /\
       (TypeMismatchError distance_path = MissingRequiredFieldError key \/
        TypeMismatchError distance_path = TypeMismatchError key \/
        TypeMismatchError distance_path = RangeError key \/
        TypeMismatchError distance_path = FormatError key \/
        exists enums, TypeMismatchError distance_path = EnumMismatchError key enums)) \/
   (exists c flat s,
       elementwise_eq c flat s = Raise (TypeMismatchError distance_path))).
Proof.
  assert (H : validate_path test_nexus elementwise_eq
                [(distance_path, Some a_float)] test_root distance_path
              = Raise (TypeMismatchError distance_path))
    by (vm_compute; reflexivity).
  split; [exact H|].
  exact (validate_path_exceptions test_nexus elementwise_eq
           [(distance_path, Some a_float)] test_root distance_path
           (TypeMismatchError distance_path) H).
Defined.

(** ** Lookup by keystring in nested data *)

Lemma current_key_of_joined (k rest : string) :
  ReSpec.all_in not_slash k = true ->
  current_key_of (k ++ String slash rest) = k /\ current_key_of k = k.
Proof.
  intro A. unfold current_key_of. split.
  - rewrite (split_no_sep_prefix slash k _ A). cbn [PyStr.split].
    rewrite Ascii.eqb_refl. cbn [hd]. apply append_empty_r.
  - now rewrite (split_without_sep slash k A).
Qed.

Lemma below_current_key_joined (k rest : string) :
  ReSpec.all_in not_slash k = true ->
  below_current_key (k ++ String slash rest) = rest /\
  below_current_key k = k.
Proof.
  intro A. unfold below_current_key.
  assert (F : after_first slash (k ++ String slash rest) = Some rest /\
              after_first slash k = None).
  { induction k as [|c k IH]; cbn [append after_first].
    - now rewrite Ascii.eqb_refl.
    - cbn [ReSpec.all_in] in A. apply andb_true_iff in A.
      destruct A as [Hc A]. unfold not_slash in Hc.
      apply negb_true_iff in Hc. rewrite Hc. now apply IH. }
  destruct F as [F1 F2]. now rewrite F1, F2.
Qed.

Lemma concat_slash_cons (k k2 : string) (ks : list string) :
  String.concat "/" (k :: k2 :: ks)
  = k ++ String slash (String.concat "/" (k2 :: ks)).
Proof. reflexivity. Qed.

Lemma current_key_of_concat (k : string) (ks : list string) :
  ReSpec.all_in not_slash k = true ->
  current_key_of (String.concat "/" (k :: ks)) = k /\
  below_current_key (String.concat "/" (k :: ks))
  = match ks with [] => k | _ => String.concat "/" ks end.
Proof.
  intro A. destruct ks as [|k2 ks].
  - change (String.concat "/" [k]) with k.
    split; [apply (proj2 (current_key_of_joined k "" A))
           |apply (proj2 (below_current_key_joined k "" A))].
  - rewrite concat_slash_cons.
    split; [apply (proj1 (current_key_of_joined k _ A))
           |apply (proj1 (below_current_key_joined k _ A))].
Qed.

Section NestedLookup.

Variable obj : Type.

(** The function as the source has it. *)
Lemma get_val_equation (keystring : string) (data : list (string * pydata obj)) :
  get_val_nested_keystring_from_dict keystring data
  = match dict_get data (current_key_of keystring) with
    | None => inr (DataKeyError (current_key_of keystring))
    | Some (PyDict child) =>
        get_val_nested_keystring_from_dict (below_current_key keystring) child
    | Some (DataArray values) => inl values
    | Some Dataset => inr DatasetNotSupported
    | Some (PyObject x) => inl x
    end.
Proof.
  unfold get_val_nested_keystring_from_dict. cbn [value_of_item].
  induction data as [|[k child] data IH]; [reflexivity|].
  cbn [dict_get]. destruct (String.eqb k (current_key_of keystring));
    [destruct child; reflexivity|exact IH].
Qed.

(** The keystring made of keys, the first of which is in the dict. *)
Lemma get_val_step (k : string) (ks : list string)
  (data child : list (string * pydata obj)) :
  ReSpec.all_in not_slash k = true ->
  dict_get data k = Some (PyDict child) ->
  get_val_nested_keystring_from_dict (String.concat "/" (k :: ks)) data
  = get_val_nested_keystring_from_dict
      (match ks with [] => k | _ => String.concat "/" ks end) child.
Proof.
  intros A G. rewrite get_val_equation.
  destruct (current_key_of_concat k ks A) as [C B]. now rewrite C, G, B.
Qed.

Lemma get_val_leaf (k : string) (ks : list string)
  (data : list (string * pydata obj)) (leaf : pydata obj) :
  ReSpec.all_in not_slash k = true ->
  dict_get data k = Some leaf ->
  match leaf with
  | PyDict _ => True
  | DataArray values =>
      get_val_nested_keystring_from_dict (String.concat "/" (k :: ks)) data
      = inl values
  | Dataset =>
      get_val_nested_keystring_from_dict (String.concat "/" (k :: ks)) data
      = inr DatasetNotSupported
  | PyObject x =>
      get_val_nested_keystring_from_dict (String.concat "/" (k :: ks)) data
      = inl x
  end.
Proof.
  intros A G.
  destruct (current_key_of_concat k ks A) as [C _].
  destruct leaf; [exact I| | |]; rewrite get_val_equation, C, G; reflexivity.
Qed.

Lemma get_val_at_leaf (keys : list string) :
  forall (data : list (string * pydata obj)) (leaf : pydata obj) (more : list string),
    keys <> [] ->
    Forall (fun k => ReSpec.all_in not_slash k = true) keys ->
    item_at keys (PyDict data) = Some leaf ->
    match leaf with
    | PyDict _ => True
    | DataArray values =>
        get_val_nested_keystring_from_dict
          (String.concat "/" (keys ++ more)) data = inl values
    | Dataset =>
        get_val_nested_keystring_from_dict
          (String.concat "/" (keys ++ more)) data = inr DatasetNotSupported
    | PyObject x =>
        get_val_nested_keystring_from_dict
          (String.concat "/" (keys ++ more)) data = inl x
    end.
Proof.
  induction keys as [|k ks IH]; intros data leaf more N F H; [contradiction|].
  inversion F as [|? ? Hk Hks]. subst. cbn [item_at] in H.
  destruct (dict_get data k) as [child|] eqn:G; [|discriminate H].
  destruct ks as [|k2 ks].
  - cbn [item_at] in H. injection H as ->. cbn [app].
    now apply get_val_leaf.
  - destruct child as [child| | |]; try (cbn [item_at] in H; discriminate H).
    specialize (IH child leaf more ltac:(discriminate) Hks H).
    cbn [app] in *. rewrite (get_val_step k _ data child Hk G). exact IH.
Qed.

Lemma get_val_at_dict (keys : list string) :
  forall (data child : list (string * pydata obj)),
    keys <> [] ->
    Forall (fun k => ReSpec.all_in not_slash k = true) keys ->
    item_at keys (PyDict data) = Some (PyDict child) ->
    get_val_nested_keystring_from_dict (String.concat "/" keys) data
    = get_val_nested_keystring_from_dict (last keys "") child.
Proof.
  induction keys as [|k ks IH]; intros data child N F H; [contradiction|].
  inversion F as [|? ? Hk Hks]. subst. cbn [item_at] in H.
  destruct (dict_get data k) as [c|] eqn:G; [|discriminate H].
  destruct ks as [|k2 ks].
  - cbn [item_at] in H. injection H as ->.
    now rewrite (get_val_step k [] data child Hk G).
  - destruct c as [c| | |]; try (cbn [item_at] in H; discriminate H).
    rewrite (get_val_step k _ data c Hk G).
    now apply IH.
Qed.

Lemma get_val_missing (before : list string) :
  forall (data child : list (string * pydata obj)) (k : string)
         (rest : list string),
    Forall (fun k => ReSpec.all_in not_slash k = true) before ->
    ReSpec.all_in not_slash k = true ->
    item_at before (PyDict data) = Some (PyDict child) ->
    dict_get child k = None ->
    get_val_nested_keystring_from_dict
      (String.concat "/" (before ++ k :: rest)) data
    = inr (DataKeyError k).
Proof.
  induction before as [|b before IH]; intros data child k rest F A H G.
  - cbn [item_at] in H. injection H as ->. cbn [app].
    rewrite get_val_equation.
    destruct (current_key_of_concat k rest A) as [C _].
    now rewrite C, G.
  - inversion F as [|? ? Hb Hbs]. subst. cbn [item_at] in H.
    destruct (dict_get data b) as [c|] eqn:Gb; [|discriminate H].
    assert (Dc : exists c', c = PyDict c').
    { destruct before; cbn [item_at] in H;
        [injection H as ->; eauto|destruct c; try discriminate H; eauto]. }
    destruct Dc as [c' ->]. cbn [app].
    rewrite (get_val_step b _ data c' Hb Gb).
    destruct (before ++ k :: rest)%list eqn:E;
      [destruct before; discriminate E|].
    rewrite <- E. now apply IH with child.
Qed.

End NestedLookup.

(** X27.  [get_val_nested_keystring_from_dict] follows the keys of the
    keystring through the nested dicts.  When the keys lead to an item that
    is not a dict, that item is the result (the values of a DataArray, the
    object itself, or the exception for a Dataset), and whatever follows
    these keys in the keystring is ignored.  When the keys lead to a dict,
    the last key is looked up once more in that dict.  A key that is missing
    in its dict raises KeyError for that key.  [is_path] is true exactly
    for a string that starts with a slash, raises IndexError for the empty
    string and is false for anything that is not a string. *)
Theorem nested_keystring_lookup :
  forall (obj : Type) (keys : list string) (data : list (string * pydata obj)),
    Forall (fun k => ReSpec.all_in not_slash k = true) keys ->
    (keys <> [] ->
     forall leaf more,
       item_at keys (PyDict data) = Some leaf ->
       match leaf with
       | PyDict child =>
           get_val_nested_keystring_from_dict (String.concat "/" keys) data
           = get_val_nested_keystring_from_dict (last keys "") child
       | DataArray values =>
           get_val_nested_keystring_from_dict
             (String.concat "/" (keys ++ more)) data = inl values
       | Dataset =>
           get_val_nested_keystring_from_dict
             (String.concat "/" (keys ++ more)) data = inr DatasetNotSupported
       | PyObject x =>
           get_val_nested_keystring_from_dict
             (String.concat "/" (keys ++ more)) data = inl x
       end) /\
    (forall child k rest,
        ReSpec.all_in not_slash k = true ->
        item_at keys (PyDict data) = Some (PyDict child) ->
        dict_get child k = None ->
        get_val_nested_keystring_from_dict
          (String.concat "/" (keys ++ k :: rest)) data
        = inr (DataKeyError k)) /\
    (forall s : string,
        @is_path obj (MapStr s)
        = match s with
          | "" => inr StringIndexError
          | String c _ => inl (Ascii.eqb c slash)
          end) /\
    (forall x : obj, is_path (MapObject x) = inl false).
Proof.
  intros obj keys data F. split; [|split; [|split]].
  - intros N leaf more H.
    pose proof (get_val_at_leaf obj keys data leaf more N F H) as L.
    destruct leaf; [|exact L|exact L|exact L].
    now apply get_val_at_dict.
  - intros child k rest A H G. now apply get_val_missing with child.
  - intros [|c s]; reflexivity.
  - reflexivity.
Qed.

Lemma nested_keystring_lookup_witness :
  Forall (fun k => ReSpec.all_in not_slash k = true) ["entry"; "title"] /\
  ["entry"; "title"] <> [] /\
  item_at ["entry"; "title"]
    (PyDict [("entry", PyDict [("title", PyObject (VStr "run 1"))])])
  = Some (PyObject (VStr "run 1")) /\
  get_val_nested_keystring_from_dict
    (String.concat "/" (["entry"; "title"] ++ ["not"; "there"]))
    [("entry", PyDict [("title", PyObject (VStr "run 1"))])]
  = inl (VStr "run 1").
Proof.
  assert (H1 : Forall (fun k => ReSpec.all_in not_slash k = true)
                 ["entry"; "title"]) by (repeat constructor).
  assert (H2 : ["entry"; "title"] <> []) by discriminate.
  assert (H3 : item_at ["entry"; "title"]
                 (PyDict [("entry", PyDict [("title", PyObject (VStr "run 1"))])])
               = Some (PyObject (VStr "run 1"))) by reflexivity.
  repeat (split; [assumption|]).
  exact (proj1 (nested_keystring_lookup value ["entry"; "title"] _ H1) H2
           (PyObject (VStr "run 1")) ["not"; "there"] H3).
Defined.

(** ** Entries of the data that no path of the template matches *)

Section UnmatchedEntry.

Variable nexus : nexus_module.
Variable array_eq : array_eq_semantics.
Variable nxdl_root : Elem.
Variable before after : data_dict.
Variable key : string.
Variable v v' : option value.
Hypothesis same_slot : is_not_None v = is_not_None v'.

Lemma path_in_data_dict_keys (nxdl_path : string) :
  path_in_data_dict nxdl_path (before ++ (key, v) :: after)%list
  = path_in_data_dict nxdl_path (before ++ (key, v') :: after)%list.
Proof.
  induction before as [|[k0 v0] l IH]; cbn [app path_in_data_dict];
    [reflexivity|].
  destruct (String.eqb nxdl_path (convert_data_converter_dict_to_nxdl_path k0));
    [reflexivity|exact IH].
Qed.

Lemma children_set_slots (parent : string) :
  check_are_children_set parent (before ++ (key, v) :: after)%list
  = check_are_children_set parent (before ++ (key, v') :: after)%list.
Proof.
  unfold check_are_children_set. rewrite !existsb_app. cbn [existsb fst snd].
  now rewrite same_slot.
Qed.

Lemma dict_get_other_key (k : string) :
  k <> key ->
  dict_get (before ++ (key, v) :: after)%list k
  = dict_get (before ++ (key, v') :: after)%list k.
Proof.
  intro N. induction before as [|[k0 v0] l IH]; cbn [app dict_get].
  - apply not_eq_sym in N. apply String.eqb_neq in N. now rewrite N.
  - destruct (String.eqb k0 k); [reflexivity|exact IH].
Qed.

Lemma path_in_data_dict_found (nxdl_path : string) (data : data_dict)
  (renamed : string) :
  path_in_data_dict nxdl_path data = (true, renamed) ->
  convert_data_converter_dict_to_nxdl_path renamed = nxdl_path.
Proof.
  induction data as [|[k0 v0] data IH]; cbn [path_in_data_dict];
    [discriminate|].
  destruct (String.eqb nxdl_path (convert_data_converter_dict_to_nxdl_path k0))
    eqn:E; [|exact IH].
  intros [= <-]. apply String.eqb_eq in E. now symmetry.
Qed.

Lemma validate_path_unmatched (path : string) :
  convert_data_converter_dict_to_nxdl_path path
  <> convert_data_converter_dict_to_nxdl_path key ->
  validate_path nexus array_eq (before ++ (key, v) :: after)%list nxdl_root path
  = validate_path nexus array_eq (before ++ (key, v') :: after)%list nxdl_root
      path.
Proof.
  intro N. unfold validate_path.
  rewrite (path_in_data_dict_keys (convert_data_converter_dict_to_nxdl_path path)).
  destruct (path_in_data_dict (convert_data_converter_dict_to_nxdl_path path)
              (before ++ (key, v') :: after)%list) as [found renamed] eqn:P.
  assert (D : found = true ->
              dict_get (before ++ (key, v) :: after)%list renamed
              = dict_get (before ++ (key, v') :: after)%list renamed).
  { intros ->. apply dict_get_other_key. intros ->. apply N.
    symmetry. now apply path_in_data_dict_found with (before ++ (key, v') :: after)%list. }
  destruct (PyStr.after_rindex slash path) as [last_entry|x]; [|reflexivity].
  cbn [bind].
  destruct (PyStr.index (get_name_from_data_dict_entry last_entry) 0)
    as [first_char|x]; [|reflexivity].
  cbn [bind]. destruct (Ascii.eqb first_char "@"); [reflexivity|].
  unfold item_is_None, dict_item.
  destruct found; cbn [negb].
  - rewrite (D eq_refl).
    destruct (String.eqb (get_required_string _) REQUIRED);
      [|reflexivity].
    destruct (dict_get (before ++ (key, v') :: after)%list renamed) as [w|];
      cbn [bind]; [|reflexivity].
    destruct (negb (is_not_None w)); [|reflexivity].
    destruct (check_for_optional_parent nexus path nxdl_root) as [a|x];
      cbn [bind]; [|reflexivity].
    now rewrite children_set_slots.
  - destruct (String.eqb (get_required_string _) REQUIRED);
      cbn [bind]; [|reflexivity].
    destruct (check_for_optional_parent nexus path nxdl_root) as [a|x];
      cbn [bind]; [|reflexivity].
    now rewrite children_set_slots.
Qed.

Lemma validate_paths_unmatched (template : list string) :
  (forall path,
      In path template ->
      convert_data_converter_dict_to_nxdl_path path
      <> convert_data_converter_dict_to_nxdl_path key) ->
  validate_paths nexus array_eq template (before ++ (key, v) :: after)%list
    nxdl_root
  = validate_paths nexus array_eq template (before ++ (key, v') :: after)%list
      nxdl_root.
Proof.
  induction template as [|path template IH]; intro N; [reflexivity|].
  cbn [validate_paths]. rewrite validate_path_unmatched by (apply N; now left).
  rewrite IH; [reflexivity|]. intros p I. apply N. now right.
Qed.

End UnmatchedEntry.

(** X28.  A value of the data under a key that no path of the template
    matches is not validated: the outcome of [validate_data_dict] is the
    same for every value under that key, of whatever type, and depends on
    the entry only through its being [None] or not. *)
Theorem unmatched_entry_not_validated :
  forall (nexus : nexus_module) (array_eq : array_eq_semantics)
         (template : list string) (before after : data_dict) (key : string)
         (v v' : option value) (nxdl_root : option Elem),
    (forall path,
        In path template ->
        convert_data_converter_dict_to_nxdl_path path
        <> convert_data_converter_dict_to_nxdl_path key) ->
    is_not_None v = is_not_None v' ->
    validate_data_dict nexus array_eq template
      (before ++ (key, v) :: after)%list nxdl_root
    = validate_data_dict nexus array_eq template
        (before ++ (key, v') :: after)%list nxdl_root.
Proof.
  intros nexus array_eq template before after key v v' [root|] N S;
    [|reflexivity].
  cbn [validate_data_dict]. now apply validate_paths_unmatched.
Qed.

Lemma unmatched_entry_not_validated_witness :
  (forall path,
      In path [distance_path] ->
      convert_data_converter_dict_to_nxdl_path path
      <> convert_data_converter_dict_to_nxdl_path size_path) /\
  is_not_None (Some a_float) = is_not_None (Some (VList [VDict])) /\
  validate_data_dict test_nexus elementwise_eq [distance_path]
    ([(distance_path, Some (VStr "1 m"))] ++ (size_path, Some a_float) :: [])%list
    (Some test_root)
  = validate_data_dict test_nexus elementwise_eq [distance_path]
      ([(distance_path, Some (VStr "1 m"))]
       ++ (size_path, Some (VList [VDict])) :: [])%list
      (Some test_root).
Proof.
  assert (H1 : forall path,
             In path [distance_path] ->
             convert_data_converter_dict_to_nxdl_path path
             <> convert_data_converter_dict_to_nxdl_path size_path).
  { intros path [<-|[]]. vm_compute. discriminate. }
  assert (H2 : is_not_None (Some a_float) = is_not_None (Some (VList [VDict])))
    by reflexivity.
  repeat (split; [assumption|]).
  exact (unmatched_entry_not_validated test_nexus elementwise_eq
           [distance_path] [(distance_path, Some (VStr "1 m"))] []
           size_path (Some a_float) (Some (VList [VDict])) (Some test_root)
           H1 H2).
Defined.

(** ** Storage names *)

Lemma match_here_entry_name (seen rest m : string) :
  Re.match_here regex_entry_name seen rest = Some m ->
  Re.match_here (until sq_close) seen rest = Some m.
Proof.
  unfold Re.match_here, regex_entry_name, until. cbn [Re.run].
  destruct seen as [|c seen]; [discriminate|].
  destruct (Ascii.eqb sq_open c); [trivial|discriminate].
Qed.

Lemma search_from_entry_name_result (rest : string) :
  forall seen m,
    Re.search_from regex_entry_name seen rest = Some m ->
    exists before tail,
      rest = before ++ m ++ String sq_close tail /\
      ReSpec.all_in name_char m = true.
Proof.
  induction rest as [|c t IH]; intros seen m; cbn [Re.search_from].
  - destruct (Re.match_here regex_entry_name seen "") eqn:M; [|discriminate].
    intros [= ->]. apply match_here_entry_name, match_here_until_result in M.
    destruct M as (tail & E & A). exists "", tail. auto.
  - destruct (Re.match_here regex_entry_name seen (String c t)) eqn:M.
    + intros [= ->]. apply match_here_entry_name, match_here_until_result in M.
      destruct M as (tail & E & A). exists "", tail. auto.
    + intro H. apply IH in H. destruct H as (before & tail & -> & A).
      exists (String c before), tail. auto.
Qed.

(** A segment without a closing bracket is its own name. *)
Lemma name_without_close (entry : string) :
  ReSpec.all_in not_close entry = true ->
  get_name_from_data_dict_entry entry = entry.
Proof.
  intro A. unfold get_name_from_data_dict_entry.
  destruct (Re.search regex_entry_name entry) eqn:S; [|reflexivity].
  exfalso. unfold Re.search in S. apply search_from_entry_name_result in S.
  destruct S as (before & tail & -> & _).
  rewrite !all_in_append in A. cbn [ReSpec.all_in] in A.
  unfold not_close in A at 3. rewrite Ascii.eqb_refl in A. cbn [negb andb] in A.
  now rewrite !andb_false_r in A.
Qed.

(** The name of a segment is the segment itself or a part of it without a
    closing bracket. *)
Lemma entry_name_cases (entry : string) :
  get_name_from_data_dict_entry entry = entry \/
  exists before tail,
    entry = before ++ get_name_from_data_dict_entry entry
            ++ String sq_close tail /\
    ReSpec.all_in name_char (get_name_from_data_dict_entry entry) = true.
Proof.
  unfold get_name_from_data_dict_entry, Re.search.
  destruct (Re.search_from regex_entry_name "" entry) as [m|] eqn:S;
    [|now left].
  right. now apply search_from_entry_name_result in S.
Qed.

Lemma entry_name_idempotent (entry : string) :
  get_name_from_data_dict_entry (get_name_from_data_dict_entry entry)
  = get_name_from_data_dict_entry entry.
Proof.
  destruct (entry_name_cases entry) as [E|(before & tail & _ & A)];
    [now rewrite !E|].
  apply name_without_close. revert A. apply all_in_weaken.
  intros c H. unfold name_char in H. apply andb_true_iff in H.
  now destruct H.
Qed.

Lemma entry_name_no_slash (entry : string) :
  ReSpec.all_in not_slash entry = true ->
  ReSpec.all_in not_slash (get_name_from_data_dict_entry entry) = true.
Proof.
  intro A. destruct (entry_name_cases entry) as [->|(b & t & E & _)];
    [exact A|].
  rewrite E in A. rewrite !all_in_append in A.
  apply andb_true_iff in A. destruct A as [_ A].
  apply andb_true_iff in A. now destruct A.
Qed.

(** X29.  The storage name of a segment and the storage path of a path are
    fixed points of their conversions.  A segment without a closing bracket
    is its own name.  The name of a segment is the segment itself, or a part
    of the segment that stands before a closing bracket and has no closing
    bracket and no newline.  So converting a name, or a storage path, once
    more changes nothing. *)
Theorem hdf5_path_idempotent :
  (forall entry,
      ReSpec.all_in not_close entry = true ->
      get_name_from_data_dict_entry entry = entry) /\
  (forall entry,
      get_name_from_data_dict_entry entry = entry \/
      exists before tail,
        entry = before ++ get_name_from_data_dict_entry entry
                ++ String sq_close tail /\
        ReSpec.all_in name_char (get_name_from_data_dict_entry entry) = true) /\
  (forall entry,
      get_name_from_data_dict_entry (get_name_from_data_dict_entry entry)
      = get_name_from_data_dict_entry entry) /\
  (forall path,
      convert_data_dict_path_to_hdf5_path
        (convert_data_dict_path_to_hdf5_path path)
      = convert_data_dict_path_to_hdf5_path path).
Proof.
  split; [exact name_without_close|]. split; [exact entry_name_cases|].
  split; [exact entry_name_idempotent|].
  intro path.
  destruct (conversions_of_pieces path) as [_ E].
  rewrite E at 1.
  assert (H : Forall (fun s => ReSpec.all_in not_slash s = true)
                (map get_name_from_data_dict_entry
                   (tl (PyStr.split slash path)))).
  { pose proof (split_pieces_no_sep slash path) as P.
    destruct (PyStr.split slash path) as [|h r]; [constructor|].
    inversion P as [|? ? _ Pr]. subst. cbn [tl]. clear - Pr.
    induction Pr as [|x r Hx _ IH]; [constructor|].
    cbn [map]. constructor; [|exact IH].
    now apply entry_name_no_slash. }
  rewrite (proj2 (conversions_of_segments _ H)), E.
  f_equal. rewrite map_map. apply map_ext. intro entry.
  apply entry_name_idempotent.
Qed.

Lemma hdf5_path_idempotent_witness :
  ReSpec.all_in not_close "data[0" = true /\
  get_name_from_data_dict_entry "data[0" = "data[0".
Proof.
  assert (H : ReSpec.all_in not_close "data[0" = true) by reflexivity.
  split; [exact H|].
  exact (proj1 hdf5_path_idempotent "data[0" H).
Defined.

(** ** Templates as sets of paths *)

Section TemplateSets.

Variable nexus : nexus_module.
Variable array_eq : array_eq_semantics.
Variable data : data_dict.
Variable nxdl_root : Elem.

Lemma validate_paths_passes (template : list string) :
  validate_paths nexus array_eq template data nxdl_root = Ok true <->
  Forall (fun p => validate_path nexus array_eq data nxdl_root p = Ok tt)
    template.
Proof.
  destruct (validate_paths_outcome nexus array_eq data nxdl_root template)
    as [[F R]|(before & path & rest & e & E & F & P & R)]; rewrite R.
  - tauto.
  - split; [discriminate|]. intro A. subst template.
    apply Forall_app in A. destruct A as [_ A]. inversion A as [|? ? Hp _].
    subst. congruence.
Qed.

Lemma validate_paths_raises (template : list string) (e : exn) :
  validate_paths nexus array_eq template data nxdl_root = Raise e ->
  exists path,
    In path template /\
    validate_path nexus array_eq data nxdl_root path = Raise e.
Proof.
  destruct (validate_paths_outcome nexus array_eq data nxdl_root template)
    as [[F R]|(before & path & rest & e' & E & F & P & R)]; rewrite R;
    [discriminate|].
  intros [= <-]. exists path. split; [|exact P].
  subst template. apply in_or_app. right. now left.
Qed.

End TemplateSets.

(** X30.  Whether [validate_data_dict] succeeds depends on the template only
    as a set of paths: a template all of whose paths occur in a template
    that passes, passes too, in whatever order and however often they are
    listed; a template made of two parts passes exactly when each part
    does; and an error raised for a template is the error raised for the
    template of one of its paths alone.  The order decides only which error
    is reported. *)
Theorem validation_success_by_paths :
  forall (nexus : nexus_module) (array_eq : array_eq_semantics)
         (data : data_dict) (nxdl_root : Elem) (template : list string),
    (forall template',
        (forall path, In path template' -> In path template) ->
        validate_data_dict nexus array_eq template data (Some nxdl_root)
        = Ok true ->
        validate_data_dict nexus array_eq template' data (Some nxdl_root)
        = Ok true) /\
    (forall first second,
        template = (first ++ second)%list ->
        (validate_data_dict nexus array_eq template data (Some nxdl_root)
         = Ok true
         <-> validate_data_dict nexus array_eq first data (Some nxdl_root)
             = Ok true /\
             validate_data_dict nexus array_eq second data (Some nxdl_root)
             = Ok true)) /\
    (forall e,
        validate_data_dict nexus array_eq template data (Some nxdl_root)
        = Raise e ->
        exists path,
          In path template /\
          validate_data_dict nexus array_eq [path] data (Some nxdl_root)
          = Raise e).
Proof.
  intros nexus array_eq data nxdl_root template. cbn [validate_data_dict].
  split; [|split].
  - intros template' S. rewrite !validate_paths_passes, !Forall_forall.
    intros H p I. apply H, S, I.
  - intros first second ->. rewrite !validate_paths_passes.
    apply Forall_app.
  - intros e R. apply validate_paths_raises in R.
    destruct R as (path & I & P). exists path. split; [exact I|].
    cbn [validate_paths]. now rewrite P.
Qed.

Lemma validation_success_by_paths_witness :
  (forall path,
      In path [size_path; distance_path; size_path] ->
      In path [distance_path; size_path]) /\
  validate_data_dict test_nexus elementwise_eq [distance_path; size_path]
    [(distance_path, Some (VStr "1 m"))] (Some test_root) = Ok true /\
  validate_data_dict test_nexus elementwise_eq
    [size_path; distance_path; size_path]
    [(distance_path, Some (VStr "1 m"))] (Some test_root) = Ok true.
Proof.
  assert (H1 : forall path,
             In path [size_path; distance_path; size_path] ->
             In path [distance_path; size_path]).
  { intros path [<-|[<-|[<-|[]]]]; cbn [In]; auto. }
  assert (H2 : validate_data_dict test_nexus elementwise_eq
                 [distance_path; size_path]
                 [(distance_path, Some (VStr "1 m"))] (Some test_root)
               = Ok true) by (vm_compute; reflexivity).
  repeat (split; [assumption|]).
  exact (proj1 (validation_success_by_paths test_nexus elementwise_eq
                  [(distance_path, Some (VStr "1 m"))] test_root
                  [distance_path; size_path])
           [size_path; distance_path; size_path] H1 H2).
Defined.
